(** * ovn-lab-builder: configuration model, topology deriver and reconciler

    A shallow embedding of [schema.py], [topology.py] and [ovn_builder.py],
    followed by the properties of the lab specification that were checked
    against it.

    Conventions.  Python integers are [Z]; [str] is [string]; [Optional[T]]
    is [option T]; a Python exception is the [Raise] branch of [res].  A
    [dict] that the code iterates over (so that insertion order is visible)
    is an association list updated with [dict_set]; a [dict] that is only
    looked up is a [gmap]. *)

From stdpp Require Import gmap strings list pretty.
From Stdlib Require Import ZArith Lia Ascii String.

Local Open Scope Z_scope.

(** ** Python run-time behaviour used by the sources *)

Module Py.

Inductive exn : Type :=
| ValueError (msg : string)
| AttributeError (msg : string)
| ValidationError (errors : list string).

Inductive res (A : Type) : Type :=
| Ok (a : A)
| Raise (e : exn).
Arguments Ok {A} a.
Arguments Raise {A} e.

Definition bind {A B : Type} (m : res A) (k : A → res B) : res B :=
  match m with
  | Ok a => k a
  | Raise e => Raise e
  end.

Definition is_ok {A : Type} (m : res A) : bool :=
  match m with Ok _ => true | Raise _ => false end.

(** The double quote character, as a string. *)
Definition quote : string :=
  String (Ascii false true false false false true false false) EmptyString.

(** [sys.platform] *)
Class Platform : Type := sys_platform : string.

(** Truth value of an [Optional[str]]: [None] and the empty string are false. *)
Definition truthy_str (v : option string) : bool :=
  match v with
  | Some s => negb (String.eqb s EmptyString)
  | None => false
  end.

(** Truth value of an [Optional[list]]. *)
Definition truthy_list {A : Type} (v : option (list A)) : bool :=
  match v with
  | Some (_ :: _) => true
  | _ => false
  end.

(** [a or b] on [Optional[int]]: [a] when it is neither [None] nor zero. *)
Definition or_int (a b : option Z) : option Z :=
  match a with
  | Some z => if z =? 0 then b else a
  | None => b
  end.

(** [range(lo, hi)] *)
Definition range (lo hi : Z) : list Z :=
  (λ i : nat, lo + Z.of_nat i) <$> seq 0 (Z.to_nat (hi - lo)).

Definition hex_digit (d : Z) : ascii :=
  match d with
  | 0 => "0" | 1 => "1" | 2 => "2" | 3 => "3" | 4 => "4" | 5 => "5"
  | 6 => "6" | 7 => "7" | 8 => "8" | 9 => "9" | 10 => "a" | 11 => "b"
  | 12 => "c" | 13 => "d" | 14 => "e" | _ => "f"
  end%char.

Fixpoint hex_go (fuel : nat) (n : Z) (acc : string) : string :=
  let acc' := String (hex_digit (n mod 16)) acc in
  match fuel with
  | O => acc'
  | S fuel' => if n / 16 =? 0 then acc' else hex_go fuel' (n / 16) acc'
  end.

(** Lower-case hexadecimal digits of a non-negative integer. *)
Definition hex (n : Z) : string := hex_go (Z.to_nat (Z.log2 n)) n EmptyString.

(** The format specification [:02x]: lower-case hexadecimal, zero-padded to
    a width of at least two, the sign counting towards the width. *)
Definition format_02x (n : Z) : string :=
  if n <? 0 then "-" +:+ hex (- n)
  else let h := hex n in
       if (String.length h <? 2)%nat then "0" +:+ h else h.

(** Exactly two lower-case hexadecimal digits. *)
Definition two_hex (s : string) : bool :=
  match s with
  | String a (String b EmptyString) =>
      existsb (Ascii.eqb a) (list_ascii_of_string "0123456789abcdef")
      && existsb (Ascii.eqb b) (list_ascii_of_string "0123456789abcdef")
  | _ => false
  end.

(** [str(n)] for an integer. *)
Definition str_int (n : Z) : string := pretty n.

Definition lower_char (c : ascii) : ascii :=
  let n := nat_of_ascii c in
  if ((65 <=? n) && (n <=? 90))%nat then ascii_of_nat (n + 32) else c.

(** [s.lower()] on ASCII text. *)
Fixpoint lower (s : string) : string :=
  match s with
  | EmptyString => EmptyString
  | String c s' => String (lower_char c) (lower s')
  end.

Fixpoint split_go (sep : ascii) (s : string) (cur : string) : list string :=
  match s with
  | EmptyString => [cur]
  | String c s' =>
      if Ascii.eqb c sep then cur :: split_go sep s' EmptyString
      else split_go sep s' (cur +:+ String c EmptyString)
  end.

(** [s.split(sep)] for a one-character separator. *)
Definition split (sep : ascii) (s : string) : list string := split_go sep s EmptyString.

(** [all(c in allowed for c in s)] *)
Fixpoint all_in (allowed : string) (s : string) : bool :=
  match s with
  | EmptyString => true
  | String c s' =>
      existsb (Ascii.eqb c) (list_ascii_of_string allowed) && all_in allowed s'
  end.

(** Python values as they appear in a validator's [values] dictionary; of a
    list only the length is kept. *)
Inductive value : Type :=
| VNone
| VInt (z : Z)
| VStr (s : string)
| VBool (b : bool)
| VEnum (v : string)
| VList (len : nat)
| VObj (cls : string).

(** [v == member] for a member of a [str]-based [Enum]. *)
Definition eq_enum (v : value) (member : string) : bool :=
  match v with
  | VEnum x | VStr x => String.eqb x member
  | _ => false
  end.

Definition is_None (v : value) : bool :=
  match v with VNone => true | _ => false end.

(** [d.get(k)] on a [dict] that is only looked up. *)
Definition get (k : string) (d : gmap string value) : value :=
  default VNone (d !! k).

Definition errors_of {A : Type} (m : res A) : list string :=
  match m with
  | Ok _ => []
  | Raise (ValidationError errs) => errs
  | Raise (ValueError msg) => [msg]
  | Raise (AttributeError msg) => [msg]
  end.

Definition to_option {A : Type} (m : res A) : option A :=
  match m with Ok a => Some a | Raise _ => None end.

(** An insertion-ordered [dict] with string keys: assigning to a key that is
    present replaces the value in place, a new key goes to the end. *)
Fixpoint dict_set {V : Type} (k : string) (v : V) (d : list (string * V))
  : list (string * V) :=
  match d with
  | [] => [(k, v)]
  | (k', v') :: d' =>
      if String.eqb k' k then (k, v) :: d' else (k', v') :: dict_set k v d'
  end.

Fixpoint dict_get {V : Type} (k : string) (d : list (string * V)) : option V :=
  match d with
  | [] => None
  | (k', v') :: d' => if String.eqb k' k then Some v' else dict_get k d'
  end.

(** [d.values()] *)
Definition dict_values {V : Type} (d : list (string * V)) : list V := d.*2.

End Py.

Export Py (res, Ok, Raise).

#[global] Instance res_ret : MRet Py.res := @Py.Ok.
#[global] Instance res_bind : MBind Py.res := λ A B k m, Py.bind m k.

(** ** The part of the [ipaddress] standard module that the sources use *)

Module ipaddress.

(** An [IPv4Network]: the network address as a 32-bit integer and the prefix
    length.  Parsing is strict, so the host bits of the address are zero. *)
Record IPv4Network : Type := mk_network {
  network_address : Z;
  prefixlen : Z;
}.

Definition hostmask (n : IPv4Network) : Z := 2 ^ (32 - prefixlen n) - 1.

Definition broadcast_address (n : IPv4Network) : Z :=
  Z.lor (network_address n) (hostmask n).

(** What strict parsing guarantees. *)
Definition wf (n : IPv4Network) : Prop :=
  0 ≤ prefixlen n ≤ 32 ∧
  0 ≤ network_address n < 2 ^ 32 ∧
  Z.land (network_address n) (hostmask n) = 0.

(** [list(network)]: every address, network and broadcast included. *)
Definition iter (n : IPv4Network) : list Z :=
  Py.range (network_address n) (broadcast_address n + 1).

(** [network.hosts()], as the library documents it: the addresses strictly
    between network and broadcast; a /31 yields both of its addresses and a
    /32 its single address. *)
Definition hosts (n : IPv4Network) : list Z :=
  if prefixlen n =? 31 then iter n
  else if prefixlen n =? 32 then [network_address n]
  else Py.range (network_address n + 1) (broadcast_address n).

(** [str(address)]: dotted quad. *)
Definition str_address (a : Z) : string :=
  Py.str_int (Z.shiftr a 24 mod 256) +:+ "." +:+
  Py.str_int (Z.shiftr a 16 mod 256) +:+ "." +:+
  Py.str_int (Z.shiftr a 8 mod 256) +:+ "." +:+
  Py.str_int (a mod 256).

(** [str(network)] *)
Definition str_network (n : IPv4Network) : string :=
  str_address (network_address n) +:+ "/" +:+ Py.str_int (prefixlen n).

(** The constructor [IPv4Network(text)]; [None] stands for its [ValueError].
    The grammar of the text belongs to the standard library, so the
    development is parametric in it. *)
Class Parser : Type := parse : string → option IPv4Network.

End ipaddress.

(** ** The validation rules of pydantic (version 1) that the schema relies on

    A model is validated field by field, in declaration order.  A field whose
    validation fails is left out of [values]; keys of the input that are not
    declared fields are ignored.  Root validators run afterwards on [values].
    The model is rejected with a [ValidationError] when any error was
    collected.  A field validator is not run for a key that is absent from the
    input; it is run for an explicit null. *)

Module pydantic.

(** A key of the input object. *)
Inductive field (A : Type) : Type :=
| Missing
| Null
| Given (a : A).
Arguments Missing {A}.
Arguments Null {A}.
Arguments Given {A} a.

(** Validation of the items of a [List[Model]] field, keeping every error. *)
Fixpoint validate_list {A B : Type} (f : A → res B) (l : list A)
  : res (list B) :=
  match l with
  | [] => Ok []
  | x :: l' =>
      match f x, validate_list f l' with
      | Ok y, Ok ys => Ok (y :: ys)
      | rx, rl => Raise (Py.ValidationError (Py.errors_of rx ++ Py.errors_of rl))
      end
  end.

(** [hasattr(obj, name)] on a model instance with the given fields. *)
Definition hasattr (fields : list string) (name : string) : bool :=
  bool_decide (name ∈ fields).

(** [setattr(obj, name, v)] on a model instance: a name that is not a
    declared field is refused (the default [Config.extra]). *)
Definition setattr (cls : string) (fields : list string) (name : string)
  : res unit :=
  if bool_decide (name ∈ fields) then Ok ()
  else Raise (Py.ValueError (Py.quote +:+ cls +:+ Py.quote +:+
                             " object has no field " +:+
                             Py.quote +:+ name +:+ Py.quote)).

End pydantic.

(** ** schema.py *)

Module schema.
Import pydantic.

Inductive AddressingMode : Type := DYNAMIC | STATIC | UNKNOWN.
Inductive SwitchType : Type := NORMAL | MGMT | P2P.

#[global] Instance AddressingMode_eq_dec : EqDecision AddressingMode.
Proof. solve_decision. Defined.
#[global] Instance SwitchType_eq_dec : EqDecision SwitchType.
Proof. solve_decision. Defined.

Definition AddressingMode_value (m : AddressingMode) : string :=
  match m with DYNAMIC => "dynamic" | STATIC => "static" | UNKNOWN => "unknown" end.

Definition SwitchType_value (t : SwitchType) : string :=
  match t with NORMAL => "normal" | MGMT => "mgmt" | P2P => "p2p" end.

Module Port.
(** The input object. *)
Record raw : Type := mk_raw {
  raw_name : string;
  raw_addressing : AddressingMode;
  raw_ip : field string;
}.

Record t : Type := mk {
  name : string;
  addressing : AddressingMode;
  ip : option string;
}.

Definition validate_ip_if_static (v : option string)
    (values : gmap string Py.value) : res (option string) :=
  if Py.eq_enum (Py.get "addressing" values) (AddressingMode_value STATIC)
     && negb (Py.truthy_str v)
  then Raise (Py.ValueError "IP address must be provided when addressing mode is 'static'")
  else Ok v.

Definition validate (r : raw) : res t :=
  let values : gmap string Py.value :=
    <["addressing" := Py.VEnum (AddressingMode_value (raw_addressing r))]>
      (<["name" := Py.VStr (raw_name r)]> ∅) in
  let ip_r :=
    match raw_ip r with
    | Missing => Ok None
    | Null => validate_ip_if_static None values
    | Given s => validate_ip_if_static (Some s) values
    end in
  match ip_r with
  | Ok v => Ok {| name := raw_name r; addressing := raw_addressing r; ip := v |}
  | Raise e => Raise (Py.ValidationError (Py.errors_of ip_r))
  end.
End Port.

Module Switch.
Record raw : Type := mk_raw {
  raw_name : string;
  raw_id : Z;
  raw_type : SwitchType;
  raw_subnet : string;
  raw_dhcp_enable : bool;
  raw_routed : bool;
  raw_port_count : option Z;
  raw_ports : option (list Port.raw);
}.

Record t : Type := mk {
  name : string;
  id : Z;
  type : SwitchType;
  subnet : string;
  dhcp_enable : bool;
  routed : bool;
  port_count : option Z;
  ports : option (list Port.t);
}.

(** The declared fields, which are also the attributes of an instance. *)
Definition fields : list string :=
  ["name"; "id"; "type"; "subnet"; "dhcp_enable"; "routed"; "port_count"; "ports"].

Definition validate_subnet `{ipaddress.Parser} (v : string) : res string :=
  match ipaddress.parse v with
  | Some _ => Ok v
  | None => Raise (Py.ValueError ("Invalid subnet: " +:+ v))
  end.

Definition validate_ports_or_count (values : gmap string Py.value)
  : res (gmap string Py.value) :=
  if negb (Py.is_None (Py.get "ports" values))
     && negb (Py.is_None (Py.get "port_count" values))
  then Raise (Py.ValueError "Cannot specify both 'ports' and 'port_count'")
  else if Py.is_None (Py.get "ports" values)
          && Py.is_None (Py.get "port_count" values)
  then
    let vpc_port_count := Py.get "vpc_port_count" values in
    if Py.is_None vpc_port_count
    then Raise (Py.ValueError "Must specify either 'ports' or 'port_count'")
    else Ok values
  else Ok values.

Definition opt_value {A : Type} (f : A → Py.value) (o : option A) : Py.value :=
  match o with Some a => f a | None => Py.VNone end.

(** The [values] handed to the root validator: the declared fields whose
    own validation succeeded. *)
Definition values_of (r : raw) (subnet_r : res string)
    (ports_r : res (option (list Port.t))) : gmap string Py.value :=
  let v0 : gmap string Py.value :=
    <["port_count" := opt_value Py.VInt (raw_port_count r)]>
      (<["routed" := Py.VBool (raw_routed r)]>
        (<["dhcp_enable" := Py.VBool (raw_dhcp_enable r)]>
          (<["type" := Py.VEnum (SwitchType_value (raw_type r))]>
            (<["id" := Py.VInt (raw_id r)]>
              (<["name" := Py.VStr (raw_name r)]> ∅))))) in
  let v1 :=
    match subnet_r with
    | Ok s => <["subnet" := Py.VStr s]> v0
    | Raise _ => v0
    end in
  match ports_r with
  | Ok ps => <["ports" := opt_value (λ l : list Port.t, Py.VList (List.length l)) ps]> v1
  | Raise _ => v1
  end.

Definition validate `{ipaddress.Parser} (r : raw) : res t :=
  let subnet_r := validate_subnet (raw_subnet r) in
  let ports_r : res (option (list Port.t)) :=
    match raw_ports r with
    | None => Ok None
    | Some l => Py.bind (validate_list Port.validate l) (λ ps, Ok (Some ps))
    end in
  let root_r := validate_ports_or_count (values_of r subnet_r ports_r) in
  match subnet_r, ports_r, root_r with
  | Ok s, Ok ps, Ok _ =>
      Ok {| name := raw_name r; id := raw_id r; type := raw_type r;
            subnet := s; dhcp_enable := raw_dhcp_enable r;
            routed := raw_routed r; port_count := raw_port_count r;
            ports := ps |}
  | _, _, _ =>
      Raise (Py.ValidationError
               (Py.errors_of subnet_r ++ Py.errors_of ports_r ++ Py.errors_of root_r))
  end.
End Switch.

Module VPC.
Record t : Type := mk {
  name : string;
  mac_prefix : string;
  id : Z;
  port_count : option Z;
}.

Definition validate_mac_prefix (v : string) : res string :=
  if negb (Py.all_in "0123456789abcdef:" (Py.lower v))
  then Raise (Py.ValueError ("Invalid MAC prefix: " +:+ v))
  else
    let parts := Py.split ":" v in
    if negb (List.length parts =? 3)%nat
    then Raise (Py.ValueError ("MAC prefix must have 3 octets: " +:+ v))
    else if negb (forallb (λ part, (String.length part =? 2)%nat) parts)
    then Raise (Py.ValueError ("Each octet must be 2 hex digits: " +:+ v))
    else Ok (Py.lower v).

(** The input has the shape of the model; only [mac_prefix] is rewritten. *)
Definition validate (r : t) : res t :=
  match validate_mac_prefix (mac_prefix r) with
  | Ok m => Ok {| name := name r; mac_prefix := m; id := id r;
                  port_count := port_count r |}
  | Raise e => Raise (Py.ValidationError (Py.errors_of (validate_mac_prefix (mac_prefix r))))
  end.
End VPC.

Module LabConfig.
Record raw : Type := mk_raw {
  raw_vpc : VPC.t;
  raw_switches : list Switch.raw;
}.

Record t : Type := mk {
  vpc : VPC.t;
  switches : list Switch.t;
}.

(** [len(ids) != len(set(ids))] *)
Definition validate_switch_ids (v : list Switch.t) : res (list Switch.t) :=
  let ids := Switch.id <$> v in
  if negb (List.length ids =? size (list_to_set ids : gset Z))%nat
  then Raise (Py.ValueError "Switch IDs must be unique")
  else Ok v.

Fixpoint inject_loop (vpc : VPC.t) (switches : list Switch.t) : res unit :=
  match switches with
  | [] => Ok ()
  | switch :: rest =>
      _ ← (if negb (hasattr Switch.fields "vpc_port_count")
              && bool_decide (VPC.port_count vpc ≠ None)
           then setattr "Switch" Switch.fields "vpc_port_count"
           else Ok ());
      inject_loop vpc rest
  end.

(** [values.get('vpc')] and [values.get('switches')] are passed as options:
    a field that failed validation is absent from [values]. *)
Definition inject_vpc_port_count (vpc : option VPC.t)
    (switches : option (list Switch.t)) : res unit :=
  match vpc, switches with
  | Some vpc, Some (sw :: sws) => inject_loop vpc (sw :: sws)
  | _, _ => Ok ()
  end.

Definition validate `{ipaddress.Parser} (r : raw) : res t :=
  let vpc_r := VPC.validate (raw_vpc r) in
  let switches_r :=
    Py.bind (validate_list Switch.validate (raw_switches r)) validate_switch_ids in
  let root_r := inject_vpc_port_count (Py.to_option vpc_r) (Py.to_option switches_r) in
  match vpc_r, switches_r, root_r with
  | Ok v, Ok sws, Ok _ => Ok {| vpc := v; switches := sws |}
  | _, _, _ =>
      Raise (Py.ValidationError
               (Py.errors_of vpc_r ++ Py.errors_of switches_r ++ Py.errors_of root_r))
  end.
End LabConfig.

End schema.

(** ** topology.py *)

Module topology.
Import schema.

Module LogicalSwitchPort.
Record t : Type := mk {
  vpc_name : string;
  switch_name : string;
  port_name : string;
  vpc_id : Z;
  switch_id : Z;
  port_index : Z;
  mac_prefix : string;
  addressing : AddressingMode;
  ip : option string;
  subnet : option ipaddress.IPv4Network;
}.

Definition full_name (self : t) : string :=
  vpc_name self +:+ "-" +:+ switch_name self +:+ "-" +:+ port_name self.

Definition mac (self : t) : string :=
  mac_prefix self +:+ ":" +:+ Py.format_02x (vpc_id self) +:+ ":" +:+
  Py.format_02x (switch_id self) +:+ ":" +:+ Py.format_02x (port_index self).

Definition port_security (self : t) : list string :=
  match ip self with
  | Some a =>
      if bool_decide (addressing self = STATIC) && Py.truthy_str (Some a)
      then [mac self +:+ " " +:+ a]
      else [mac self]
  | None => [mac self]
  end.
End LogicalSwitchPort.

Module LogicalSwitch.
(** [vpc_mac_prefix] and [vpc_id] are the two attributes that
    [dhcp_server_mac] reads; [None] is an attribute the instance does not
    have. *)
Record t : Type := mk {
  vpc_name : string;
  name : string;
  id : Z;
  type : SwitchType;
  subnet_str : string;
  subnet : ipaddress.IPv4Network;
  dhcp_enable : bool;
  routed : bool;
  ports : list LogicalSwitchPort.t;
  dhcp_options : option (list (string * string));
  vpc_mac_prefix : option string;
  vpc_id : option Z;
}.

(** The constructor assigns neither [vpc_mac_prefix] nor [vpc_id]. *)
Definition __init__ `{ipaddress.Parser} (vpc_name name : string)
    (switch_id : Z) (switch_type : SwitchType) (subnet : string)
    (dhcp_enable routed : bool) : res t :=
  match ipaddress.parse subnet with
  | None => Raise (Py.ValueError ("Invalid subnet: " +:+ subnet))
  | Some net =>
      Ok {| vpc_name := vpc_name; name := name; id := switch_id;
            type := switch_type; subnet_str := subnet; subnet := net;
            dhcp_enable := dhcp_enable; routed := routed; ports := [];
            dhcp_options := None; vpc_mac_prefix := None; vpc_id := None |}
  end.

Definition full_name (self : t) : string :=
  vpc_name self +:+ "-" +:+ name self.

Definition router_port_ip (self : t) : option string :=
  if negb (routed self) then None
  else
    match ipaddress.hosts (subnet self) with
    | [] =>
        if ipaddress.prefixlen (subnet self) =? 31
        then Some (ipaddress.str_address (ipaddress.network_address (subnet self)))
        else None
    | h :: _ =>
        Some (ipaddress.str_address h +:+ "/" +:+
              Py.str_int (ipaddress.prefixlen (subnet self)))
    end.

Definition dhcp_server_mac (self : t) : res string :=
  match vpc_mac_prefix self with
  | None =>
      Raise (Py.AttributeError "'LogicalSwitch' object has no attribute 'vpc_mac_prefix'")
  | Some prefix =>
      match vpc_id self with
      | None =>
          Raise (Py.AttributeError "'LogicalSwitch' object has no attribute 'vpc_id'")
      | Some v =>
          Ok (prefix +:+ ":" +:+ Py.format_02x v +:+ ":" +:+
              Py.format_02x (id self) +:+ ":00")
      end
  end.

Definition router_port_mac (self : t) : res (option string) :=
  if negb (routed self) || negb (dhcp_enable self) then Ok None
  else m ← dhcp_server_mac self; Ok (Some m).

Definition usable_ips (self : t) : list Z :=
  if ipaddress.prefixlen (subnet self) =? 31 then ipaddress.iter (subnet self)
  else
    let hosts := ipaddress.hosts (subnet self) in
    if dhcp_enable self && (4 <? List.length hosts)%nat
    then drop 4 hosts
    else hosts.

Definition add_port (self : t) (port : LogicalSwitchPort.t) : t :=
  {| vpc_name := vpc_name self; name := name self; id := id self;
     type := type self; subnet_str := subnet_str self; subnet := subnet self;
     dhcp_enable := dhcp_enable self; routed := routed self;
     ports := ports self ++ [port];
     dhcp_options := dhcp_options self;
     vpc_mac_prefix := vpc_mac_prefix self; vpc_id := vpc_id self |}.

Definition set_dhcp_options (self : t) (o : list (string * string)) : t :=
  {| vpc_name := vpc_name self; name := name self; id := id self;
     type := type self; subnet_str := subnet_str self; subnet := subnet self;
     dhcp_enable := dhcp_enable self; routed := routed self;
     ports := ports self;
     dhcp_options := Some o;
     vpc_mac_prefix := vpc_mac_prefix self; vpc_id := vpc_id self |}.
End LogicalSwitch.

Module LogicalRouter.
Record t : Type := mk {
  vpc_name : string;
  switch_ports : gmap string (string * string);
}.

Definition __init__ (vpc_name : string) : t :=
  {| vpc_name := vpc_name; switch_ports := ∅ |}.

Definition full_name (self : t) : string := vpc_name self +:+ "-lr".

Definition add_switch (self : t) (switch : LogicalSwitch.t) : res t :=
  if negb (LogicalSwitch.routed switch) then Ok self
  else
    let router_ip := LogicalSwitch.router_port_ip switch in
    router_mac ← LogicalSwitch.router_port_mac switch;
    match router_ip, router_mac with
    | Some ip, Some mac =>
        if Py.truthy_str router_ip && Py.truthy_str router_mac
        then Ok {| vpc_name := vpc_name self;
                   switch_ports :=
                     <[LogicalSwitch.name switch := (ip, mac)]> (switch_ports self) |}
        else Ok self
    | _, _ => Ok self
    end.
End LogicalRouter.

Module Topology.
Record t : Type := mk {
  config : LabConfig.t;
  vpc_name : string;
  mac_prefix : string;
  vpc_id : Z;
  switches : list (string * LogicalSwitch.t);
  router : option LogicalRouter.t;
}.

Definition set_switches (self : t) (d : list (string * LogicalSwitch.t)) : t :=
  {| config := config self; vpc_name := vpc_name self;
     mac_prefix := mac_prefix self; vpc_id := vpc_id self;
     switches := d; router := router self |}.

Definition set_router (self : t) (r : option LogicalRouter.t) : t :=
  {| config := config self; vpc_name := vpc_name self;
     mac_prefix := mac_prefix self; vpc_id := vpc_id self;
     switches := switches self; router := r |}.

(** The port built from an explicit description, [idx] counting from 0. *)
Definition explicit_port (self : t) (switch : LogicalSwitch.t)
    (idx : nat) (port_config : Port.t) : LogicalSwitchPort.t :=
  {| LogicalSwitchPort.vpc_name := vpc_name self;
     LogicalSwitchPort.switch_name := LogicalSwitch.name switch;
     LogicalSwitchPort.port_name := Port.name port_config;
     LogicalSwitchPort.vpc_id := vpc_id self;
     LogicalSwitchPort.switch_id := LogicalSwitch.id switch;
     LogicalSwitchPort.port_index := Z.of_nat idx + 1;
     LogicalSwitchPort.mac_prefix := mac_prefix self;
     LogicalSwitchPort.addressing := Port.addressing port_config;
     LogicalSwitchPort.ip := Port.ip port_config;
     LogicalSwitchPort.subnet := Some (LogicalSwitch.subnet switch) |}.

(** The autogenerated port number [idx], counting from 0. *)
Definition auto_port (self : t) (switch : LogicalSwitch.t) (idx : Z)
  : LogicalSwitchPort.t :=
  {| LogicalSwitchPort.vpc_name := vpc_name self;
     LogicalSwitchPort.switch_name := LogicalSwitch.name switch;
     LogicalSwitchPort.port_name := "lsp" +:+ Py.str_int (idx + 1);
     LogicalSwitchPort.vpc_id := vpc_id self;
     LogicalSwitchPort.switch_id := LogicalSwitch.id switch;
     LogicalSwitchPort.port_index := idx + 1;
     LogicalSwitchPort.mac_prefix := mac_prefix self;
     LogicalSwitchPort.addressing :=
       if LogicalSwitch.dhcp_enable switch then DYNAMIC else UNKNOWN;
     LogicalSwitchPort.ip := None;
     LogicalSwitchPort.subnet := Some (LogicalSwitch.subnet switch) |}.

Definition _add_ports_to_switch (self : t) (switch : LogicalSwitch.t)
    (switch_config : Switch.t) : LogicalSwitch.t :=
  if Py.truthy_list (Switch.ports switch_config) then
    foldl LogicalSwitch.add_port switch
      (imap (explicit_port self switch) (default [] (Switch.ports switch_config)))
  else
    match Py.or_int (Switch.port_count switch_config)
            (VPC.port_count (LabConfig.vpc (config self))) with
    | None => switch
    | Some port_count =>
        let usable_ips := LogicalSwitch.usable_ips switch in
        let actual_port_count :=
          Z.min port_count (Z.of_nat (List.length usable_ips)) in
        foldl LogicalSwitch.add_port switch
          (auto_port self switch <$> Py.range 0 actual_port_count)
    end.

Definition _setup_dhcp_options (self : t) (switch : LogicalSwitch.t)
  : res LogicalSwitch.t :=
  if negb (LogicalSwitch.dhcp_enable switch) then Ok switch
  else
    match ipaddress.hosts (LogicalSwitch.subnet switch) with
    | [] => Ok switch
    | h :: _ =>
        let server_ip := ipaddress.str_address h in
        let dns_server := "8.8.8.8" in
        server_mac ← LogicalSwitch.dhcp_server_mac switch;
        Ok (LogicalSwitch.set_dhcp_options switch
              [("server_id", server_ip); ("server_mac", server_mac);
               ("router", server_ip); ("dns_server", dns_server);
               ("lease_time", "3600")])
    end.

(** The body of the first loop of [_build_topology]: the switch built from
    one descriptor. *)
Definition create_switch `{ipaddress.Parser} (self : t)
    (switch_config : Switch.t) : res LogicalSwitch.t :=
  switch ← LogicalSwitch.__init__ (vpc_name self)
             (Switch.name switch_config) (Switch.id switch_config)
             (Switch.type switch_config) (Switch.subnet switch_config)
             (Switch.dhcp_enable switch_config) (Switch.routed switch_config);
  let switch := _add_ports_to_switch self switch switch_config in
  if LogicalSwitch.dhcp_enable switch
  then _setup_dhcp_options self switch
  else Ok switch.

(** The first loop of [_build_topology]. *)
Fixpoint create_switches `{ipaddress.Parser} (self : t)
    (switch_configs : list Switch.t) : res t :=
  match switch_configs with
  | [] => Ok self
  | switch_config :: rest =>
      switch ← create_switch self switch_config;
      create_switches
        (set_switches self
           (Py.dict_set (LogicalSwitch.name switch) switch (switches self)))
        rest
  end.

(** The second loop of [_build_topology]. *)
Fixpoint connect_switches (router : LogicalRouter.t)
    (values : list LogicalSwitch.t) : res LogicalRouter.t :=
  match values with
  | [] => Ok router
  | switch :: rest =>
      router ← (if LogicalSwitch.routed switch
                then LogicalRouter.add_switch router switch
                else Ok router);
      connect_switches router rest
  end.

Definition _build_topology `{ipaddress.Parser} (self : t) : res t :=
  self ← create_switches self (LabConfig.switches (config self));
  if existsb LogicalSwitch.routed (Py.dict_values (switches self)) then
    router ← connect_switches (LogicalRouter.__init__ (vpc_name self))
                              (Py.dict_values (switches self));
    Ok (set_router self (Some router))
  else Ok self.

(** The attributes assigned by [__init__] before [_build_topology] runs. *)
Definition blank (config : LabConfig.t) : t :=
  {| config := config;
     vpc_name := VPC.name (LabConfig.vpc config);
     mac_prefix := VPC.mac_prefix (LabConfig.vpc config);
     vpc_id := VPC.id (LabConfig.vpc config);
     switches := [];
     router := None |}.

Definition __init__ `{ipaddress.Parser} (config : LabConfig.t) : res t :=
  _build_topology (blank config).
End Topology.

End topology.

(** ** ovn_builder.py *)

Module ovn_builder.
Import schema.

(** The commands of the northbound API that the builder adds to a
    transaction.  [ls_set_dhcpv4_options] refers to the options row created
    by the [dhcp_options_add] of the same transaction. *)
Inductive op : Type :=
| lr_add (name : string) (external_ids options : list (string * string))
| ls_add (name : string) (external_ids other_config : list (string * string))
| dhcp_options_add (cidr : string) (options external_ids : list (string * string))
| ls_set_dhcpv4_options (switch : string)
| ls_set_other_config (switch : string) (other_config : list (string * string))
| lsp_add (switch name : string) (external_ids : list (string * string))
| lsp_set_addresses (name : string) (addresses : list string)
| lsp_set_port_security (name : string) (rules : list string)
| lsp_set_type (name type : string)
| lsp_set_options (name : string) (options : list (string * string))
| lrp_add (router name mac : string) (networks : list string)
          (external_ids : list (string * string))
| lr_del (name : string)
| ls_del (name : string)
| lsp_del (name : string)
| lrp_del (name : string)
| dhcp_options_del (uuid : nat).

#[global] Instance op_eq_dec : EqDecision op.
Proof. solve_decision. Defined.

Definition is_create (o : op) : bool :=
  match o with
  | lr_add _ _ _ | ls_add _ _ _ | dhcp_options_add _ _ _
  | lsp_add _ _ _ | lrp_add _ _ _ _ _ => true
  | _ => false
  end.

Definition is_delete (o : op) : bool :=
  match o with
  | lr_del _ | ls_del _ | lsp_del _ | lrp_del _ | dhcp_options_del _ => true
  | _ => false
  end.

(** The control plane, as the builder sees it: the truth value of each
    [*_get(name).execute(check_error=False)], the rows of
    [dhcp_options_list()] as (uuid, cidr) pairs, and the effect of
    committing a transaction. *)
Class Northbound (NB : Type) : Type := {
  lr_get : string → NB → bool;
  ls_get : string → NB → bool;
  lsp_get : string → NB → bool;
  lrp_get : string → NB → bool;
  dhcp_options_list : NB → list (nat * string);
  commit : list op → NB → NB;
}.

(** The objects handed to the builder, reduced to the attributes it reads.
    The builder is indifferent to their class: the repository's own tests
    pass stand-ins with these attributes set directly. *)
Module PortView.
Record t : Type := mk {
  full_name : string;
  addressing : AddressingMode;
  ip : option string;
  mac : string;
  port_security : list string;
}.
End PortView.

Module SwitchView.
Record t : Type := mk {
  name : string;
  full_name : string;
  type : SwitchType;
  subnet_str : string;
  subnet : ipaddress.IPv4Network;
  dhcp_enable : bool;
  routed : bool;
  dhcp_options : option (list (string * string));
  ports : list PortView.t;
  router_port_ip : option string;
  router_port_mac : res (option string);
}.
End SwitchView.

Module RouterView.
Record t : Type := mk { full_name : string }.
End RouterView.

Module TopologyView.
(** [switches] is [topology.switches.values()]. *)
Record t : Type := mk {
  vpc_name : string;
  switches : list SwitchView.t;
  router : option RouterView.t;
}.
End TopologyView.

Definition owned : list (string * string) := [("ovn-lab-builder", "true")].

(** ovsdbapp, as the constructor of the builder uses it: a [Connection] is
    made from a connection string and a timeout, an API object from a
    connection, and each of these calls may raise. *)
Class Ovsdbapp : Type := {
  connection : Type;
  Connection : string → Z → res connection;
  OvnNbApiIdlImpl : connection → res unit;
  OvnSbApiIdlImpl : connection → res unit;
}.

Module OvnBuilder.

(** The constructor returns the builder whose northbound API reaches the
  database of the [state] below. *)
Definition __init__ `{Ovsdbapp}
  (nb_connection_string sb_connection_string : string) : res unit :=
nb_conn ← Connection nb_connection_string 60;
sb_conn ← Connection sb_connection_string 60;
OvnNbApiIdlImpl nb_conn;;
OvnSbApiIdlImpl sb_conn.

Section with_backend.
Context {NB : Type} `{Northbound NB}.

(** The database and the transactions committed so far, oldest first. *)
Definition state : Type := NB * list (list op).

Definition commit_txn (txn : list op) (s : state) : state :=
(commit txn s.1, s.2 ++ [txn]).

Definition _create_logical_router (router : RouterView.t) (s : state) : state :=
let name := RouterView.full_name router in
if lr_get name s.1 then s
else commit_txn
       [lr_add name owned
          [("always_learn_from_arp_request", "false");
           ("dynamic_neigh_routers", "true")]] s.

Definition _create_logical_switch (switch : SwitchView.t) (s : state) : state :=
let name := SwitchView.full_name switch in
if ls_get name s.1 then s
else commit_txn
       [ls_add name
          [("ovn-lab-builder", "true");
           ("switch-type", SwitchType_value (SwitchView.type switch))]
          [("subnet", SwitchView.subnet_str switch)]] s.

Definition _create_dhcp_options (switch : SwitchView.t) (s : state) : state :=
match SwitchView.dhcp_options switch with
| None | Some [] => s
| Some options =>
    let cidr := ipaddress.str_network (SwitchView.subnet switch) in
    let hosts := ipaddress.hosts (SwitchView.subnet switch) in
    commit_txn
      ([dhcp_options_add cidr options owned;
        ls_set_dhcpv4_options (SwitchView.full_name switch)] ++
       (if (ipaddress.prefixlen (SwitchView.subnet switch) <? 31)
           && (4 <=? List.length hosts)%nat
        then [ls_set_other_config (SwitchView.full_name switch)
                [("exclude_ips",
                  String.concat "," (ipaddress.str_address <$> take 4 hosts))]]
        else [])) s
end.

Definition _create_logical_switch_port (switch : SwitchView.t)
  (port : PortView.t) (s : state) : state :=
let name := PortView.full_name port in
if lsp_get name s.1 then s
else
  let addresses :=
    if String.eqb (AddressingMode_value (PortView.addressing port)) "dynamic"
    then [PortView.mac port +:+ " dynamic"]
    else if String.eqb (AddressingMode_value (PortView.addressing port)) "static"
            && Py.truthy_str (PortView.ip port)
    then [PortView.mac port +:+ " " +:+ default EmptyString (PortView.ip port)]
    else ["unknown"] in
  commit_txn
    [lsp_add (SwitchView.full_name switch) name owned;
     lsp_set_addresses name addresses;
     lsp_set_port_security name (PortView.port_security port)] s.

Definition router_port_name (switch : SwitchView.t) (router : RouterView.t) : string :=
RouterView.full_name router +:+ "-" +:+ SwitchView.name switch.

Definition switch_port_name (switch : SwitchView.t) (router : RouterView.t) : string :=
SwitchView.full_name switch +:+ "-" +:+ RouterView.full_name router.

Definition _connect_switch_to_router (switch : SwitchView.t)
  (router : RouterView.t) (s : state) : res unit * state :=
let router_ip := SwitchView.router_port_ip switch in
match SwitchView.router_port_mac switch with
| Raise e => (Raise e, s)
| Ok router_mac =>
    if negb (Py.truthy_str router_ip) || negb (Py.truthy_str router_mac)
    then (Ok (), s)
    else
      let existing_router_port := lrp_get (router_port_name switch router) s.1 in
      let existing_switch_port := lsp_get (switch_port_name switch router) s.1 in
      if existing_router_port && existing_switch_port then (Ok (), s)
      else
        (Ok (),
         commit_txn
           ((if negb existing_router_port
             then [lrp_add (RouterView.full_name router)
                     (router_port_name switch router)
                     (default EmptyString router_mac) [default EmptyString router_ip] owned]
             else []) ++
            (if negb existing_switch_port
             then [lsp_add (SwitchView.full_name switch)
                     (switch_port_name switch router) owned;
                   lsp_set_type (switch_port_name switch router) "router";
                   lsp_set_options (switch_port_name switch router)
                     [("router-port", router_port_name switch router)];
                   lsp_set_addresses (switch_port_name switch router) ["router"]]
             else [])) s)
end.

Definition _delete_logical_router (router : RouterView.t) (s : state) : state :=
let name := RouterView.full_name router in
if negb (lr_get name s.1) then s else commit_txn [lr_del name] s.

Definition _delete_logical_switch (switch : SwitchView.t) (s : state) : state :=
let name := SwitchView.full_name switch in
if negb (ls_get name s.1) then s else commit_txn [ls_del name] s.

(** The scan [for opt in dhcp_options: if opt.cidr == cidr: ...; break]. *)
Fixpoint find_cidr (cidr : string) (rows : list (nat * string)) : option nat :=
match rows with
| [] => None
| (uuid, c) :: rest => if String.eqb c cidr then Some uuid else find_cidr cidr rest
end.

Definition _delete_dhcp_options (switch : SwitchView.t) (s : state) : state :=
let cidr := ipaddress.str_network (SwitchView.subnet switch) in
match find_cidr cidr (dhcp_options_list s.1) with
| None => s
| Some dhcp_uuid => commit_txn [dhcp_options_del dhcp_uuid] s
end.

Definition _delete_logical_switch_port (port : PortView.t) (s : state) : state :=
let name := PortView.full_name port in
if negb (lsp_get name s.1) then s else commit_txn [lsp_del name] s.

Definition _disconnect_switch_from_router (switch : SwitchView.t)
  (router : RouterView.t) (s : state) : state :=
let existing_router_port := lrp_get (router_port_name switch router) s.1 in
let existing_switch_port := lsp_get (switch_port_name switch router) s.1 in
commit_txn
  ((if existing_router_port then [lrp_del (router_port_name switch router)] else []) ++
   (if existing_switch_port then [lsp_del (switch_port_name switch router)] else []))
  s.

(** The body of the loop of [build] for one switch. *)
Definition build_switch (topology : TopologyView.t) (switch : SwitchView.t)
  (s : state) : res unit * state :=
let s := _create_logical_switch switch s in
let s :=
  if SwitchView.dhcp_enable switch
     && Py.truthy_list (SwitchView.dhcp_options switch)
  then _create_dhcp_options switch s else s in
let s := foldl (λ s port, _create_logical_switch_port switch port s)
               s (SwitchView.ports switch) in
match SwitchView.routed switch, TopologyView.router topology with
| true, Some router => _connect_switch_to_router switch router s
| _, _ => (Ok (), s)
end.

Fixpoint build_switches (topology : TopologyView.t)
  (switches : list SwitchView.t) (s : state) : res unit * state :=
match switches with
| [] => (Ok (), s)
| switch :: rest =>
    match build_switch topology switch s with
    | (Ok _, s) => build_switches topology rest s
    | (Raise e, s) => (Raise e, s)
    end
end.

Definition build (topology : TopologyView.t) (s : state) : res unit * state :=
let s :=
  match TopologyView.router topology with
  | Some router => _create_logical_router router s
  | None => s
  end in
build_switches topology (TopologyView.switches topology) s.

(** The first loop of [destroy]. *)
Definition destroy_attachments (topology : TopologyView.t) (s : state) : state :=
foldl (λ s switch,
         match SwitchView.routed switch, TopologyView.router topology with
         | true, Some router => _disconnect_switch_from_router switch router s
         | _, _ => s
         end)
      s (TopologyView.switches topology).

(** The body of the second loop of [destroy] for one switch. *)
Definition destroy_switch (switch : SwitchView.t) (s : state) : state :=
let s := foldl (λ s port, _delete_logical_switch_port port s)
               s (SwitchView.ports switch) in
let s := if SwitchView.dhcp_enable switch
         then _delete_dhcp_options switch s else s in
_delete_logical_switch switch s.

Definition destroy (topology : TopologyView.t) (s : state) : state :=
let s := destroy_attachments topology s in
let s :=
  match TopologyView.router topology with
  | Some router => _delete_logical_router router s
  | None => s
  end in
foldl (λ s switch, destroy_switch switch s) s (TopologyView.switches topology).

End with_backend.
End OvnBuilder.

End ovn_builder.

(** ** utils.py *)

Module utils.

(** The dictionary that [get_connection_strings] returns, with its two
    keys. *)
Record connection_strings : Type := mk_connection_strings {
  northbound : string;
  southbound : string;
}.

(** [not socket_dir] holds for [None] and for the empty string. *)
Definition get_connection_strings `{Py.Platform} (socket_dir : option string)
  : connection_strings :=
  let socket_dir :=
    match socket_dir with
    | Some d =>
        if Py.truthy_str socket_dir then d
        else if String.eqb Py.sys_platform "darwin"
             then "/opt/local/var/run/ovn" else "/var/run/ovn"
    | None =>
        if String.eqb Py.sys_platform "darwin"
        then "/opt/local/var/run/ovn" else "/var/run/ovn"
    end in
  {| northbound := "unix:" +:+ socket_dir +:+ "/ovnnb_db.sock";
     southbound := "unix:" +:+ socket_dir +:+ "/ovnsb_db.sock" |}.

End utils.

(** ** cli/main.py: from the decoded configuration to the builder *)

Module main.
Import schema topology ovn_builder.

Definition view_port (p : LogicalSwitchPort.t) : PortView.t :=
  {| PortView.full_name := LogicalSwitchPort.full_name p;
     PortView.addressing := LogicalSwitchPort.addressing p;
     PortView.ip := LogicalSwitchPort.ip p;
     PortView.mac := LogicalSwitchPort.mac p;
     PortView.port_security := LogicalSwitchPort.port_security p |}.

Definition view_switch (sw : LogicalSwitch.t) : SwitchView.t :=
  {| SwitchView.name := LogicalSwitch.name sw;
     SwitchView.full_name := LogicalSwitch.full_name sw;
     SwitchView.type := LogicalSwitch.type sw;
     SwitchView.subnet_str := LogicalSwitch.subnet_str sw;
     SwitchView.subnet := LogicalSwitch.subnet sw;
     SwitchView.dhcp_enable := LogicalSwitch.dhcp_enable sw;
     SwitchView.routed := LogicalSwitch.routed sw;
     SwitchView.dhcp_options := LogicalSwitch.dhcp_options sw;
     SwitchView.ports := view_port <$> LogicalSwitch.ports sw;
     SwitchView.router_port_ip := LogicalSwitch.router_port_ip sw;
     SwitchView.router_port_mac := LogicalSwitch.router_port_mac sw |}.

Definition view_router (r : LogicalRouter.t) : RouterView.t :=
  {| RouterView.full_name := LogicalRouter.full_name r |}.

Definition view_topology (t : Topology.t) : TopologyView.t :=
  {| TopologyView.vpc_name := Topology.vpc_name t;
     TopologyView.switches := view_switch <$> Py.dict_values (Topology.switches t);
     TopologyView.router := view_router <$> Topology.router t |}.

Section with_backend.
Context {NB : Type} `{Northbound NB} `{ipaddress.Parser}
        `{Py.Platform} `{Ovsdbapp}.

(** What both commands do first: validate the decoded configuration and
    derive its topology. *)
Definition derive (raw : LabConfig.raw) : res Topology.t :=
  lab_config ← LabConfig.validate raw;
  Topology.__init__ lab_config.

(** What both commands do next: the connection strings and the builder
    made from them. *)
Definition builder (socket_dir : option string) : res unit :=
  let conn_strings := utils.get_connection_strings socket_dir in
  OvnBuilder.__init__ (utils.northbound conn_strings)
                      (utils.southbound conn_strings).

(** The [build] command on an already decoded configuration.  An
    exception of any step is the one the command reports before it exits
    with status 1. *)
Definition build (raw : LabConfig.raw) (socket_dir : option string)
    (s : OvnBuilder.state) : res unit * OvnBuilder.state :=
  match derive raw with
  | Raise e => (Raise e, s)
  | Ok topology =>
      match builder socket_dir with
      | Raise e => (Raise e, s)
      | Ok _ => OvnBuilder.build (view_topology topology) s
      end
  end.

(** The [destroy] command on an already decoded configuration. *)
Definition destroy (raw : LabConfig.raw) (socket_dir : option string)
    (s : OvnBuilder.state) : res unit * OvnBuilder.state :=
  match derive raw with
  | Raise e => (Raise e, s)
  | Ok topology =>
      match builder socket_dir with
      | Raise e => (Raise e, s)
      | Ok _ => (Ok (), OvnBuilder.destroy (view_topology topology) s)
      end
  end.
End with_backend.
End main.

(** ** Notions used to state properties of the sources *)

Module notions.
Import schema topology.

(** A lower-case hexadecimal digit. *)
Definition is_hex_lower (c : ascii) : bool :=
  existsb (Ascii.eqb c) (list_ascii_of_string "0123456789abcdef").

(** Three groups of two lower-case hexadecimal digits, separated by
    colons. *)
Definition mac_prefix_shape (s : string) : bool :=
  match s with
  | String a (String b (String c (String d (String e (String f
      (String g (String h EmptyString))))))) =>
      is_hex_lower a && is_hex_lower b && Ascii.eqb c ":" &&
      is_hex_lower d && is_hex_lower e && Ascii.eqb f ":" &&
      is_hex_lower g && is_hex_lower h
  | _ => false
  end.

Definition hex_value (c : ascii) : Z :=
  match c with
  | "0" => 0 | "1" => 1 | "2" => 2 | "3" => 3 | "4" => 4 | "5" => 5
  | "6" => 6 | "7" => 7 | "8" => 8 | "9" => 9 | "a" => 10 | "b" => 11
  | "c" => 12 | "d" => 13 | "e" => 14 | "f" => 15 | _ => 0
  end%char.

Fixpoint decode_hex (s : string) (acc : Z) : Z :=
  match s with
  | EmptyString => acc
  | String c s' => decode_hex s' (16 * acc + hex_value c)
  end.

(** [int(s, 16)] on a string that the format [:02x] wrote. *)
Definition parse_02x (s : string) : Z :=
  match s with
  | String "-" r => - decode_hex r 0
  | _ => decode_hex s 0
  end.

(** The switch that [LogicalSwitch.__init__] returns for a descriptor whose
    subnet parses to [net], before any port is added. *)
Definition shell (self : Topology.t) (c : Switch.t) (net : ipaddress.IPv4Network)
  : LogicalSwitch.t :=
  LogicalSwitch.mk (Topology.vpc_name self) (Switch.name c) (Switch.id c)
    (Switch.type c) (Switch.subnet c) net (Switch.dhcp_enable c)
    (Switch.routed c) [] None None None.
End notions.

(** ** What the builder may expect of a control plane *)

Module contracts.
Import ovn_builder.

(** For transactions that delete nothing: a row that exists stays, and a
    row that the transaction adds exists afterwards. *)
Class Lawful (NB : Type) `{Northbound NB} : Prop := {
  lr_get_kept (txn : list op) (nb : NB) (n : string) :
    Forall (λ o, is_delete o = false) txn →
    lr_get n nb = true → lr_get n (commit txn nb) = true;
  ls_get_kept (txn : list op) (nb : NB) (n : string) :
    Forall (λ o, is_delete o = false) txn →
    ls_get n nb = true → ls_get n (commit txn nb) = true;
  lsp_get_kept (txn : list op) (nb : NB) (n : string) :
    Forall (λ o, is_delete o = false) txn →
    lsp_get n nb = true → lsp_get n (commit txn nb) = true;
  lrp_get_kept (txn : list op) (nb : NB) (n : string) :
    Forall (λ o, is_delete o = false) txn →
    lrp_get n nb = true → lrp_get n (commit txn nb) = true;
  lr_get_added (txn : list op) (nb : NB) (n : string) e o :
    Forall (λ o, is_delete o = false) txn →
    lr_add n e o ∈ txn → lr_get n (commit txn nb) = true;
  ls_get_added (txn : list op) (nb : NB) (n : string) e o :
    Forall (λ o, is_delete o = false) txn →
    ls_add n e o ∈ txn → ls_get n (commit txn nb) = true;
  lsp_get_added (txn : list op) (nb : NB) (sw n : string) e :
    Forall (λ o, is_delete o = false) txn →
    lsp_add sw n e ∈ txn → lsp_get n (commit txn nb) = true;
  lrp_get_added (txn : list op) (nb : NB) (r n m : string) nets e :
    Forall (λ o, is_delete o = false) txn →
    lrp_add r n m nets e ∈ txn → lrp_get n (commit txn nb) = true;
}.

Section with_backend.
Context {NB : Type} `{Northbound NB}.

(** Every row of [nb] is a row of [nb']. *)
Definition grows (nb nb' : NB) : Prop :=
  ∀ n, (lr_get n nb = true → lr_get n nb' = true) ∧
       (ls_get n nb = true → ls_get n nb' = true) ∧
       (lsp_get n nb = true → lsp_get n nb' = true) ∧
       (lrp_get n nb = true → lrp_get n nb' = true).

(** Everything that [build] looks for on behalf of one switch exists. *)
Definition settled (topology : TopologyView.t) (switch : SwitchView.t)
    (nb : NB) : Prop :=
  ls_get (SwitchView.full_name switch) nb = true ∧
  (∀ port, port ∈ SwitchView.ports switch →
     lsp_get (PortView.full_name port) nb = true) ∧
  (∀ router, SwitchView.routed switch = true →
     TopologyView.router topology = Some router →
     ∀ mac, SwitchView.router_port_mac switch = Ok mac →
     Py.truthy_str (SwitchView.router_port_ip switch) = true →
     Py.truthy_str mac = true →
     lrp_get (OvnBuilder.router_port_name switch router) nb = true ∧
     lsp_get (OvnBuilder.switch_port_name switch router) nb = true).
End with_backend.
End contracts.

(** ** Concrete collaborators used by the worked examples *)

Module examples.
Import schema topology ovn_builder.

Definition digit (c : ascii) : option Z :=
  let n := nat_of_ascii c in
  if ((48 <=? n) && (n <=? 57))%nat then Some (Z.of_nat n - 48) else None.

Fixpoint decimal_go (s : string) (acc : Z) : option Z :=
  match s with
  | EmptyString => Some acc
  | String c s' =>
      match digit c with
      | Some d => decimal_go s' (10 * acc + d)
      | None => None
      end
  end.

Definition decimal (s : string) : option Z :=
  match s with
  | EmptyString => None
  | _ => decimal_go s 0
  end.

(** An octet: up to three decimal digits without a leading zero, at most 255. *)
Definition octet (s : string) : option Z :=
  match s, decimal s with
  | String c (String _ _), Some v =>
      if Ascii.eqb c "0" || (3 <? String.length s)%nat || (255 <? v)
      then None else Some v
  | _, Some v => Some v
  | _, None => None
  end.

Definition address (s : string) : option Z :=
  match octet <$> Py.split "." s with
  | [Some a; Some b; Some c; Some d] =>
      Some (Z.lor (Z.shiftl a 24) (Z.lor (Z.shiftl b 16) (Z.lor (Z.shiftl c 8) d)))
  | _ => None
  end.

(** The prefix length written in decimal digits, from 0 to 32. *)
Definition _prefix_from_prefix_string (prefixlen_str : string) : option Z :=
  match decimal prefixlen_str with
  | Some prefixlen => if prefixlen <=? 32 then Some prefixlen else None
  | None => None
  end.

Definition bit_length (n : Z) : Z := if n =? 0 then 0 else Z.log2 n + 1.

Definition _count_righthand_zero_bits (number bits : Z) : Z :=
  if number =? 0 then bits
  else Z.min bits (bit_length (Z.land (Z.lnot number) (number - 1))).

(** The prefix length of a mask made of ones followed by zeroes. *)
Definition _prefix_from_ip_int (ip_int : Z) : option Z :=
  let trailing_zeroes := _count_righthand_zero_bits ip_int 32 in
  let prefixlen := 32 - trailing_zeroes in
  if Z.shiftr ip_int trailing_zeroes =? Z.shiftl 1 prefixlen - 1
  then Some prefixlen else None.

(** A dotted quad read as a netmask and, failing that, as a hostmask. *)
Definition _prefix_from_ip_string (ip_str : string) : option Z :=
  match address ip_str with
  | Some ip_int =>
      match _prefix_from_ip_int ip_int with
      | Some prefixlen => Some prefixlen
      | None => _prefix_from_ip_int (Z.lxor ip_int (2 ^ 32 - 1))
      end
  | None => None
  end.

Definition _make_netmask (arg : string) : option Z :=
  match _prefix_from_prefix_string arg with
  | Some prefixlen => Some prefixlen
  | None => _prefix_from_ip_string arg
  end.

(** [IPv4Network(s)] with its default [strict=True]: the forms [a.b.c.d],
    [a.b.c.d/len], [a.b.c.d/netmask] and [a.b.c.d/hostmask], without host
    bits. *)
Definition cidr (s : string) : option ipaddress.IPv4Network :=
  match Py.split "/" s with
  | [a] => (λ n, ipaddress.mk_network n 32) <$> address a
  | [a; mask] =>
      match address a, _make_netmask mask with
      | Some n, Some len =>
          if Z.land n (2 ^ (32 - len) - 1) =? 0
          then Some (ipaddress.mk_network n len) else None
      | _, _ => None
      end
  | _ => None
  end.

#[global] Instance cidr_parser : ipaddress.Parser := cidr.

#[global] Instance linux : Py.Platform := "linux".

(** ovsdbapp as the unit tests of the builder patch it: every call
    returns. *)
#[global] Instance patched : Ovsdbapp := {|
  connection := string;
  Connection nb_or_sb _ := Ok nb_or_sb;
  OvnNbApiIdlImpl _ := Ok ();
  OvnSbApiIdlImpl _ := Ok ();
|}.


(** An in-memory northbound database: the names of the rows of each table
    and the DHCP option rows with their CIDR. *)
Record memory : Type := mk_memory {
  routers : gset string;
  lswitches : gset string;
  switch_ports : gset string;
  router_ports : gset string;
  dhcp_rows : list (nat * string);
  next_uuid : nat;
}.

Definition empty : memory :=
  {| routers := ∅; lswitches := ∅; switch_ports := ∅; router_ports := ∅;
     dhcp_rows := []; next_uuid := 1%nat |}.

Definition apply (o : op) (m : memory) : memory :=
  match o with
  | lr_add n _ _ =>
      mk_memory ({[n]} ∪ routers m) (lswitches m) (switch_ports m)
                (router_ports m) (dhcp_rows m) (next_uuid m)
  | ls_add n _ _ =>
      mk_memory (routers m) ({[n]} ∪ lswitches m) (switch_ports m)
                (router_ports m) (dhcp_rows m) (next_uuid m)
  | lsp_add _ n _ =>
      mk_memory (routers m) (lswitches m) ({[n]} ∪ switch_ports m)
                (router_ports m) (dhcp_rows m) (next_uuid m)
  | lrp_add _ n _ _ _ =>
      mk_memory (routers m) (lswitches m) (switch_ports m)
                ({[n]} ∪ router_ports m) (dhcp_rows m) (next_uuid m)
  | dhcp_options_add c _ _ =>
      mk_memory (routers m) (lswitches m) (switch_ports m) (router_ports m)
                (dhcp_rows m ++ [(next_uuid m, c)]) (S (next_uuid m))
  | lr_del n =>
      mk_memory (routers m ∖ {[n]}) (lswitches m) (switch_ports m)
                (router_ports m) (dhcp_rows m) (next_uuid m)
  | ls_del n =>
      mk_memory (routers m) (lswitches m ∖ {[n]}) (switch_ports m)
                (router_ports m) (dhcp_rows m) (next_uuid m)
  | lsp_del n =>
      mk_memory (routers m) (lswitches m) (switch_ports m ∖ {[n]})
                (router_ports m) (dhcp_rows m) (next_uuid m)
  | lrp_del n =>
      mk_memory (routers m) (lswitches m) (switch_ports m)
                (router_ports m ∖ {[n]}) (dhcp_rows m) (next_uuid m)
  | dhcp_options_del u =>
      mk_memory (routers m) (lswitches m) (switch_ports m) (router_ports m)
                (filter (λ row, row.1 ≠ u) (dhcp_rows m)) (next_uuid m)
  | _ => m
  end.

#[global] Instance memory_backend : Northbound memory := {|
  lr_get n m := bool_decide (n ∈ routers m);
  ls_get n m := bool_decide (n ∈ lswitches m);
  lsp_get n m := bool_decide (n ∈ switch_ports m);
  lrp_get n m := bool_decide (n ∈ router_ports m);
  dhcp_options_list m := dhcp_rows m;
  commit txn m := foldl (λ m o, apply o m) m txn;
|}.

(** The topology of the builder's unit tests: switch [ls1] with DHCP, routed,
    one dynamic port, and the router [vlab-lr]. *)
Definition port1 : PortView.t :=
  {| PortView.full_name := "vlab-ls1-lsp1";
     PortView.addressing := DYNAMIC;
     PortView.ip := None;
     PortView.mac := "e1:cc:ff:01:01:01";
     PortView.port_security := ["e1:cc:ff:01:01:01"] |}.

Definition ls1 : SwitchView.t :=
  {| SwitchView.name := "ls1";
     SwitchView.full_name := "vlab-ls1";
     SwitchView.type := NORMAL;
     SwitchView.subnet_str := "192.168.1.0/24";
     SwitchView.subnet := ipaddress.mk_network 3232235776 24;
     SwitchView.dhcp_enable := true;
     SwitchView.routed := true;
     SwitchView.dhcp_options :=
       Some [("server_id", "192.168.1.1"); ("server_mac", "e1:cc:ff:01:01:00");
             ("router", "192.168.1.1"); ("dns_server", "8.8.8.8");
             ("lease_time", "3600")];
     SwitchView.ports := [port1];
     SwitchView.router_port_ip := Some "192.168.1.1/24";
     SwitchView.router_port_mac := Ok (Some "e1:cc:ff:01:01:00") |}.

Definition vlab_lr : RouterView.t := {| RouterView.full_name := "vlab-lr" |}.

Definition mock_topology : TopologyView.t :=
  {| TopologyView.vpc_name := "vlab";
     TopologyView.switches := [ls1];
     TopologyView.router := Some vlab_lr |}.

(** The configuration of the topology unit test: the VPC gives a default
    port count and [ls2] gives neither ports nor a count. *)
Definition test_topology_build_config : LabConfig.raw :=
  {| LabConfig.raw_vpc :=
       {| VPC.name := "vlab"; VPC.mac_prefix := "e1:cc:ff"; VPC.id := 1;
          VPC.port_count := Some 2 |};
     LabConfig.raw_switches :=
       [ {| Switch.raw_name := "ls1"; Switch.raw_id := 1;
            Switch.raw_type := NORMAL; Switch.raw_subnet := "192.168.1.0/24";
            Switch.raw_dhcp_enable := true; Switch.raw_routed := true;
            Switch.raw_port_count := Some 2; Switch.raw_ports := None |};
         {| Switch.raw_name := "ls2"; Switch.raw_id := 2;
            Switch.raw_type := P2P; Switch.raw_subnet := "192.168.2.0/31";
            Switch.raw_dhcp_enable := false; Switch.raw_routed := false;
            Switch.raw_port_count := None; Switch.raw_ports := None |} ] |}.

Definition vlab (id : Z) : VPC.t :=
  {| VPC.name := "vlab"; VPC.mac_prefix := "e1:cc:ff"; VPC.id := id;
     VPC.port_count := None |}.

(** A switch without DHCP and with autogenerated ports. *)
Definition plain_switch (name : string) (id : Z) (subnet : string)
    (routed : bool) (port_count : Z) : Switch.raw :=
  {| Switch.raw_name := name; Switch.raw_id := id; Switch.raw_type := NORMAL;
     Switch.raw_subnet := subnet; Switch.raw_dhcp_enable := false;
     Switch.raw_routed := routed; Switch.raw_port_count := Some port_count;
     Switch.raw_ports := None |}.

(** Numeric ids beyond one octet. *)
Definition big_ids_config : LabConfig.raw :=
  {| LabConfig.raw_vpc := vlab 256;
     LabConfig.raw_switches := [plain_switch "ls1" 300 "10.0.0.0/24" false 1] |}.

(** A /23 switch asked for 256 ports. *)
Definition many_ports_config : LabConfig.raw :=
  {| LabConfig.raw_vpc := vlab 1;
     LabConfig.raw_switches := [plain_switch "ls1" 1 "10.0.0.0/23" false 256] |}.

(** Two descriptors named [ls1]: the first routed, the second not. *)
Definition same_name_config : LabConfig.raw :=
  {| LabConfig.raw_vpc := vlab 1;
     LabConfig.raw_switches :=
       [plain_switch "ls1" 1 "10.0.1.0/24" true 1;
        plain_switch "ls1" 2 "10.0.2.0/24" false 1] |}.

(** A port-count request of five on a /31. *)
Definition test_topology_port_limit_config : LabConfig.raw :=
  {| LabConfig.raw_vpc := vlab 1;
     LabConfig.raw_switches := [plain_switch "ls1" 1 "192.168.1.0/31" false 5] |}.

(** The same configuration with another VPC id. *)
Definition with_vpc_id (n : Z) (raw : LabConfig.raw) : LabConfig.raw :=
  {| LabConfig.raw_vpc :=
       {| VPC.name := VPC.name (LabConfig.raw_vpc raw);
          VPC.mac_prefix := VPC.mac_prefix (LabConfig.raw_vpc raw);
          VPC.id := n;
          VPC.port_count := VPC.port_count (LabConfig.raw_vpc raw) |};
     LabConfig.raw_switches := LabConfig.raw_switches raw |}.

Definition renumber_switch (f : Z → Z) (r : Switch.raw) : Switch.raw :=
  {| Switch.raw_name := Switch.raw_name r; Switch.raw_id := f (Switch.raw_id r);
     Switch.raw_type := Switch.raw_type r; Switch.raw_subnet := Switch.raw_subnet r;
     Switch.raw_dhcp_enable := Switch.raw_dhcp_enable r;
     Switch.raw_routed := Switch.raw_routed r;
     Switch.raw_port_count := Switch.raw_port_count r;
     Switch.raw_ports := Switch.raw_ports r |}.

Definition renumber_validated (f : Z → Z) (t : Switch.t) : Switch.t :=
  {| Switch.name := Switch.name t; Switch.id := f (Switch.id t);
     Switch.type := Switch.type t; Switch.subnet := Switch.subnet t;
     Switch.dhcp_enable := Switch.dhcp_enable t; Switch.routed := Switch.routed t;
     Switch.port_count := Switch.port_count t; Switch.ports := Switch.ports t |}.

(** The same configuration with every switch id sent through [f]. *)
Definition with_switch_ids (f : Z → Z) (raw : LabConfig.raw) : LabConfig.raw :=
  {| LabConfig.raw_vpc := LabConfig.raw_vpc raw;
     LabConfig.raw_switches := renumber_switch f <$> LabConfig.raw_switches raw |}.

(** A validated lab with one routed switch that has no DHCP. *)
Definition routed_lab : LabConfig.t :=
  {| LabConfig.vpc := vlab 1;
     LabConfig.switches :=
       [ {| Switch.name := "ls1"; Switch.id := 1; Switch.type := NORMAL;
            Switch.subnet := "10.0.1.0/24"; Switch.dhcp_enable := false;
            Switch.routed := true; Switch.port_count := Some 1;
            Switch.ports := None |} ] |}.

(** The validated form of the port-limit configuration, and the switch
    shell that the deriver starts from. *)
Definition port_limit_lab : LabConfig.t :=
  {| LabConfig.vpc := vlab 1;
     LabConfig.switches :=
       [ {| Switch.name := "ls1"; Switch.id := 1; Switch.type := NORMAL;
            Switch.subnet := "192.168.1.0/31"; Switch.dhcp_enable := false;
            Switch.routed := false; Switch.port_count := Some 5;
            Switch.ports := None |} ] |}.

Definition switch_shell (name : string) (id : Z) (subnet : string)
    (net : ipaddress.IPv4Network) (dhcp_enable routed : bool) : LogicalSwitch.t :=
  {| LogicalSwitch.vpc_name := "vlab"; LogicalSwitch.name := name;
     LogicalSwitch.id := id; LogicalSwitch.type := NORMAL;
     LogicalSwitch.subnet_str := subnet; LogicalSwitch.subnet := net;
     LogicalSwitch.dhcp_enable := dhcp_enable; LogicalSwitch.routed := routed;
     LogicalSwitch.ports := []; LogicalSwitch.dhcp_options := None;
     LogicalSwitch.vpc_mac_prefix := None; LogicalSwitch.vpc_id := None |}.

(** 192.168.1.0/31 *)
Definition port_limit_switch : LogicalSwitch.t :=
  switch_shell "ls1" 1 "192.168.1.0/31" (ipaddress.mk_network 3232235776 31)
               false false.

(** 192.168.1.0/24, routed *)
Definition gateway_switch : LogicalSwitch.t :=
  switch_shell "ls1" 1 "192.168.1.0/24" (ipaddress.mk_network 3232235776 24)
               false true.

(** 10.0.0.0/30 with DHCP *)
Definition dhcp_slash30 : LogicalSwitch.t :=
  switch_shell "ls1" 1 "10.0.0.0/30" (ipaddress.mk_network 167772160 30)
               true false.

(** The lab that validation returns, for an input that it accepts. *)
Definition validated (raw : LabConfig.raw) : LabConfig.t :=
  match LabConfig.validate raw with
  | Ok lab => lab
  | Raise _ => {| LabConfig.vpc := LabConfig.raw_vpc raw; LabConfig.switches := [] |}
  end.

(** The topology that the deriver returns, for a lab that it can derive. *)
Definition derived (lab : LabConfig.t) : Topology.t :=
  match Topology.__init__ lab with
  | Ok topology => topology
  | Raise _ => Topology.blank lab
  end.

(** The validated form of [plain_switch]. *)
Definition plain_validated (name : string) (id : Z) (subnet : string)
    (routed : bool) (port_count : Z) : Switch.t :=
  {| Switch.name := name; Switch.id := id; Switch.type := NORMAL;
     Switch.subnet := subnet; Switch.dhcp_enable := false;
     Switch.routed := routed; Switch.port_count := Some port_count;
     Switch.ports := None |}.

(** One switch with DHCP, routed, one autogenerated port. *)
Definition dhcp_routed_config : LabConfig.raw :=
  {| LabConfig.raw_vpc := vlab 1;
     LabConfig.raw_switches :=
       [ {| Switch.raw_name := "ls1"; Switch.raw_id := 1;
            Switch.raw_type := NORMAL; Switch.raw_subnet := "192.168.1.0/24";
            Switch.raw_dhcp_enable := true; Switch.raw_routed := true;
            Switch.raw_port_count := Some 1; Switch.raw_ports := None |} ] |}.

(** A database in which only the router side of the attachment of [ls1]
    exists. *)
Definition half_attached : memory :=
  commit [lrp_add "vlab-lr" "vlab-lr-ls1" "e1:cc:ff:01:01:00"
            ["192.168.1.1/24"] owned] empty.

(** An upper-case MAC prefix and a switch with explicit ports: one static
    with an address, one dynamic without the [ip] key. *)
Definition explicit_ports_config : LabConfig.raw :=
  {| LabConfig.raw_vpc :=
       {| VPC.name := "vlab"; VPC.mac_prefix := "E1:CC:FF"; VPC.id := 1;
          VPC.port_count := None |};
     LabConfig.raw_switches :=
       [ {| Switch.raw_name := "ls1"; Switch.raw_id := 1;
            Switch.raw_type := NORMAL; Switch.raw_subnet := "10.0.0.0/24";
            Switch.raw_dhcp_enable := false; Switch.raw_routed := false;
            Switch.raw_port_count := None;
            Switch.raw_ports :=
              Some [ {| Port.raw_name := "vm1"; Port.raw_addressing := STATIC;
                        Port.raw_ip := pydantic.Given "10.0.0.10" |};
                     {| Port.raw_name := "vm2"; Port.raw_addressing := DYNAMIC;
                        Port.raw_ip := pydantic.Missing |} ] |} ] |}.

(** The validated form of the switch of [explicit_ports_config]. *)
Definition explicit_ports_switch : Switch.t :=
  {| Switch.name := "ls1"; Switch.id := 1; Switch.type := NORMAL;
     Switch.subnet := "10.0.0.0/24"; Switch.dhcp_enable := false;
     Switch.routed := false; Switch.port_count := None;
     Switch.ports :=
       Some [ {| Port.name := "vm1"; Port.addressing := STATIC;
                 Port.ip := Some "10.0.0.10" |};
              {| Port.name := "vm2"; Port.addressing := DYNAMIC;
                 Port.ip := None |} ] |}.

(** Two switches without DHCP: [ls1] routed on a /24, [ls2] on a /31. *)
Definition two_switch_config : LabConfig.raw :=
  {| LabConfig.raw_vpc := vlab 1;
     LabConfig.raw_switches :=
       [plain_switch "ls1" 1 "192.168.1.0/24" true 2;
        plain_switch "ls2" 2 "192.168.2.0/31" false 2] |}.

(** The switch that the deriver builds from a descriptor, when it can. *)
Definition created (self : Topology.t) (c : Switch.t) : LogicalSwitch.t :=
  match Topology.create_switch self c with
  | Ok switch => switch
  | Raise _ => switch_shell (Switch.name c) (Switch.id c) (Switch.subnet c)
                            (ipaddress.mk_network 0 32) false false
  end.

(** 192.168.1.0/24 with DHCP, routed, carrying the two attributes that
    [dhcp_server_mac] reads, as the unit tests of the topology expect. *)
Definition attributed_switch : LogicalSwitch.t :=
  {| LogicalSwitch.vpc_name := "vlab"; LogicalSwitch.name := "ls1";
     LogicalSwitch.id := 1; LogicalSwitch.type := NORMAL;
     LogicalSwitch.subnet_str := "192.168.1.0/24";
     LogicalSwitch.subnet := ipaddress.mk_network 3232235776 24;
     LogicalSwitch.dhcp_enable := true; LogicalSwitch.routed := true;
     LogicalSwitch.ports := []; LogicalSwitch.dhcp_options := None;
     LogicalSwitch.vpc_mac_prefix := Some "e1:cc:ff";
     LogicalSwitch.vpc_id := Some 1 |}.

(** 10.0.0.0/31, routed *)
Definition slash31_switch : LogicalSwitch.t :=
  switch_shell "ls1" 1 "10.0.0.0/31" (ipaddress.mk_network 167772160 31)
               false true.

(** 10.0.0.1/32 with DHCP, routed, carrying the two attributes that
    [dhcp_server_mac] reads. *)
Definition slash32_switch : LogicalSwitch.t :=
  {| LogicalSwitch.vpc_name := "vlab"; LogicalSwitch.name := "ls1";
     LogicalSwitch.id := 1; LogicalSwitch.type := NORMAL;
     LogicalSwitch.subnet_str := "10.0.0.1/32";
     LogicalSwitch.subnet := ipaddress.mk_network 167772161 32;
     LogicalSwitch.dhcp_enable := true; LogicalSwitch.routed := true;
     LogicalSwitch.ports := []; LogicalSwitch.dhcp_options := None;
     LogicalSwitch.vpc_mac_prefix := Some "e1:cc:ff";
     LogicalSwitch.vpc_id := Some 1 |}.

(** One routed switch on 10.0.0.1/32, without DHCP. *)
Definition slash32_config : LabConfig.raw :=
  {| LabConfig.raw_vpc := vlab 1;
     LabConfig.raw_switches := [plain_switch "ls1" 1 "10.0.0.1/32" true 1] |}.

(** 192.168.1.0/24 with DHCP, as the constructor returns it, and the
    validated descriptor it comes from. *)
Definition dhcp_shell : LogicalSwitch.t :=
  switch_shell "ls1" 1 "192.168.1.0/24" (ipaddress.mk_network 3232235776 24)
               true true.

Definition dhcp_descriptor : Switch.t :=
  {| Switch.name := "ls1"; Switch.id := 1; Switch.type := NORMAL;
     Switch.subnet := "192.168.1.0/24"; Switch.dhcp_enable := true;
     Switch.routed := true; Switch.port_count := Some 2;
     Switch.ports := None |}.

(** The same switch once its DHCP options are set. *)
Definition dhcp_switch : LogicalSwitch.t :=
  LogicalSwitch.set_dhcp_options attributed_switch
    [("server_id", "192.168.1.1"); ("server_mac", "e1:cc:ff:01:01:00");
     ("router", "192.168.1.1"); ("dns_server", "8.8.8.8");
     ("lease_time", "3600")].

End examples.

(** ** Rows of the in-memory database *)

Module rows.
Import ovn_builder examples.

(** Every row of the database carries a name that the builder gives to an
    object of the topology. *)
Definition named (topology : TopologyView.t) (m : memory) : Prop :=
  (∀ n, n ∈ routers m →
     ∃ router, TopologyView.router topology = Some router ∧
               n = RouterView.full_name router) ∧
  (∀ n, n ∈ lswitches m →
     ∃ switch, switch ∈ TopologyView.switches topology ∧
               n = SwitchView.full_name switch) ∧
  (∀ n, n ∈ switch_ports m →
     ∃ switch, switch ∈ TopologyView.switches topology ∧
       ((∃ port, port ∈ SwitchView.ports switch ∧ n = PortView.full_name port) ∨
        (∃ router, SwitchView.routed switch = true ∧
                   TopologyView.router topology = Some router ∧
                   n = OvnBuilder.switch_port_name switch router))) ∧
  (∀ n, n ∈ router_ports m →
     ∃ switch router,
       switch ∈ TopologyView.switches topology ∧
       SwitchView.routed switch = true ∧
       TopologyView.router topology = Some router ∧
       n = OvnBuilder.router_port_name switch router).

(** Every row of [m'] is a row of [m]. *)
Definition shrinks (m m' : memory) : Prop :=
  ∀ n, (n ∈ routers m' → n ∈ routers m) ∧ (n ∈ lswitches m' → n ∈ lswitches m) ∧
       (n ∈ switch_ports m' → n ∈ switch_ports m) ∧
       (n ∈ router_ports m' → n ∈ router_ports m).

(** Whether [build] creates DHCP options for the switch. *)
Definition wants_dhcp_options (switch : SwitchView.t) : bool :=
  SwitchView.dhcp_enable switch && Py.truthy_list (SwitchView.dhcp_options switch).

(** The uuids of the DHCP option rows are distinct and were handed out
    already. *)
Definition fresh (m : memory) : Prop :=
  NoDup (dhcp_rows m).*1 ∧ ∀ row, row ∈ dhcp_rows m → (row.1 < next_uuid m)%nat.
End rows.

(** * Properties *)

(** ** Ranges and networks *)

Section ranges.
Implicit Types lo hi a : Z.

Lemma length_range lo hi : List.length (Py.range lo hi) = Z.to_nat (hi - lo).
Proof. unfold Py.range. by rewrite length_fmap, length_seq. Qed.

Lemma lookup_range lo hi (i : nat) :
  Py.range lo hi !! i =
    if bool_decide (Z.of_nat i < hi - lo) then Some (lo + Z.of_nat i) else None.
Proof.
  unfold Py.range. rewrite list_lookup_fmap.
  case_bool_decide as Hi.
  - rewrite lookup_seq_lt by lia. done.
  - rewrite lookup_seq_ge by lia. done.
Qed.

Lemma elem_of_range lo hi a : a ∈ Py.range lo hi ↔ lo ≤ a < hi.
Proof.
  rewrite list_elem_of_lookup. split.
  - intros [i Hi]. rewrite lookup_range in Hi. case_bool_decide; [|done].
    inversion Hi. lia.
  - intros Ha. exists (Z.to_nat (a - lo)). rewrite lookup_range.
    rewrite bool_decide_true by lia. f_equal. lia.
Qed.

Lemma range_cons lo hi : lo < hi → Py.range lo hi = lo :: Py.range (lo + 1) hi.
Proof.
  intros Hlt. apply list_eq. intros [|i]; rewrite ?lookup_range; simpl.
  - rewrite bool_decide_true by lia. f_equal. lia.
  - rewrite lookup_range. repeat case_bool_decide; try lia; try done. f_equal. lia.
Qed.

Lemma range_nil lo hi : hi ≤ lo → Py.range lo hi = [].
Proof.
  intros Hle. unfold Py.range. replace (Z.to_nat (hi - lo)) with 0%nat by lia. done.
Qed.

Lemma drop_range (k : nat) lo hi :
  drop k (Py.range lo hi) = Py.range (lo + Z.of_nat k) hi.
Proof.
  apply list_eq. intros i. rewrite lookup_drop, !lookup_range.
  repeat case_bool_decide; try lia; try done. f_equal. lia.
Qed.
End ranges.

Section networks.
Import ipaddress.

Lemma broadcast_address_wf (n : IPv4Network) :
  wf n → broadcast_address n = network_address n + 2 ^ (32 - prefixlen n) - 1.
Proof.
  intros (_ & _ & Hland). unfold broadcast_address.
  rewrite <- Z.lxor_lor by done. rewrite <- Z.add_nocarry_lxor by done.
  unfold hostmask. lia.
Qed.

Lemma pow2_hostbits (n : IPv4Network) :
  wf n → prefixlen n ≤ 30 → 4 ≤ 2 ^ (32 - prefixlen n).
Proof.
  intros (Hp & _) Hle. change 4 with (2 ^ 2).
  apply Z.pow_le_mono_r; lia.
Qed.

Lemma pow2_hostbits_29 (n : IPv4Network) :
  wf n → prefixlen n ≤ 29 → 8 ≤ 2 ^ (32 - prefixlen n).
Proof.
  intros (Hp & _) Hle. change 8 with (2 ^ 3).
  apply Z.pow_le_mono_r; lia.
Qed.

Lemma hosts_31 (n : IPv4Network) :
  wf n → prefixlen n = 31 → hosts n = [network_address n; network_address n + 1].
Proof.
  intros Hwf Hp. unfold hosts, iter. rewrite Hp. simpl.
  rewrite (broadcast_address_wf n Hwf), Hp. simpl.
  rewrite range_cons by lia. rewrite range_cons by lia.
  rewrite range_nil by lia. done.
Qed.

Lemma iter_31 (n : IPv4Network) :
  wf n → prefixlen n = 31 → iter n = [network_address n; network_address n + 1].
Proof.
  intros Hwf Hp. rewrite <- (hosts_31 n Hwf Hp). unfold hosts. by rewrite Hp.
Qed.

Lemma hosts_le_30 (n : IPv4Network) :
  wf n → prefixlen n ≤ 30 →
  hosts n = Py.range (network_address n + 1) (broadcast_address n) ∧
  network_address n + 2 < broadcast_address n + 1.
Proof.
  intros Hwf Hp. unfold hosts.
  destruct (Z.eqb_spec (prefixlen n) 31); [lia|].
  destruct (Z.eqb_spec (prefixlen n) 32); [lia|].
  split; [done|]. rewrite (broadcast_address_wf n Hwf).
  pose proof (pow2_hostbits n Hwf Hp). lia.
Qed.

Lemma hosts_32 (n : IPv4Network) :
  prefixlen n = 32 → hosts n = [network_address n].
Proof. intros Hp. unfold hosts. by rewrite Hp. Qed.

(** On a well-formed network [hosts()] is never empty. *)
Lemma hosts_nonempty (n : IPv4Network) : wf n → hosts n ≠ [].
Proof.
  intros Hwf. destruct (decide (prefixlen n ≤ 30)) as [Hle|Hgt].
  - destruct (hosts_le_30 n Hwf Hle) as [-> Hlt]. rewrite range_cons by lia. done.
  - destruct Hwf as (Hp & Hrest). destruct (decide (prefixlen n = 31)) as [H31|H31].
    + rewrite hosts_31; done.
    + rewrite hosts_32 by lia. done.
Qed.
End networks.

(** ** Gateway address of a routed switch *)

Section gateway.
Import schema topology ipaddress.

Lemma router_port_ip_hosts (sw : LogicalSwitch.t) (h : Z) (rest : list Z) :
  LogicalSwitch.routed sw = true →
  hosts (LogicalSwitch.subnet sw) = h :: rest →
  LogicalSwitch.router_port_ip sw =
    Some (str_address h +:+ "/" +:+ Py.str_int (prefixlen (LogicalSwitch.subnet sw))).
Proof.
  intros Hr Hh. unfold LogicalSwitch.router_port_ip. by rewrite Hr, Hh.
Qed.

Lemma router_port_ip_None (sw : LogicalSwitch.t) :
  wf (LogicalSwitch.subnet sw) →
  LogicalSwitch.router_port_ip sw = None → LogicalSwitch.routed sw = false.
Proof.
  intros Hwf. unfold LogicalSwitch.router_port_ip.
  destruct (LogicalSwitch.routed sw); [|done]. simpl.
  pose proof (hosts_nonempty _ Hwf) as Hne.
  destruct (hosts (LogicalSwitch.subnet sw)); done.
Qed.

(** A /32 switch has its own address as the only host. *)
Lemma router_port_ip_32 (sw : LogicalSwitch.t) :
  LogicalSwitch.routed sw = true →
  prefixlen (LogicalSwitch.subnet sw) = 32 →
  LogicalSwitch.router_port_ip sw =
    Some (str_address (network_address (LogicalSwitch.subnet sw)) +:+ "/32").
Proof.
  intros Hr Hp. rewrite (router_port_ip_hosts sw _ [] Hr (hosts_32 _ Hp)).
  by rewrite Hp.
Qed.

(** What [add_switch] returns: the router as it was, or the router with
    the gateway address and MAC of the switch under its name. *)
Lemma add_switch_Ok (r r' : LogicalRouter.t) (sw : LogicalSwitch.t) :
  LogicalRouter.add_switch r sw = Ok r' →
  r' = r ∨
  ∃ ip mac,
    LogicalSwitch.routed sw = true ∧
    LogicalSwitch.router_port_ip sw = Some ip ∧
    LogicalSwitch.router_port_mac sw = Ok (Some mac) ∧
    r' = {| LogicalRouter.vpc_name := LogicalRouter.vpc_name r;
            LogicalRouter.switch_ports :=
              <[LogicalSwitch.name sw := (ip, mac)]> (LogicalRouter.switch_ports r) |}.
Proof.
  unfold LogicalRouter.add_switch.
  destruct (LogicalSwitch.routed sw); simpl; [|intros [= <-]; by left].
  destruct (LogicalSwitch.router_port_mac sw) as [[mac|]|e]; simpl; [| |done].
  - destruct (LogicalSwitch.router_port_ip sw) as [ip|]; [|intros [= <-]; by left].
    destruct (_ && _); intros [= <-]; [right|by left].
    by exists ip, mac.
  - destruct (LogicalSwitch.router_port_ip sw); intros [= <-]; by left.
Qed.

(** C4 (amended).  On a well-formed subnet the first host is the address
    after the network address up to a prefix length of 30, and the network
    address itself on a /31 and on a /32.  The gateway address of a routed
    switch is this first host followed by the prefix length, on a /31 and
    on a /32 as well, so that every routed switch has one; a switch that
    is not routed has none, adds nothing to the router and raises nothing.
    When the router registers a switch, it is with this gateway
    address. *)
Theorem router_gateway_ip (sw : LogicalSwitch.t) :
  wf (LogicalSwitch.subnet sw) →
  let net := LogicalSwitch.subnet sw in
  let first_host :=
    if prefixlen net <=? 30 then network_address net + 1 else network_address net in
  let gateway := str_address first_host +:+ "/" +:+ Py.str_int (prefixlen net) in
  head (hosts net) = Some first_host ∧
  (LogicalSwitch.routed sw = true → LogicalSwitch.router_port_ip sw = Some gateway) ∧
  (LogicalSwitch.routed sw = false →
     LogicalSwitch.router_port_ip sw = None ∧
     ∀ r : LogicalRouter.t, LogicalRouter.add_switch r sw = Ok r) ∧
  (∀ r r' : LogicalRouter.t,
     LogicalRouter.add_switch r sw = Ok r' →
     r' = r ∨
     ∃ mac, LogicalSwitch.router_port_mac sw = Ok (Some mac) ∧
            LogicalRouter.switch_ports r' =
              <[LogicalSwitch.name sw := (gateway, mac)]>
                (LogicalRouter.switch_ports r)).
Proof.
  intros Hwf net first_host gateway.
  assert (∃ rest, hosts net = first_host :: rest) as [rest Hh].
  { subst first_host. destruct (Z.leb_spec (prefixlen net) 30) as [Hp|Hp].
    - destruct (hosts_le_30 net Hwf Hp) as [Hh Hlt].
      rewrite range_cons in Hh by lia. by eexists.
    - assert (prefixlen net = 31 ∨ prefixlen net = 32) as [Hp'|Hp']
        by (subst net; unfold wf in Hwf; lia).
      + eexists. by apply hosts_31.
      + eexists. by apply hosts_32. }
  assert (LogicalSwitch.routed sw = true →
          LogicalSwitch.router_port_ip sw = Some gateway) as Hgw.
  { intros Hr. by apply (router_port_ip_hosts sw _ rest Hr). }
  split; [by rewrite Hh|]. split; [done|]. split.
  - intros Hr. unfold LogicalSwitch.router_port_ip, LogicalRouter.add_switch.
    by rewrite Hr.
  - intros r r' Hadd.
    destruct (add_switch_Ok r r' sw Hadd) as [->|(ip & mac & Hr & Hip & Hmac & ->)];
      [by left|right].
    exists mac. split; [done|]. rewrite (Hgw Hr) in Hip.
    injection Hip as <-. done.
Qed.
End gateway.

(** ** Ports of a switch *)

Section ports.
Import schema topology ipaddress.

Lemma ports_foldl_add_port (sw : LogicalSwitch.t) (l : list LogicalSwitchPort.t) :
  LogicalSwitch.ports (foldl LogicalSwitch.add_port sw l) = LogicalSwitch.ports sw ++ l.
Proof.
  revert sw. induction l as [|p l IH]; intros sw; simpl.
  - by rewrite app_nil_r.
  - rewrite IH. simpl. by rewrite <- app_assoc.
Qed.

Lemma ports_autogenerated (self : Topology.t) (sw : LogicalSwitch.t)
    (sc : Switch.t) (count : Z) :
  Py.truthy_list (Switch.ports sc) = false →
  Py.or_int (Switch.port_count sc)
    (VPC.port_count (LabConfig.vpc (Topology.config self))) = Some count →
  LogicalSwitch.ports (Topology._add_ports_to_switch self sw sc) =
    LogicalSwitch.ports sw ++
    (Topology.auto_port self sw <$>
       Py.range 0 (Z.min count (Z.of_nat (List.length (LogicalSwitch.usable_ips sw))))).
Proof.
  intros Hp Hc. unfold Topology._add_ports_to_switch. rewrite Hp.
  rewrite Hc. apply ports_foldl_add_port.
Qed.

Lemma ports_explicit (self : Topology.t) (sw : LogicalSwitch.t) (sc : Switch.t) :
  Py.truthy_list (Switch.ports sc) = true →
  LogicalSwitch.ports (Topology._add_ports_to_switch self sw sc) =
    LogicalSwitch.ports sw ++
    imap (Topology.explicit_port self sw) (default [] (Switch.ports sc)).
Proof.
  intros Hp. unfold Topology._add_ports_to_switch. rewrite Hp.
  apply ports_foldl_add_port.
Qed.

Lemma ports_none (self : Topology.t) (sw : LogicalSwitch.t) (sc : Switch.t) :
  Py.truthy_list (Switch.ports sc) = false →
  Py.or_int (Switch.port_count sc)
    (VPC.port_count (LabConfig.vpc (Topology.config self))) = None →
  Topology._add_ports_to_switch self sw sc = sw.
Proof.
  intros Hp Hc. unfold Topology._add_ports_to_switch. rewrite Hp.
  by rewrite Hc.
Qed.

(** C2 (amended).  The pool of a /31 is its two addresses; the pool of a
    subnet of prefix length at most 30 is what lies strictly between network
    and broadcast address, without the first four of them when DHCP is
    enabled and more than four exist (prefix length at most 29), so that a
    DHCP-enabled /30 keeps both of its hosts; the pool of a /32 is its own
    address.  The number of autogenerated ports is the smaller of the
    effective port count and the size of the pool, and none when that is
    negative; five ports asked of a /31 give two. *)
Theorem usable_pool_and_port_count (self : Topology.t) (sw : LogicalSwitch.t)
    (sc : Switch.t) (count : Z) :
  wf (LogicalSwitch.subnet sw) →
  LogicalSwitch.ports sw = [] →
  Py.truthy_list (Switch.ports sc) = false →
  Py.or_int (Switch.port_count sc)
    (VPC.port_count (LabConfig.vpc (Topology.config self))) = Some count →
  let net := LogicalSwitch.subnet sw in
  let pool := LogicalSwitch.usable_ips sw in
  let created := LogicalSwitch.ports (Topology._add_ports_to_switch self sw sc) in
  (prefixlen net = 31 → pool = [network_address net; network_address net + 1]) ∧
  (prefixlen net ≤ 30 → ∀ a : Z,
     a ∈ pool ↔
     (if LogicalSwitch.dhcp_enable sw && (prefixlen net <=? 29)
      then network_address net + 4 < a else network_address net < a) ∧
     a < broadcast_address net) ∧
  (prefixlen net = 32 → pool = [network_address net]) ∧
  List.length created = Z.to_nat (Z.min count (Z.of_nat (List.length pool))) ∧
  (prefixlen net = 31 → count = 5 → List.length created = 2%nat).
Proof.
  intros Hwf Hports Hexp Hcount net pool created.
  assert (Hlen : List.length created =
                 Z.to_nat (Z.min count (Z.of_nat (List.length pool)))).
  { subst created. rewrite (ports_autogenerated self sw sc count Hexp Hcount).
    rewrite Hports. simpl. by rewrite length_fmap, length_range, Z.sub_0_r. }
  assert (H31 : prefixlen net = 31 →
                pool = [network_address net; network_address net + 1]).
  { intros Hp. subst pool. unfold LogicalSwitch.usable_ips. fold net.
    rewrite Hp. simpl. by apply iter_31. }
  split; [done|]. split; [|split; [|split; [done|]]].
  - intros Hp a. subst pool. unfold LogicalSwitch.usable_ips. fold net.
    destruct (Z.eqb_spec (prefixlen net) 31) as [?|_]; [lia|].
    destruct (hosts_le_30 net Hwf Hp) as [Hh Hlt]. rewrite Hh, length_range.
    rewrite (broadcast_address_wf net Hwf) in *.
    destruct (LogicalSwitch.dhcp_enable sw); simpl.
    + destruct (Z.leb_spec (prefixlen net) 29) as [H29|H29].
      * pose proof (pow2_hostbits_29 net Hwf H29).
        match goal with
        | |- context [(4 <? ?x)%nat] => destruct (Nat.ltb_spec 4 x) as [_|?]; [|lia]
        end.
        rewrite (drop_range 4), elem_of_range. lia.
      * assert (2 ^ (32 - prefixlen net) = 4) as Hpow.
        { replace (prefixlen net) with 30 by lia. done. }
        rewrite Hpow.
        match goal with
        | |- context [(4 <? ?x)%nat] => destruct (Nat.ltb_spec 4 x) as [?|_]; [lia|]
        end.
        rewrite elem_of_range. lia.
    + rewrite elem_of_range. lia.
  - intros Hp. subst pool. unfold LogicalSwitch.usable_ips. fold net.
    rewrite Hp. simpl. rewrite (hosts_32 net Hp). simpl.
    by destruct (LogicalSwitch.dhcp_enable sw).
  - intros Hp ->. rewrite Hlen, (H31 Hp). done.
Qed.

Lemma format_02x_octet (n : Z) : 0 ≤ n ≤ 255 → Py.two_hex (Py.format_02x n) = true.
Proof.
  intros Hn.
  assert (Hall : forallb (λ i : nat, Py.two_hex (Py.format_02x (Z.of_nat i)))
                   (seq 0 256) = true) by (vm_compute; reflexivity).
  rewrite forallb_forall in Hall.
  specialize (Hall (Z.to_nat n)). rewrite Z2Nat.id in Hall by lia.
  apply Hall. apply in_seq. lia.
Qed.

Lemma length_hex_go (fuel : nat) (n : Z) (acc : string) :
  (String.length acc < String.length (Py.hex_go fuel n acc))%nat.
Proof.
  revert n acc. induction fuel as [|fuel IH]; intros n acc; simpl; [lia|].
  destruct (n / 16 =? 0); simpl; [lia|].
  specialize (IH (n / 16) (String (Py.hex_digit (n mod 16)) acc)). simpl in IH. lia.
Qed.

Lemma length_format_02x_wide (n : Z) :
  256 ≤ n → (3 ≤ String.length (Py.format_02x n))%nat.
Proof.
  intros Hn. unfold Py.format_02x.
  destruct (Z.ltb_spec n 0) as [?|_]; [lia|].
  assert (3 ≤ String.length (Py.hex n))%nat as Hlen.
  { unfold Py.hex.
    assert (8 ≤ Z.log2 n) as Hlog
      by (change 8 with (Z.log2 256); by apply Z.log2_le_mono).
    destruct (Z.to_nat (Z.log2 n)) as [|[|fuel]] eqn:Hfuel; [lia..|].
    cbn [Py.hex_go].
    assert (16 ≤ n / 16) by (apply Z.div_le_lower_bound; lia).
    destruct (Z.eqb_spec (n / 16) 0) as [?|_]; [lia|].
    assert (1 ≤ n / 16 / 16) by (apply Z.div_le_lower_bound; lia).
    destruct (Z.eqb_spec (n / 16 / 16) 0) as [?|_]; [lia|].
    match goal with
    | |- (_ ≤ String.length (Py.hex_go ?f ?m ?acc))%nat =>
        pose proof (length_hex_go f m acc) as Hgo
    end.
    simpl in Hgo. lia. }
  destruct (Nat.ltb_spec (String.length (Py.hex n)) 2); [lia|done].
Qed.

(** The format [:02x] gives exactly two hexadecimal digits for the numbers
    of one octet, and for no other number. *)
Lemma two_hex_format_02x (n : Z) :
  Py.two_hex (Py.format_02x n) = true ↔ 0 ≤ n ≤ 255.
Proof.
  split; [|apply format_02x_octet].
  intros Htwo. destruct (decide (n < 0)) as [Hneg|Hpos].
  - exfalso. unfold Py.format_02x in Htwo.
    destruct (Z.ltb_spec n 0) as [_|?]; [|lia].
    destruct (Py.hex (- n)) as [|b [|c rest]]; simpl in Htwo; done.
  - destruct (decide (n ≤ 255)) as [?|Hbig]; [lia|]. exfalso.
    pose proof (length_format_02x_wide n ltac:(lia)) as Hlen.
    destruct (Py.format_02x n) as [|a [|b [|c rest]]]; simpl in *; try lia; done.
Qed.

(** C6 (amended).  The MAC address of every derived port is the prefix of
    the VPC followed by the VPC id, the switch id and the port index, each
    in lower-case hexadecimal padded to at least two digits (exactly two
    precisely when the number lies within 0..255); indices run from 1 in
    list order for explicit ports and from 1 to the effective count for
    autogenerated ones, so index 0 is never assigned. *)
Theorem port_mac_and_index (self : Topology.t) (sw : LogicalSwitch.t)
    (sc : Switch.t) (i : nat) (p : LogicalSwitchPort.t) :
  LogicalSwitch.ports sw = [] →
  LogicalSwitch.ports (Topology._add_ports_to_switch self sw sc) !! i = Some p →
  LogicalSwitchPort.port_index p = Z.of_nat i + 1 ∧
  LogicalSwitchPort.port_index p ≠ 0 ∧
  1 ≤ LogicalSwitchPort.port_index p ≤
    Z.of_nat (List.length
      (LogicalSwitch.ports (Topology._add_ports_to_switch self sw sc))) ∧
  LogicalSwitchPort.mac p =
    Topology.mac_prefix self +:+ ":" +:+
    Py.format_02x (Topology.vpc_id self) +:+ ":" +:+
    Py.format_02x (LogicalSwitch.id sw) +:+ ":" +:+
    Py.format_02x (Z.of_nat i + 1) ∧
  (Py.truthy_list (Switch.ports sc) = true →
     ∃ pc, default [] (Switch.ports sc) !! i = Some pc ∧
           LogicalSwitchPort.port_name p = Port.name pc) ∧
  (∀ n : Z, Py.two_hex (Py.format_02x n) = true ↔ 0 ≤ n ≤ 255).
Proof.
  intros Hports Hp.
  pose proof (lookup_lt_Some _ _ _ Hp) as Hlt.
  destruct (Py.truthy_list (Switch.ports sc)) eqn:Hexp.
  - rewrite (ports_explicit self sw sc Hexp), Hports in Hp. simpl in Hp.
    rewrite list_lookup_imap in Hp.
    destruct (default [] (Switch.ports sc) !! i) as [pc|] eqn:Hpc; [|done].
    simpl in Hp. inversion Hp; subst p. unfold LogicalSwitchPort.mac. simpl.
    repeat match goal with |- _ ∧ _ => split end;
      try lia; eauto using two_hex_format_02x.
  - destruct (Py.or_int (Switch.port_count sc)
    (VPC.port_count (LabConfig.vpc (Topology.config self)))) as [count|] eqn:Hc.
    + rewrite (ports_autogenerated self sw sc count Hexp Hc), Hports in Hp.
      simpl in Hp. rewrite list_lookup_fmap, lookup_range in Hp.
      case_bool_decide; [|done]. simpl in Hp. inversion Hp; subst p.
      unfold LogicalSwitchPort.mac. simpl.
      repeat match goal with |- _ ∧ _ => split end;
        try lia; try done; eauto using two_hex_format_02x.
    + rewrite (ports_none self sw sc Hexp Hc), Hports in Hp. done.
Qed.
End ports.

(** ** Validation *)

Section validation.
Import schema pydantic examples.
Context `{ipaddress.Parser}.

Lemma values_of_port_count (r : Switch.raw) s p :
  Py.get "port_count" (Switch.values_of r s p) =
    Switch.opt_value Py.VInt (Switch.raw_port_count r).
Proof.
  unfold Py.get, Switch.values_of. destruct s, p; by simplify_map_eq.
Qed.

Lemma values_of_ports (r : Switch.raw) s p :
  Py.get "ports" (Switch.values_of r s p) =
    match p with
    | Ok ps => Switch.opt_value (λ l : list Port.t, Py.VList (List.length l)) ps
    | Raise _ => Py.VNone
    end.
Proof.
  unfold Py.get, Switch.values_of. destruct s, p; by simplify_map_eq.
Qed.

(** No declared field is called [vpc_port_count], so the root validator of a
    switch never finds it. *)
Lemma values_of_vpc_port_count (r : Switch.raw) s p :
  Py.get "vpc_port_count" (Switch.values_of r s p) = Py.VNone.
Proof.
  unfold Py.get, Switch.values_of. destruct s, p; by simplify_map_eq.
Qed.

(** What the root validator of a switch decides depends on the two fields it
    looks at, and on nothing else. *)
Lemma validate_ports_or_count_ok (r : Switch.raw) s p :
  Py.is_ok (Switch.validate_ports_or_count (Switch.values_of r s p)) =
    match Switch.raw_port_count r, p with
    | Some _, Ok (Some _) => false
    | None, Ok None | None, Raise _ => false
    | _, _ => true
    end.
Proof.
  unfold Switch.validate_ports_or_count.
  rewrite values_of_port_count, values_of_ports, values_of_vpc_port_count.
  destruct (Switch.raw_port_count r), p as [[?|]|]; simpl; done.
Qed.

(** A switch that gives neither ports nor a port count is rejected, whatever
    the VPC says. *)
Lemma switch_without_ports_rejected (r : Switch.raw) :
  Switch.raw_ports r = None → Switch.raw_port_count r = None →
  Py.is_ok (Switch.validate r) = false.
Proof.
  intros Hp Hc. unfold Switch.validate. rewrite Hp.
  pose proof (validate_ports_or_count_ok r
                (Switch.validate_subnet (Switch.raw_subnet r)) (Ok None)) as Hok.
  rewrite Hc in Hok. simpl in Hok.
  destruct (Switch.validate_subnet (Switch.raw_subnet r)); [|done].
  destruct (Switch.validate_ports_or_count _); done.
Qed.

Lemma validate_list_rejected {A B : Type} (f : A → res B) (l : list A) (x : A) :
  x ∈ l → Py.is_ok (f x) = false → Py.is_ok (validate_list f l) = false.
Proof.
  intros Hin Hx. induction l as [|y l IH]; [by apply elem_of_nil in Hin|].
  apply elem_of_cons in Hin as [->|Hin]; simpl.
  - destruct (f y); [done|]. done.
  - specialize (IH Hin). destruct (f y), (validate_list f l); done.
Qed.

Lemma lab_without_ports_rejected (raw : LabConfig.raw) (r : Switch.raw) :
  r ∈ LabConfig.raw_switches raw →
  Switch.raw_ports r = None → Switch.raw_port_count r = None →
  Py.is_ok (LabConfig.validate raw) = false.
Proof.
  intros Hin Hp Hc. unfold LabConfig.validate.
  pose proof (validate_list_rejected Switch.validate _ r Hin
                (switch_without_ports_rejected r Hp Hc)) as Hl.
  destruct (validate_list Switch.validate (LabConfig.raw_switches raw)); [done|].
  simpl. by destruct (VPC.validate (LabConfig.raw_vpc raw)).
Qed.

Lemma size_list_to_set_le (l : list Z) :
  (size (list_to_set l : gset Z) ≤ List.length l)%nat.
Proof.
  induction l as [|x l IH]; simpl; [done|].
  destruct (decide (x ∈ (list_to_set l : gset Z))) as [Hin|Hnin].
  - assert ({[x]} ∪ list_to_set l = (list_to_set l : gset Z)) as ->.
    { apply subseteq_union_1_L. by apply singleton_subseteq_l. }
    lia.
  - rewrite size_union by by apply disjoint_singleton_l. rewrite size_singleton. lia.
Qed.

Lemma size_list_to_set_NoDup (l : list Z) :
  size (list_to_set l : gset Z) = List.length l → NoDup l.
Proof.
  induction l as [|x l IH]; simpl; intros Hs; [constructor|].
  pose proof (size_list_to_set_le l).
  destruct (decide (x ∈ (list_to_set l : gset Z))) as [Hin|Hnin].
  - assert ({[x]} ∪ list_to_set l = (list_to_set l : gset Z)) as Heq.
    { apply subseteq_union_1_L. by apply singleton_subseteq_l. }
    rewrite Heq in Hs. lia.
  - rewrite size_union, size_singleton in Hs by by apply disjoint_singleton_l.
    constructor; [by rewrite elem_of_list_to_set in Hnin|]. apply IH. lia.
Qed.

Lemma validate_switch_ids_Ok (v v' : list Switch.t) :
  LabConfig.validate_switch_ids v = Ok v' ↔ v' = v ∧ NoDup (Switch.id <$> v).
Proof.
  unfold LabConfig.validate_switch_ids.
  destruct (Nat.eqb_spec (List.length (Switch.id <$> v))
              (size (list_to_set (Switch.id <$> v) : gset Z))) as [Heq|Hne]; simpl.
  - split.
    + intros [= <-]. split; [done|]. by apply size_list_to_set_NoDup.
    + by intros [-> _].
  - split; [done|]. intros [_ Hnd]. by rewrite size_list_to_set in Hne.
Qed.

Lemma validate_Ok (raw : LabConfig.raw) (cfg : LabConfig.t) :
  LabConfig.validate raw = Ok cfg →
  VPC.validate (LabConfig.raw_vpc raw) = Ok (LabConfig.vpc cfg) ∧
  validate_list Switch.validate (LabConfig.raw_switches raw) =
    Ok (LabConfig.switches cfg) ∧
  NoDup (Switch.id <$> LabConfig.switches cfg) ∧
  LabConfig.inject_vpc_port_count (Some (LabConfig.vpc cfg))
    (Some (LabConfig.switches cfg)) = Ok ().
Proof.
  unfold LabConfig.validate.
  destruct (VPC.validate (LabConfig.raw_vpc raw)) as [v|] eqn:Hv;
    destruct (validate_list Switch.validate (LabConfig.raw_switches raw))
      as [sws|] eqn:Hs; cbn [Py.bind Py.to_option]; try done.
  destruct (LabConfig.validate_switch_ids sws) as [sws'|] eqn:Hids;
    cbn [Py.to_option]; [|done].
  apply validate_switch_ids_Ok in Hids as [-> Hnd].
  destruct (LabConfig.inject_vpc_port_count (Some v) (Some sws)) as [[]|] eqn:Hi;
    [|done].
  intros [= <-]. done.
Qed.

Lemma validate_intro (raw : LabConfig.raw) (v : VPC.t) (sws : list Switch.t) :
  VPC.validate (LabConfig.raw_vpc raw) = Ok v →
  validate_list Switch.validate (LabConfig.raw_switches raw) = Ok sws →
  NoDup (Switch.id <$> sws) →
  LabConfig.inject_vpc_port_count (Some v) (Some sws) = Ok () →
  LabConfig.validate raw = Ok {| LabConfig.vpc := v; LabConfig.switches := sws |}.
Proof.
  intros Hv Hs Hnd Hi. unfold LabConfig.validate. rewrite Hv, Hs.
  cbn [Py.bind Py.to_option].
  assert (LabConfig.validate_switch_ids sws = Ok sws) as ->
    by by apply validate_switch_ids_Ok.
  cbn [Py.to_option]. by rewrite Hi.
Qed.

Lemma validate_renumbered_switch (f : Z → Z) (r : Switch.raw) (t : Switch.t) :
  Switch.validate r = Ok t →
  Switch.validate (renumber_switch f r) = Ok (renumber_validated f t).
Proof.
  unfold Switch.validate. simpl.
  set (s := Switch.validate_subnet (Switch.raw_subnet r)).
  set (p := match Switch.raw_ports r with
            | Some l => Py.bind (validate_list Port.validate l) (λ ps, Ok (Some ps))
            | None => Ok None
            end).
  pose proof (validate_ports_or_count_ok r s p) as Hr.
  pose proof (validate_ports_or_count_ok (renumber_switch f r) s p) as Hr'.
  simpl in Hr'. rewrite <- Hr in Hr'.
  destruct s as [sv|]; [|done]. destruct p as [pv|]; [|done].
  destruct (Switch.validate_ports_or_count (Switch.values_of r _ _)); [|done].
  destruct (Switch.validate_ports_or_count (Switch.values_of (renumber_switch f r) _ _));
    [|done].
  by intros [= <-].
Qed.

Lemma validate_renumbered_list (f : Z → Z) (l : list Switch.raw) (ts : list Switch.t) :
  validate_list Switch.validate l = Ok ts →
  validate_list Switch.validate (renumber_switch f <$> l) =
    Ok (renumber_validated f <$> ts).
Proof.
  revert ts. induction l as [|r l IH]; intros ts.
  - by intros [= <-].
  - rewrite fmap_cons. cbn [validate_list].
    destruct (Switch.validate r) as [t|] eqn:Ht; [|done].
    destruct (validate_list Switch.validate l) as [ts'|]; [|done].
    intros [= <-]. rewrite (validate_renumbered_switch f r t Ht), (IH ts' eq_refl).
    done.
Qed.

(** The root validator of the lab looks at the default port count of the
    VPC and at how many switches there are, and at nothing else. *)
Lemma inject_loop_ext (v v' : VPC.t) (l l' : list Switch.t) :
  VPC.port_count v = VPC.port_count v' →
  List.length l = List.length l' →
  LabConfig.inject_loop v l = LabConfig.inject_loop v' l'.
Proof.
  intros Hpc. revert l'.
  induction l as [|a l IH]; intros [|a' l'] Hlen; simpl in *; try done.
  rewrite (IH l') by lia. by rewrite Hpc.
Qed.

(** A validated lab that has a switch has no default port count: handing
    the default to a switch sets an attribute that the model refuses. *)
Lemma validated_default_port_count (raw : LabConfig.raw) (cfg : LabConfig.t) :
  LabConfig.validate raw = Ok cfg →
  VPC.port_count (LabConfig.vpc cfg) = None ∨ LabConfig.switches cfg = [].
Proof.
  intros Hv. destruct (validate_Ok raw cfg Hv) as (_ & _ & _ & Hinj).
  destruct (LabConfig.switches cfg) as [|a l]; [by right|]. left.
  simpl in Hinj. destruct (VPC.port_count (LabConfig.vpc cfg)); [|done].
  rewrite bool_decide_true in Hinj by done. done.
Qed.

(** C8 (amended).  The switch ids of a validated specification are pairwise
    distinct, and that is all validation asks of the numeric ids: the
    specification stays valid when the VPC id is replaced by any integer and
    when the switch ids are renumbered by any injective function.  An id is
    rendered as exactly two hexadecimal digits precisely when it lies within
    0..255. *)
Theorem validated_ids (raw : LabConfig.raw) (cfg : LabConfig.t) :
  LabConfig.validate raw = Ok cfg →
  NoDup (Switch.id <$> LabConfig.switches cfg) ∧
  (∀ n : Z, Py.is_ok (LabConfig.validate (with_vpc_id n raw)) = true) ∧
  (∀ f : Z → Z, Inj (=) (=) f →
     Py.is_ok (LabConfig.validate (with_switch_ids f raw)) = true) ∧
  (∀ n : Z, Py.two_hex (Py.format_02x n) = true ↔ 0 ≤ n ≤ 255).
Proof.
  intros Hv. destruct (validate_Ok raw cfg Hv) as (Hvpc & Hsws & Hnd & Hinj).
  split; [done|]. split; [|split; [|apply two_hex_format_02x]].
  - intros n.
    unfold VPC.validate in Hvpc.
    destruct (VPC.validate_mac_prefix (VPC.mac_prefix (LabConfig.raw_vpc raw)))
      as [m|] eqn:Hm; [|done].
    rewrite (validate_intro (with_vpc_id n raw)
               {| VPC.name := VPC.name (LabConfig.raw_vpc raw); VPC.mac_prefix := m;
                  VPC.id := n;
                  VPC.port_count := VPC.port_count (LabConfig.raw_vpc raw) |}
               (LabConfig.switches cfg)); try done.
    + unfold VPC.validate. simpl. by rewrite Hm.
    + inversion Hvpc as [Hcfg]. rewrite <- Hcfg in Hinj.
      destruct (LabConfig.switches cfg) as [|a l]; [done|].
      unfold LabConfig.inject_vpc_port_count in *. rewrite <- Hinj.
      by apply inject_loop_ext.
  - intros f Hf.
    rewrite (validate_intro (with_switch_ids f raw) (LabConfig.vpc cfg)
               (renumber_validated f <$> LabConfig.switches cfg)); try done.
    + simpl. by apply validate_renumbered_list.
    + rewrite <- list_fmap_compose.
      assert (Switch.id ∘ renumber_validated f = f ∘ Switch.id) as -> by done.
      rewrite list_fmap_compose. by apply NoDup_fmap_2.
    + destruct (LabConfig.switches cfg) as [|a l] eqn:Hl; [done|].
      simpl fmap. unfold LabConfig.inject_vpc_port_count in *.
      rewrite <- Hinj. apply inject_loop_ext; [done|]. simpl.
      by rewrite length_fmap.
Qed.
End validation.

(** ** Insertion-ordered dictionaries *)

Section dicts.
Context {V : Type}.
Implicit Types (d : list (string * V)) (k : string) (v : V).

Lemma dict_get_set_eq d k v : Py.dict_get k (Py.dict_set k v d) = Some v.
Proof.
  induction d as [|[k' v'] d IH]; simpl.
  - by rewrite String.eqb_refl.
  - destruct (String.eqb_spec k' k) as [->|Hne]; simpl.
    + by rewrite String.eqb_refl.
    + destruct (String.eqb_spec k' k); done.
Qed.

Lemma dict_get_set_ne d k k' v :
  k ≠ k' → Py.dict_get k' (Py.dict_set k v d) = Py.dict_get k' d.
Proof.
  intros Hne. induction d as [|[k0 v0] d IH]; simpl.
  - destruct (String.eqb_spec k k'); done.
  - destruct (String.eqb_spec k0 k) as [->|Hne0]; simpl.
    + destruct (String.eqb_spec k k'); done.
    + by rewrite IH.
Qed.

Lemma dict_get_elem_of d k v : Py.dict_get k d = Some v → (k, v) ∈ d.
Proof.
  induction d as [|[k0 v0] d IH]; simpl; [done|].
  destruct (String.eqb_spec k0 k) as [->|Hne].
  - intros [= ->]. left.
  - intros Hg. right. by apply IH.
Qed.

Lemma dict_get_None d k : Py.dict_get k d = None ↔ k ∉ d.*1.
Proof.
  induction d as [|[k0 v0] d IH]; simpl.
  - split; [intros _; apply not_elem_of_nil|done].
  - destruct (String.eqb_spec k0 k) as [->|Hne].
    + split; [done|]. intros Hn. exfalso. apply Hn. left.
    + rewrite IH, not_elem_of_cons. split; [by intros ?; split|by intros [_ ?]].
Qed.

Lemma elem_of_dict_get d k v : NoDup d.*1 → (k, v) ∈ d → Py.dict_get k d = Some v.
Proof.
  induction d as [|[k0 v0] d IH]; simpl; intros Hnd Hin.
  - by apply elem_of_nil in Hin.
  - apply NoDup_cons in Hnd as [Hk0 Hnd].
    apply elem_of_cons in Hin as [[= -> ->]|Hin].
    + by rewrite String.eqb_refl.
    + destruct (String.eqb_spec k0 k) as [->|Hne]; [|by apply IH].
      exfalso. apply Hk0. apply list_elem_of_fmap. by exists (k, v).
Qed.

Lemma dict_set_keys d k v :
  (Py.dict_set k v d).*1 = if decide (k ∈ d.*1) then d.*1 else d.*1 ++ [k].
Proof.
  induction d as [|[k0 v0] d IH].
  - case_decide as Hin; [by apply elem_of_nil in Hin|done].
  - cbn [Py.dict_set]. destruct (String.eqb_spec k0 k) as [->|Hne].
    + rewrite decide_True by (rewrite fmap_cons; left). done.
    + rewrite !fmap_cons, IH. cbn [fst]. destruct (decide (k ∈ d.*1)) as [Hin|Hnin].
      * rewrite decide_True by by right. done.
      * rewrite decide_False; [done|]. rewrite not_elem_of_cons. by split.
Qed.

Lemma dict_set_NoDup d k v : NoDup d.*1 → NoDup (Py.dict_set k v d).*1.
Proof.
  intros Hnd. rewrite dict_set_keys. case_decide; [done|].
  apply NoDup_app. split; [done|]. split; [|apply NoDup_singleton].
  intros x Hx ->%list_elem_of_singleton. done.
Qed.
End dicts.

(** ** Derivation of the topology *)

Section derivation.
Import schema topology.
Context `{ipaddress.Parser}.

Lemma foldl_add_port_shape (sw : LogicalSwitch.t) (l : list LogicalSwitchPort.t) :
  foldl LogicalSwitch.add_port sw l =
    LogicalSwitch.mk (LogicalSwitch.vpc_name sw) (LogicalSwitch.name sw)
      (LogicalSwitch.id sw) (LogicalSwitch.type sw) (LogicalSwitch.subnet_str sw)
      (LogicalSwitch.subnet sw) (LogicalSwitch.dhcp_enable sw)
      (LogicalSwitch.routed sw) (LogicalSwitch.ports sw ++ l)
      (LogicalSwitch.dhcp_options sw) (LogicalSwitch.vpc_mac_prefix sw)
      (LogicalSwitch.vpc_id sw).
Proof.
  revert sw. induction l as [|p l IH]; intros sw.
  - rewrite app_nil_r. by destruct sw.
  - cbn [foldl]. rewrite IH. simpl. by rewrite <- app_assoc.
Qed.

(** Adding ports changes nothing but the list of ports. *)
Lemma add_ports_shape (self : Topology.t) (sw : LogicalSwitch.t) (sc : Switch.t) :
  ∃ ps,
    Topology._add_ports_to_switch self sw sc =
      LogicalSwitch.mk (LogicalSwitch.vpc_name sw) (LogicalSwitch.name sw)
        (LogicalSwitch.id sw) (LogicalSwitch.type sw) (LogicalSwitch.subnet_str sw)
        (LogicalSwitch.subnet sw) (LogicalSwitch.dhcp_enable sw)
        (LogicalSwitch.routed sw) ps
        (LogicalSwitch.dhcp_options sw) (LogicalSwitch.vpc_mac_prefix sw)
        (LogicalSwitch.vpc_id sw).
Proof.
  unfold Topology._add_ports_to_switch.
  destruct (Py.truthy_list (Switch.ports sc)).
  - eexists. apply foldl_add_port_shape.
  - destruct (Py.or_int _ _).
    + eexists. apply foldl_add_port_shape.
    + exists (LogicalSwitch.ports sw). by destruct sw.
Qed.

(** The switch built from a descriptor carries its name, id and flags, and
    never the two attributes that [dhcp_server_mac] reads. *)
Lemma create_switch_Ok (self : Topology.t) (c : Switch.t) (sw : LogicalSwitch.t) :
  Topology.create_switch self c = Ok sw →
  LogicalSwitch.name sw = Switch.name c ∧
  LogicalSwitch.id sw = Switch.id c ∧
  LogicalSwitch.routed sw = Switch.routed c ∧
  LogicalSwitch.dhcp_enable sw = Switch.dhcp_enable c ∧
  ipaddress.parse (Switch.subnet c) = Some (LogicalSwitch.subnet sw) ∧
  LogicalSwitch.vpc_mac_prefix sw = None ∧
  LogicalSwitch.vpc_id sw = None.
Proof.
  unfold Topology.create_switch, LogicalSwitch.__init__.
  destruct (ipaddress.parse (Switch.subnet c)) as [net|]; [|done].
  cbn [mbind res_bind Py.bind].
  destruct (add_ports_shape self
              (LogicalSwitch.mk (Topology.vpc_name self) (Switch.name c)
                 (Switch.id c) (Switch.type c) (Switch.subnet c) net
                 (Switch.dhcp_enable c) (Switch.routed c) [] None None None) c)
    as [ps ->].
  cbn [LogicalSwitch.dhcp_enable LogicalSwitch.vpc_name LogicalSwitch.name
       LogicalSwitch.id LogicalSwitch.type LogicalSwitch.subnet_str
       LogicalSwitch.subnet LogicalSwitch.routed LogicalSwitch.dhcp_options
       LogicalSwitch.vpc_mac_prefix LogicalSwitch.vpc_id].
  destruct (Switch.dhcp_enable c) eqn:Hd.
  - unfold Topology._setup_dhcp_options. simpl.
    destruct (ipaddress.hosts net); [|done].
    intros [= <-]. simpl. done.
  - intros [= <-]. simpl. done.
Qed.

(** A DHCP-enabled descriptor whose subnet has a host cannot be built: the
    server MAC reads attributes that the switch does not have. *)
Lemma create_switch_dhcp (self : Topology.t) (c : Switch.t)
    (net : ipaddress.IPv4Network) :
  Switch.dhcp_enable c = true →
  ipaddress.parse (Switch.subnet c) = Some net →
  ipaddress.hosts net ≠ [] →
  Topology.create_switch self c =
    Raise (Py.AttributeError "'LogicalSwitch' object has no attribute 'vpc_mac_prefix'").
Proof.
  intros Hd Hp Hh. unfold Topology.create_switch, LogicalSwitch.__init__.
  rewrite Hp. cbn [mbind res_bind Py.bind].
  destruct (add_ports_shape self
              (LogicalSwitch.mk (Topology.vpc_name self) (Switch.name c)
                 (Switch.id c) (Switch.type c) (Switch.subnet c) net
                 (Switch.dhcp_enable c) (Switch.routed c) [] None None None) c)
    as [ps ->].
  simpl. rewrite Hd. unfold Topology._setup_dhcp_options. simpl. rewrite ?Hd. simpl.
  destruct (ipaddress.hosts net); done.
Qed.

Lemma create_switch_total (self : Topology.t) (c : Switch.t) :
  Switch.dhcp_enable c = false →
  is_Some (ipaddress.parse (Switch.subnet c)) →
  ∃ sw, Topology.create_switch self c = Ok sw.
Proof.
  intros Hd [net Hp]. unfold Topology.create_switch, LogicalSwitch.__init__.
  rewrite Hp. cbn [mbind res_bind Py.bind].
  destruct (add_ports_shape self
              (LogicalSwitch.mk (Topology.vpc_name self) (Switch.name c)
                 (Switch.id c) (Switch.type c) (Switch.subnet c) net
                 (Switch.dhcp_enable c) (Switch.routed c) [] None None None) c)
    as [ps ->].
  simpl. rewrite Hd. eauto.
Qed.

Lemma create_switches_app (self : Topology.t) (l1 l2 : list Switch.t) :
  Topology.create_switches self (l1 ++ l2) =
    Py.bind (Topology.create_switches self l1)
            (λ self1, Topology.create_switches self1 l2).
Proof.
  revert self. induction l1 as [|c l1 IH]; intros self; [done|].
  cbn [app Topology.create_switches mbind res_bind Py.bind].
  destruct (Topology.create_switch self c); [|done]. simpl. apply IH.
Qed.

(** The first loop only changes the dictionary of switches. *)
Lemma create_switches_frame (l : list Switch.t) (self self' : Topology.t) :
  Topology.create_switches self l = Ok self' →
  self' = Topology.set_switches self (Topology.switches self').
Proof.
  revert self. induction l as [|c l IH]; intros self.
  - intros [= <-]. by destruct self.
  - cbn [Topology.create_switches mbind res_bind Py.bind].
    destruct (Topology.create_switch self c) as [sw|]; [|done]. simpl.
    intros Hrest. apply IH in Hrest. rewrite Hrest at 1. done.
Qed.

Lemma create_switch_frame (self : Topology.t) d (c : Switch.t) :
  Topology.create_switch (Topology.set_switches self d) c =
    Topology.create_switch self c.
Proof. done. Qed.

Lemma create_switches_snoc (l : list Switch.t) (c : Switch.t)
    (self self' : Topology.t) :
  Topology.create_switches self (l ++ [c]) = Ok self' →
  ∃ self1 sw,
    Topology.create_switches self l = Ok self1 ∧
    Topology.create_switch self c = Ok sw ∧
    Topology.switches self' =
      Py.dict_set (LogicalSwitch.name sw) sw (Topology.switches self1).
Proof.
  rewrite create_switches_app.
  destruct (Topology.create_switches self l) as [self1|] eqn:H1; [|done].
  cbn [Py.bind Topology.create_switches mbind res_bind].
  rewrite (create_switches_frame l self self1 H1), create_switch_frame.
  destruct (Topology.create_switch self c) as [sw|] eqn:Hsw; [|done].
  simpl. intros [= <-]. exists self1, sw. rewrite <- (create_switches_frame l self self1 H1).
  done.
Qed.

(** After the first loop every name of the list is bound to the switch
    built from the last descriptor of that name, and the other names are
    bound as before. *)
Lemma create_switches_lookup (l : list Switch.t) (self self' : Topology.t) :
  Topology.create_switches self l = Ok self' →
  NoDup (Topology.switches self).*1 →
  NoDup (Topology.switches self').*1 ∧
  (∀ n sw, Py.dict_get n (Topology.switches self') = Some sw →
     (∃ (k : nat) c, l !! k = Some c ∧ Switch.name c = n ∧
        (∀ (k' : nat) c', (k < k')%nat → l !! k' = Some c' → Switch.name c' ≠ n) ∧
        Topology.create_switch self c = Ok sw) ∨
     ((∀ c, c ∈ l → Switch.name c ≠ n) ∧
      Py.dict_get n (Topology.switches self) = Some sw)) ∧
  (∀ c, c ∈ l → is_Some (Py.dict_get (Switch.name c) (Topology.switches self'))).
Proof.
  revert self'. induction l as [|c l IH] using rev_ind; intros self' Hl Hnd.
  - inversion Hl; subst self'. split; [done|]. split.
    + intros n sw Hg. right. split; [|done]. intros c Hc. by apply elem_of_nil in Hc.
    + intros c Hc. by apply elem_of_nil in Hc.
  - destruct (create_switches_snoc l c self self' Hl) as (self1 & sw0 & H1 & Hsw0 & Hd).
    destruct (IH self1 H1 Hnd) as (Hnd1 & Hget1 & Hall1).
    destruct (create_switch_Ok self c sw0 Hsw0) as (Hname0 & _).
    rewrite Hd, Hname0. split; [by apply dict_set_NoDup|]. split.
    + intros n sw Hg. destruct (decide (Switch.name c = n)) as [<-|Hne].
      * rewrite dict_get_set_eq in Hg. inversion Hg; subst sw0.
        left. exists (List.length l), c. split; [by apply list_lookup_middle|].
        split; [done|]. split; [|done].
        intros k' c' Hlt Hk'. apply lookup_lt_Some in Hk'.
        rewrite length_app in Hk'. simpl in Hk'. lia.
      * rewrite dict_get_set_ne in Hg by done.
        destruct (Hget1 n sw Hg) as [(k & c1 & Hk & Hn & Hlast & Hc1)|[Hnone Hg0]].
        -- left. exists k, c1. split; [by apply lookup_app_l_Some|].
           split; [done|]. split; [|done].
           intros k' c' Hlt Hk'. apply lookup_app_Some in Hk' as [Hk'|[Hge Hk']].
           ++ by apply (Hlast k' c').
           ++ apply list_lookup_singleton_Some in Hk' as [_ <-]. done.
        -- right. split; [|done]. intros c' Hc'.
           apply elem_of_app in Hc' as [Hc'|Hc']; [by apply Hnone|].
           apply list_elem_of_singleton in Hc' as ->. done.
    + intros c' Hc'. apply elem_of_app in Hc' as [Hc'|Hc'].
      * destruct (decide (Switch.name c = Switch.name c')) as [Heq|Hne].
        -- rewrite <- Heq, dict_get_set_eq. eauto.
        -- rewrite dict_get_set_ne by done. by apply Hall1.
      * apply list_elem_of_singleton in Hc' as ->. rewrite dict_get_set_eq. eauto.
Qed.

Lemma create_switches_total (l : list Switch.t) (self : Topology.t) :
  (∀ c, c ∈ l → Switch.dhcp_enable c = false ∧
                is_Some (ipaddress.parse (Switch.subnet c))) →
  ∃ self', Topology.create_switches self l = Ok self'.
Proof.
  revert self. induction l as [|c l IH]; intros self Hall; [by eexists|].
  cbn [Topology.create_switches mbind res_bind Py.bind].
  destruct (Hall c) as [Hd Hp]; [left|].
  destruct (create_switch_total self c Hd Hp) as [sw ->]. simpl.
  apply IH. intros c' Hc'. apply Hall. by right.
Qed.
End derivation.

(** ** The router and the switches of a derived topology *)

Section derived.
Import schema topology pydantic.
Context `{ipaddress.Parser}.

Lemma connect_switches_entries (l : list LogicalSwitch.t) (r r' : LogicalRouter.t) :
  Topology.connect_switches r l = Ok r' →
  LogicalRouter.vpc_name r' = LogicalRouter.vpc_name r ∧
  ∀ n ip mac,
    LogicalRouter.switch_ports r' !! n = Some (ip, mac) →
    LogicalRouter.switch_ports r !! n = Some (ip, mac) ∨
    ∃ sw, sw ∈ l ∧ LogicalSwitch.name sw = n ∧
          LogicalSwitch.routed sw = true ∧
          LogicalSwitch.router_port_ip sw = Some ip ∧
          LogicalSwitch.router_port_mac sw = Ok (Some mac).
Proof.
  revert r. induction l as [|sw l IH]; intros r.
  - intros [= <-]. split; [done|]. intros n ip mac Hn. by left.
  - cbn [Topology.connect_switches mbind res_bind Py.bind].
    destruct (LogicalSwitch.routed sw) eqn:Hr.
    + destruct (LogicalRouter.add_switch r sw) as [r1|] eqn:Hadd; [|done]. simpl.
      intros Hrest. destruct (IH r1 Hrest) as [Hname Hent].
      apply add_switch_Ok in Hadd as [->|(ip0 & mac0 & _ & Hip & Hmac & ->)].
      * split; [done|]. intros n ip mac Hn.
        destruct (Hent n ip mac Hn) as [?|(sw' & Hin & ?)]; [by left|].
        right. exists sw'. split; [by right|done].
      * split; [done|]. intros n ip mac Hn.
        destruct (Hent n ip mac Hn) as [Hl|(sw' & Hin & ?)].
        -- simpl in Hl. destruct (decide (LogicalSwitch.name sw = n)) as [Heq|Hne].
           ++ rewrite <- Heq, lookup_insert_eq in Hl. inversion Hl; subst.
              right. exists sw. split; [left|done].
           ++ rewrite lookup_insert_ne in Hl by done. by left.
        -- right. exists sw'. split; [by right|done].
    + simpl. intros Hrest. destruct (IH r Hrest) as [Hname Hent].
      split; [done|]. intros n ip mac Hn.
      destruct (Hent n ip mac Hn) as [?|(sw' & Hin & ?)]; [by left|].
      right. exists sw'. split; [by right|done].
Qed.

Lemma connect_switches_total (l : list LogicalSwitch.t) (r : LogicalRouter.t) :
  (∀ sw, sw ∈ l → LogicalSwitch.dhcp_enable sw = false) →
  Topology.connect_switches r l = Ok r.
Proof.
  intros Hall. induction l as [|sw l IH]; [done|].
  cbn [Topology.connect_switches mbind res_bind Py.bind].
  assert (LogicalSwitch.dhcp_enable sw = false) as Hd by (apply Hall; left).
  destruct (LogicalSwitch.routed sw) eqn:Hr.
  - unfold LogicalRouter.add_switch, LogicalSwitch.router_port_mac.
    rewrite Hr, Hd. simpl.
    destruct (LogicalSwitch.router_port_ip sw); simpl;
      apply IH; intros sw' Hsw'; apply Hall; by right.
  - simpl. apply IH. intros sw' Hsw'. apply Hall. by right.
Qed.

(** What [__init__] returns, in terms of its two loops. *)
Lemma init_Ok (cfg : LabConfig.t) (topo : Topology.t) :
  Topology.__init__ cfg = Ok topo →
  ∃ self1,
    Topology.create_switches (Topology.blank cfg) (LabConfig.switches cfg) = Ok self1 ∧
    Topology.switches topo = Topology.switches self1 ∧
    if existsb LogicalSwitch.routed (Py.dict_values (Topology.switches self1))
    then ∃ r, Topology.connect_switches
                (LogicalRouter.__init__ (VPC.name (LabConfig.vpc cfg)))
                (Py.dict_values (Topology.switches self1)) = Ok r ∧
              Topology.router topo = Some r
    else Topology.router topo = None.
Proof.
  unfold Topology.__init__, Topology._build_topology.
  cbn [mbind res_bind Py.bind].
  change (LabConfig.switches (Topology.config (Topology.blank cfg)))
    with (LabConfig.switches cfg).
  destruct (Topology.create_switches (Topology.blank cfg) (LabConfig.switches cfg))
    as [self1|] eqn:H1; [|done].
  cbn [mbind res_bind Py.bind]. pose proof (create_switches_frame _ _ _ H1) as Hframe.
  assert (Topology.vpc_name self1 = VPC.name (LabConfig.vpc cfg)) as Hname
    by (by rewrite Hframe).
  assert (Topology.router self1 = None) as Hrouter by (by rewrite Hframe).
  destruct (existsb LogicalSwitch.routed (Py.dict_values (Topology.switches self1)))
    eqn:Hex.
  - rewrite Hname.
    destruct (Topology.connect_switches _ _) as [r|] eqn:Hc; [|done].
    cbn [mbind res_bind Py.bind].
    intros [= <-]. exists self1. rewrite Hex. split; [done|]. split; [done|].
    by exists r.
  - intros [= <-]. exists self1. rewrite Hex. done.
Qed.

(** Every entry of the dictionary of a derived topology is the switch built
    from the last descriptor of its name. *)
Lemma derived_entries (cfg : LabConfig.t) (self1 : Topology.t) :
  Topology.create_switches (Topology.blank cfg) (LabConfig.switches cfg) = Ok self1 →
  NoDup (Topology.switches self1).*1 ∧
  (∀ n sw, (n, sw) ∈ Topology.switches self1 →
     ∃ (k : nat) c,
       LabConfig.switches cfg !! k = Some c ∧ Switch.name c = n ∧
       (∀ (k' : nat) c', (k < k')%nat → LabConfig.switches cfg !! k' = Some c' →
                         Switch.name c' ≠ n) ∧
       Topology.create_switch (Topology.blank cfg) c = Ok sw) ∧
  (∀ c, c ∈ LabConfig.switches cfg →
     ∃ sw, (Switch.name c, sw) ∈ Topology.switches self1).
Proof.
  intros H1.
  destruct (create_switches_lookup _ _ _ H1) as (Hnd & Hget & Hall);
    [apply NoDup_nil_2|].
  split; [done|]. split.
  - intros n sw Hin. apply (elem_of_dict_get _ _ _ Hnd) in Hin.
    destruct (Hget n sw Hin) as [?|[_ ?]]; done.
  - intros c Hc. destruct (Hall c Hc) as [sw Hsw]. exists sw.
    by apply dict_get_elem_of.
Qed.

Lemma elem_of_dict_values {V : Type} (d : list (string * V)) (v : V) :
  v ∈ Py.dict_values d ↔ ∃ k, (k, v) ∈ d.
Proof.
  unfold Py.dict_values. rewrite list_elem_of_fmap. split.
  - intros ([k v'] & -> & Hin). by exists k.
  - intros (k & Hin). by exists (k, v).
Qed.

(** No switch built by the deriver has a gateway MAC: the server MAC reads
    attributes that the constructor does not assign. *)
Lemma created_switch_has_no_mac (self : Topology.t) (c : Switch.t)
    (sw : LogicalSwitch.t) (mac : string) :
  Topology.create_switch self c = Ok sw →
  LogicalSwitch.router_port_mac sw ≠ Ok (Some mac).
Proof.
  intros Hc. destruct (create_switch_Ok _ _ _ Hc) as (_ & _ & _ & _ & _ & Hp & _).
  unfold LogicalSwitch.router_port_mac, LogicalSwitch.dhcp_server_mac.
  rewrite Hp. by destruct (negb _ || negb _).
Qed.

(** Hence the router of a derived topology, when there is one, has an empty
    gateway mapping. *)
Lemma derived_router_has_no_entry (cfg : LabConfig.t) (topo : Topology.t)
    (r : LogicalRouter.t) (n : string) :
  Topology.__init__ cfg = Ok topo → Topology.router topo = Some r →
  LogicalRouter.switch_ports r !! n = None.
Proof.
  intros Hinit Hrt. destruct (init_Ok cfg topo Hinit) as (self1 & H1 & _ & Hr).
  destruct (derived_entries cfg self1 H1) as (_ & Hent & _).
  destruct (existsb LogicalSwitch.routed (Py.dict_values (Topology.switches self1)));
    [|congruence].
  destruct Hr as (r0 & Hc & Hr0). rewrite Hr0 in Hrt. inversion Hrt; subst r0.
  destruct (connect_switches_entries _ _ _ Hc) as [_ Hentries].
  destruct (LogicalRouter.switch_ports r !! n) as [[ip mac]|] eqn:Hl; [|done].
  destruct (Hentries n ip mac Hl) as [Hl0|(sw & Hin & _ & _ & _ & Hmac)].
  - unfold LogicalRouter.__init__ in Hl0. cbn [LogicalRouter.switch_ports] in Hl0.
    by rewrite lookup_empty in Hl0.
  - apply elem_of_dict_values in Hin as [k Hk].
    destruct (Hent k sw Hk) as (? & c & _ & _ & _ & Hcs).
    by destruct (created_switch_has_no_mac _ _ _ mac Hcs).
Qed.

(** Of the topologies that are derived: one has no router exactly when
    none of the switches it retains is routed, and one router otherwise;
    every entry of the gateway mapping belongs to a retained routed switch
    whose gateway address and gateway MAC were both derived; a routed
    switch without DHCP has no entry. *)
Lemma router_presence (cfg : LabConfig.t) (topo : Topology.t) :
  Topology.__init__ cfg = Ok topo →
  let values := Py.dict_values (Topology.switches topo) in
  (Topology.router topo = None ↔
     ∀ sw, sw ∈ values → LogicalSwitch.routed sw = false) ∧
  (∀ r, Topology.router topo = Some r →
     LogicalRouter.full_name r = VPC.name (LabConfig.vpc cfg) +:+ "-lr" ∧
     ∀ n ip mac,
       LogicalRouter.switch_ports r !! n = Some (ip, mac) →
       ∃ sw, sw ∈ values ∧ LogicalSwitch.name sw = n ∧
             LogicalSwitch.routed sw = true ∧
             LogicalSwitch.router_port_ip sw = Some ip ∧
             LogicalSwitch.router_port_mac sw = Ok (Some mac)) ∧
  (∀ r sw, Topology.router topo = Some r → sw ∈ values →
     LogicalSwitch.routed sw = true → LogicalSwitch.dhcp_enable sw = false →
     LogicalRouter.switch_ports r !! LogicalSwitch.name sw = None).
Proof.
  intros Hinit values. destruct (init_Ok cfg topo Hinit) as (self1 & H1 & Hsw & Hr).
  subst values. rewrite Hsw.
  destruct (derived_entries cfg self1 H1) as (Hnd & Hent & _).
  assert (Hmap : ∀ r, Topology.router topo = Some r →
            LogicalRouter.full_name r = VPC.name (LabConfig.vpc cfg) +:+ "-lr" ∧
            ∀ n ip mac,
              LogicalRouter.switch_ports r !! n = Some (ip, mac) →
              ∃ sw, sw ∈ Py.dict_values (Topology.switches self1) ∧
                    LogicalSwitch.name sw = n ∧
                    LogicalSwitch.routed sw = true ∧
                    LogicalSwitch.router_port_ip sw = Some ip ∧
                    LogicalSwitch.router_port_mac sw = Ok (Some mac)).
  { intros r Hrt.
    destruct (existsb LogicalSwitch.routed (Py.dict_values (Topology.switches self1)));
      [|congruence].
    destruct Hr as (r0 & Hc & Hr0). rewrite Hr0 in Hrt. inversion Hrt; subst r0.
    destruct (connect_switches_entries _ _ _ Hc) as [Hname Hentries].
    split; [unfold LogicalRouter.full_name; by rewrite Hname|].
    intros n ip mac Hn. destruct (Hentries n ip mac Hn) as [Hl|?]; [|done].
    unfold LogicalRouter.__init__ in Hl. cbn [LogicalRouter.switch_ports] in Hl.
    by rewrite lookup_empty in Hl. }
  split; [|split; [done|]].
  - destruct (existsb LogicalSwitch.routed (Py.dict_values (Topology.switches self1)))
      eqn:Hex.
    + destruct Hr as (r & _ & ->). split; [done|]. intros Hall.
      apply existsb_exists in Hex as (sw & Hin & Hrouted).
      apply list_elem_of_In in Hin. rewrite (Hall sw Hin) in Hrouted. done.
    + split; [|done]. intros _ sw Hin.
      destruct (LogicalSwitch.routed sw) eqn:Hrouted; [|done].
      assert (existsb LogicalSwitch.routed
                (Py.dict_values (Topology.switches self1)) = true) as Hex'.
      { apply existsb_exists. exists sw. split; [by apply list_elem_of_In|done]. }
      congruence.
  - intros r sw Hrt Hin Hrouted Hdhcp.
    destruct (LogicalRouter.switch_ports r !! LogicalSwitch.name sw)
      as [[ip mac]|] eqn:Hl; [|done].
    destruct (Hmap r Hrt) as [_ Hentries].
    destruct (Hentries _ ip mac Hl) as (sw' & Hin' & Hname & _ & _ & Hmac).
    apply elem_of_dict_values in Hin as [k Hk].
    apply elem_of_dict_values in Hin' as [k' Hk'].
    destruct (Hent k sw Hk) as (? & c & _ & Hck & _ & Hcs).
    destruct (Hent k' sw' Hk') as (? & c' & _ & Hck' & _ & Hcs').
    destruct (create_switch_Ok _ _ _ Hcs) as (Hn & _).
    destruct (create_switch_Ok _ _ _ Hcs') as (Hn' & _).
    assert (k' = k) as -> by congruence.
    pose proof (elem_of_dict_get _ _ _ Hnd Hk) as Hg.
    pose proof (elem_of_dict_get _ _ _ Hnd Hk') as Hg'.
    assert (sw' = sw) as -> by congruence.
    unfold LogicalSwitch.router_port_mac in Hmac. rewrite Hrouted, Hdhcp in Hmac.
    done.
Qed.
End derived.

(** ** Descriptors that share a name *)

Section shadowing.
Import schema topology pydantic ovn_builder.
Context `{ipaddress.Parser}.

Lemma validate_list_Ok {A B : Type} (f : A → res B) (l : list A) (ys : list B) :
  validate_list f l = Ok ys → Forall2 (λ x y, f x = Ok y) l ys.
Proof.
  revert ys. induction l as [|x l IH]; intros ys.
  - intros [= <-]. constructor.
  - cbn [validate_list]. destruct (f x) as [y|] eqn:Hx; [|done].
    destruct (validate_list f l) as [ys'|]; [|done].
    intros [= <-]. constructor; [done|]. by apply IH.
Qed.

Lemma validate_switch_subnet (r : Switch.raw) (c : Switch.t) :
  Switch.validate r = Ok c → is_Some (ipaddress.parse (Switch.subnet c)).
Proof.
  unfold Switch.validate, Switch.validate_subnet.
  destruct (ipaddress.parse (Switch.raw_subnet r)) as [net|] eqn:Hp.
  - destruct (match Switch.raw_ports r with Some _ => _ | None => _ end); [|done].
    destruct (Switch.validate_ports_or_count _); [|done].
    intros [= <-]. simpl. rewrite Hp. eauto.
  - destruct (match Switch.raw_ports r with Some _ => _ | None => _ end); done.
Qed.

Lemma validated_subnets (raw : LabConfig.raw) (cfg : LabConfig.t) (c : Switch.t) :
  LabConfig.validate raw = Ok cfg → c ∈ LabConfig.switches cfg →
  is_Some (ipaddress.parse (Switch.subnet c)).
Proof.
  intros Hv Hc. destruct (validate_Ok raw cfg Hv) as (_ & Hl & _).
  apply validate_list_Ok in Hl.
  apply list_elem_of_lookup in Hc as [i Hi].
  destruct (Forall2_lookup_r _ _ _ _ _ Hl Hi) as (r & _ & Hr).
  by apply (validate_switch_subnet r).
Qed.

Lemma NoDup_subset_length_lt (ks ns : list string) :
  NoDup ks → (∀ x, x ∈ ks → x ∈ ns) → ¬ NoDup ns →
  (List.length ks < List.length ns)%nat.
Proof.
  intros Hnd Hsub Hdup. pose proof (NoDup_submseteq _ _ Hnd Hsub) as Hms.
  pose proof (submseteq_length _ _ Hms) as Hle.
  destruct (decide (List.length ks = List.length ns)) as [Heq|Hne]; [|lia].
  exfalso. apply Hdup.
  rewrite <- (submseteq_length_Permutation _ _ Hms); [done|lia].
Qed.

(** Derivation succeeds when no switch asks for DHCP. *)
Lemma init_total (cfg : LabConfig.t) :
  (∀ c, c ∈ LabConfig.switches cfg →
     Switch.dhcp_enable c = false ∧ is_Some (ipaddress.parse (Switch.subnet c))) →
  ∃ topo, Topology.__init__ cfg = Ok topo.
Proof.
  intros Hall.
  destruct (create_switches_total (LabConfig.switches cfg) (Topology.blank cfg) Hall)
    as [self1 H1].
  destruct (derived_entries cfg self1 H1) as (_ & Hent & _).
  unfold Topology.__init__, Topology._build_topology.
  change (LabConfig.switches (Topology.config (Topology.blank cfg)))
    with (LabConfig.switches cfg).
  rewrite H1. cbn [mbind res_bind Py.bind].
  destruct (existsb _ _); [|by eexists].
  rewrite connect_switches_total; [by eexists|].
  intros sw Hsw. apply elem_of_dict_values in Hsw as [k Hk].
  destruct (Hent k sw Hk) as (i & c & Hi & _ & _ & Hc).
  destruct (create_switch_Ok _ _ _ Hc) as (_ & _ & _ & -> & _).
  apply Hall. apply list_elem_of_lookup. eauto.
Qed.

(** C10.  When two descriptors of a validated specification share a name,
    the derived topology holds one switch under that name, built from the
    last descriptor of that name; the topology has fewer switches than the
    specification has descriptors, and no switch that the builder's loops
    visit comes from the shadowed descriptor.  A topology is derived
    whenever no switch asks for DHCP. *)
Theorem same_name_shadowed (raw : LabConfig.raw) (cfg : LabConfig.t)
    (i j : nat) (a b : Switch.t) :
  LabConfig.validate raw = Ok cfg →
  LabConfig.switches cfg !! i = Some a →
  LabConfig.switches cfg !! j = Some b →
  (i < j)%nat →
  Switch.name a = Switch.name b →
  ((∀ c, c ∈ LabConfig.switches cfg → Switch.dhcp_enable c = false) →
     ∃ topo, Topology.__init__ cfg = Ok topo) ∧
  ∀ topo, Topology.__init__ cfg = Ok topo →
    let values := Py.dict_values (Topology.switches topo) in
    (∃ (k : nat) c sw,
       (j ≤ k)%nat ∧ LabConfig.switches cfg !! k = Some c ∧
       Switch.name c = Switch.name a ∧
       (∀ (k' : nat) c', (k < k')%nat → LabConfig.switches cfg !! k' = Some c' →
                         Switch.name c' ≠ Switch.name a) ∧
       Py.dict_get (Switch.name a) (Topology.switches topo) = Some sw ∧
       Topology.create_switch (Topology.blank cfg) c = Ok sw ∧
       LogicalSwitch.id sw = Switch.id c ∧
       ∀ sw', sw' ∈ values → LogicalSwitch.name sw' = Switch.name a → sw' = sw) ∧
    (List.length values < List.length (LabConfig.switches cfg))%nat ∧
    (∀ sw, sw ∈ values → LogicalSwitch.id sw ≠ Switch.id a) ∧
    TopologyView.switches (main.view_topology topo) = main.view_switch <$> values.
Proof.
  intros Hv Hi Hj Hlt Hname.
  destruct (validate_Ok raw cfg Hv) as (_ & _ & Hids & _).
  split.
  { intros Hd. apply init_total. intros c Hc. split; [by apply Hd|].
    by apply (validated_subnets raw cfg). }
  intros topo Hinit values. destruct (init_Ok cfg topo Hinit) as (self1 & H1 & Hsw & _).
  subst values. rewrite Hsw.
  destruct (derived_entries cfg self1 H1) as (Hnd & Hent & Hall).
  (* the index of the descriptor behind an entry is not [i] *)
  assert (Hnot_i : ∀ (k : nat) c,
            LabConfig.switches cfg !! k = Some c →
            (∀ (k' : nat) c', (k < k')%nat → LabConfig.switches cfg !! k' = Some c' →
                              Switch.name c' ≠ Switch.name c) →
            Switch.id c ≠ Switch.id a).
  { intros k c Hk Hlast Hid.
    assert (k = i) as ->.
    { apply (NoDup_lookup _ k i (Switch.id c) Hids).
      - by rewrite list_lookup_fmap, Hk.
      - by rewrite list_lookup_fmap, Hi, Hid. }
    assert (c = a) as -> by congruence.
    apply (Hlast j b Hlt Hj). done. }
  split; [|split; [|split; [|unfold main.view_topology; simpl; by rewrite Hsw]]].
  - destruct (Hall a) as [sw Hin]; [apply list_elem_of_lookup; eauto|].
    destruct (Hent _ sw Hin) as (k & c & Hk & Hn & Hlast & Hc).
    destruct (create_switch_Ok _ _ _ Hc) as (Hswn & Hswid & _).
    exists k, c, sw. split.
    { destruct (decide (j ≤ k)%nat) as [?|Hgt]; [done|]. exfalso.
      apply (Hlast j b); [lia|done|done]. }
    split; [done|]. split; [done|]. split; [done|].
    split; [by apply elem_of_dict_get|]. split; [done|]. split; [done|].
    intros sw' Hin' Hn'. apply elem_of_dict_values in Hin' as [k' Hk'].
    destruct (Hent k' sw' Hk') as (? & c' & _ & Hck' & _ & Hcs').
    destruct (create_switch_Ok _ _ _ Hcs') as (Hn'' & _).
    assert (k' = Switch.name a) as -> by congruence.
    pose proof (elem_of_dict_get _ _ _ Hnd Hk') as Hg'.
    pose proof (elem_of_dict_get _ _ _ Hnd Hin) as Hg.
    congruence.
  - unfold Py.dict_values. rewrite length_fmap.
    rewrite <- (length_fmap fst (Topology.switches self1)).
    rewrite <- (length_fmap Switch.name (LabConfig.switches cfg)).
    apply NoDup_subset_length_lt; [done| |].
    + intros n Hn. apply list_elem_of_fmap in Hn as ([n' sw] & -> & Hin).
      destruct (Hent n' sw Hin) as (k & c & Hk & <- & _).
      apply list_elem_of_fmap. exists c. split; [done|].
      apply list_elem_of_lookup. eauto.
    + intros Hnd'.
      assert (i = j) as Heq; [|lia].
      apply (NoDup_lookup _ i j (Switch.name a) Hnd').
      * by rewrite list_lookup_fmap, Hi.
      * by rewrite list_lookup_fmap, Hj, Hname.
  - intros sw Hin. apply elem_of_dict_values in Hin as [n Hin].
    destruct (Hent n sw Hin) as (k & c & Hk & <- & Hlast & Hc).
    destruct (create_switch_Ok _ _ _ Hc) as (_ & -> & _).
    by apply (Hnot_i k c).
Qed.
End shadowing.

(** ** The reconciler *)

Section reconciler.
Import schema ovn_builder.
Context {NB : Type} `{Northbound NB}.
Implicit Types (s : @OvnBuilder.state NB) (switch : SwitchView.t)
  (router : RouterView.t) (port : PortView.t) (topology : TopologyView.t).

Lemma commit_txn_ops (txn : list op) s :
  List.concat (OvnBuilder.commit_txn txn s).2 = List.concat s.2 ++ txn.
Proof. simpl. by rewrite concat_app, concat_cons, app_nil_r. Qed.

(** A loop whose every step appends operations appends, in order, the
    operations of each step. *)
Lemma foldl_ops {A : Type} (f : @OvnBuilder.state NB → A → @OvnBuilder.state NB)
    (Q : A → list op → Prop) (l : list A) :
  (∀ s x, x ∈ l → ∃ ops, List.concat (f s x).2 = List.concat s.2 ++ ops ∧ Q x ops) →
  ∀ s, ∃ opss, List.concat (foldl f s l).2 = List.concat s.2 ++ List.concat opss ∧ Forall2 Q l opss.
Proof.
  induction l as [|x l IH]; intros Hstep s.
  - exists []. simpl. by rewrite app_nil_r.
  - destruct (Hstep s x) as (ops & Hops & HQ); [left|].
    destruct (IH (λ s' y Hy, Hstep s' y (list_elem_of_further _ _ _ Hy)) (f s x))
      as (opss & Hopss & HQs).
    exists (ops :: opss). simpl. rewrite Hopss, Hops, <- app_assoc.
    split; [done|]. by constructor.
Qed.

(** C3 (amended).  With a gateway address and MAC at hand, the attachment is
    skipped as a whole only when both interface objects exist already.
    When both are absent both are created in one transaction; when only one
    is absent that one is created and the other is left alone. *)
Theorem attachment_by_existence switch router s (ip mac : string) :
  SwitchView.router_port_ip switch = Some ip → ip ≠ EmptyString →
  SwitchView.router_port_mac switch = Ok (Some mac) → mac ≠ EmptyString →
  let router_port := OvnBuilder.router_port_name switch router in
  let switch_port := OvnBuilder.switch_port_name switch router in
  let create_router_port :=
    [lrp_add (RouterView.full_name router) router_port mac [ip] owned] in
  let create_switch_port :=
    [lsp_add (SwitchView.full_name switch) switch_port owned;
     lsp_set_type switch_port "router";
     lsp_set_options switch_port [("router-port", router_port)];
     lsp_set_addresses switch_port ["router"]] in
  let out := OvnBuilder._connect_switch_to_router switch router s in
  out.1 = Ok () ∧
  match lrp_get router_port s.1, lsp_get switch_port s.1 with
  | true, true => out.2 = s
  | false, false =>
      out.2 = OvnBuilder.commit_txn (create_router_port ++ create_switch_port) s
  | true, false => out.2 = OvnBuilder.commit_txn create_switch_port s
  | false, true => out.2 = OvnBuilder.commit_txn create_router_port s
  end.
Proof.
  intros Hip Hip_ne Hmac Hmac_ne. simpl.
  unfold OvnBuilder._connect_switch_to_router. rewrite Hip, Hmac. simpl.
  destruct (String.eqb_spec ip EmptyString); [done|].
  destruct (String.eqb_spec mac EmptyString); [done|]. simpl.
  destruct (lrp_get _ s.1), (lsp_get _ s.1); done.
Qed.

(** DHCP options are created without looking for existing ones. *)
Lemma create_dhcp_options_always switch s (o : string * string)
    (options : list (string * string)) :
  SwitchView.dhcp_options switch = Some (o :: options) →
  ∃ rest,
    List.concat (OvnBuilder._create_dhcp_options switch s).2 =
      List.concat s.2 ++
      dhcp_options_add (ipaddress.str_network (SwitchView.subnet switch))
                       (o :: options) owned :: rest.
Proof.
  intros Ho. unfold OvnBuilder._create_dhcp_options. rewrite Ho.
  rewrite commit_txn_ops. eexists. done.
Qed.

Lemma delete_port_ops port s :
  ∃ ops, List.concat (OvnBuilder._delete_logical_switch_port port s).2 = List.concat s.2 ++ ops ∧
         (ops = [] ∨ ops = [lsp_del (PortView.full_name port)]).
Proof.
  unfold OvnBuilder._delete_logical_switch_port.
  destruct (lsp_get _ s.1); simpl.
  - exists [lsp_del (PortView.full_name port)].
    rewrite concat_app. simpl. eauto.
  - exists []. rewrite app_nil_r. eauto.
Qed.

Lemma delete_dhcp_ops switch s :
  ∃ ops, List.concat (OvnBuilder._delete_dhcp_options switch s).2 = List.concat s.2 ++ ops ∧
         (ops = [] ∨ ∃ uuid, ops = [dhcp_options_del uuid]).
Proof.
  unfold OvnBuilder._delete_dhcp_options.
  destruct (OvnBuilder.find_cidr _ _) as [uuid|].
  - exists [dhcp_options_del uuid]. rewrite commit_txn_ops. eauto.
  - exists []. rewrite app_nil_r. eauto.
Qed.

Lemma delete_switch_ops switch s :
  ∃ ops, List.concat (OvnBuilder._delete_logical_switch switch s).2 = List.concat s.2 ++ ops ∧
         (ops = [] ∨ ops = [ls_del (SwitchView.full_name switch)]).
Proof.
  unfold OvnBuilder._delete_logical_switch.
  destruct (ls_get _ s.1); simpl.
  - exists [ls_del (SwitchView.full_name switch)].
    rewrite concat_app. simpl. eauto.
  - exists []. rewrite app_nil_r. eauto.
Qed.

Lemma delete_router_ops router s :
  ∃ ops, List.concat (OvnBuilder._delete_logical_router router s).2 = List.concat s.2 ++ ops ∧
         (ops = [] ∨ ops = [lr_del (RouterView.full_name router)]).
Proof.
  unfold OvnBuilder._delete_logical_router.
  destruct (lr_get _ s.1); simpl.
  - exists [lr_del (RouterView.full_name router)].
    rewrite concat_app. simpl. eauto.
  - exists []. rewrite app_nil_r. eauto.
Qed.

Lemma disconnect_ops switch router s :
  ∃ ops,
    List.concat (OvnBuilder._disconnect_switch_from_router switch router s).2 =
      List.concat s.2 ++ ops ∧
    Forall (λ o, o = lrp_del (OvnBuilder.router_port_name switch router) ∨
                 o = lsp_del (OvnBuilder.switch_port_name switch router)) ops.
Proof.
  unfold OvnBuilder._disconnect_switch_from_router. eexists.
  rewrite commit_txn_ops. split; [done|].
  apply Forall_app. split.
  - destruct (lrp_get _ s.1); [|constructor]. constructor; [by left|constructor].
  - destruct (lsp_get _ s.1); [|constructor]. constructor; [by right|constructor].
Qed.

Lemma destroy_attachments_ops topology s :
  ∃ ops,
    List.concat (OvnBuilder.destroy_attachments topology s).2 = List.concat s.2 ++ ops ∧
    Forall (λ o, ∃ switch router,
              switch ∈ TopologyView.switches topology ∧
              TopologyView.router topology = Some router ∧
              SwitchView.routed switch = true ∧
              (o = lrp_del (OvnBuilder.router_port_name switch router) ∨
               o = lsp_del (OvnBuilder.switch_port_name switch router))) ops.
Proof.
  unfold OvnBuilder.destroy_attachments.
  opose proof (foldl_ops
              (λ s switch,
                 match SwitchView.routed switch, TopologyView.router topology with
                 | true, Some router =>
                     OvnBuilder._disconnect_switch_from_router switch router s
                 | _, _ => s
                 end)
              (λ switch ops,
                 Forall (λ o, ∃ router,
                           TopologyView.router topology = Some router ∧
                           SwitchView.routed switch = true ∧
                           (o = lrp_del (OvnBuilder.router_port_name switch router) ∨
                            o = lsp_del (OvnBuilder.switch_port_name switch router)))
                        ops)
              (TopologyView.switches topology) _ s) as (opss & Hops & HQ).
  { intros s' switch _.
    destruct (SwitchView.routed switch) eqn:Hr;
      [destruct (TopologyView.router topology) as [router|] eqn:Hrt|].
    - destruct (disconnect_ops switch router s') as (ops & Hops & Hall).
      exists ops. split; [done|]. eapply Forall_impl; [exact Hall|].
      intros o Ho. by exists router.
    - exists []. by rewrite app_nil_r.
    - exists []. by rewrite app_nil_r. }
  exists (List.concat opss). split; [done|].
  clear -HQ. induction HQ as [|switch ops sws opss Hhd _ IH]; simpl; [constructor|].
  apply Forall_app. split.
  - eapply Forall_impl; [exact Hhd|]. intros o (router & ? & ? & ?).
    exists switch, router. split; [left|done].
  - eapply Forall_impl; [exact IH|]. intros o (sw & router & Hin & ?).
    exists sw, router. split; [by right|done].
Qed.

Lemma delete_ports_ops (ports : list PortView.t) s :
  ∃ ops,
    List.concat
      (foldl (λ s port, OvnBuilder._delete_logical_switch_port port s) s ports).2 =
      List.concat s.2 ++ ops ∧
    Forall (λ o, ∃ port, port ∈ ports ∧ o = lsp_del (PortView.full_name port)) ops.
Proof.
  opose proof (foldl_ops (λ s port, OvnBuilder._delete_logical_switch_port port s)
                (λ port ops, ops = [] ∨ ops = [lsp_del (PortView.full_name port)])
                ports _ s) as (pops & Hpops & HQp).
  { intros s' port _. apply delete_port_ops. }
  exists (List.concat pops). split; [done|].
  clear -HQp. induction HQp as [|port ops ports opss Hhd _ IH]; simpl; [constructor|].
  apply Forall_app. split.
  - destruct Hhd as [->| ->]; [constructor|]. constructor; [|constructor].
    exists port. split; [left|done].
  - eapply Forall_impl; [exact IH|]. intros o (p & Hp & ->).
    exists p. split; [by right|done].
Qed.

Lemma delete_dhcp_if_enabled_ops switch s :
  ∃ ops,
    List.concat (if SwitchView.dhcp_enable switch
                 then OvnBuilder._delete_dhcp_options switch s else s).2 =
      List.concat s.2 ++ ops ∧
    (ops = [] ∨ SwitchView.dhcp_enable switch = true ∧
                ∃ uuid, ops = [dhcp_options_del uuid]).
Proof.
  destruct (SwitchView.dhcp_enable switch).
  - destruct (delete_dhcp_ops switch s) as (ops & Hops & [->|Hu]);
      eexists; split; eauto.
  - exists []. rewrite app_nil_r. eauto.
Qed.

Lemma delete_router_if_any_ops topology s :
  ∃ ops,
    List.concat (match TopologyView.router topology with
                 | Some router => OvnBuilder._delete_logical_router router s
                 | None => s
                 end).2 = List.concat s.2 ++ ops ∧
    (ops = [] ∨
     ∃ router, TopologyView.router topology = Some router ∧
               ops = [lr_del (RouterView.full_name router)]).
Proof.
  destruct (TopologyView.router topology) as [router|].
  - destruct (delete_router_ops router s) as (ops & Hops & [->| ->]);
      eexists; split; eauto.
  - exists []. rewrite app_nil_r. eauto.
Qed.

Lemma destroy_switch_ops switch s :
  ∃ segment,
    List.concat (OvnBuilder.destroy_switch switch s).2 = List.concat s.2 ++ segment ∧
    ∃ port_dels dhcp_del switch_del,
      segment = port_dels ++ dhcp_del ++ switch_del ∧
      Forall (λ o, ∃ port, port ∈ SwitchView.ports switch ∧
                           o = lsp_del (PortView.full_name port)) port_dels ∧
      (dhcp_del = [] ∨
       SwitchView.dhcp_enable switch = true ∧
       ∃ uuid, dhcp_del = [dhcp_options_del uuid]) ∧
      (switch_del = [] ∨ switch_del = [ls_del (SwitchView.full_name switch)]).
Proof.
  unfold OvnBuilder.destroy_switch. cbv zeta.
  match goal with
  | |- context [OvnBuilder._delete_logical_switch switch ?sb] =>
      destruct (delete_switch_ops switch sb) as (sops & Hsops & HQs)
  end.
  match type of Hsops with
  | context [List.concat (if _ then _ else ?sa).2] =>
      destruct (delete_dhcp_if_enabled_ops switch sa) as (dops & Hdops & HQd)
  end.
  destruct (delete_ports_ops (SwitchView.ports switch) s) as (pops & Hpops & HQp).
  exists (pops ++ dops ++ sops). split.
  { etrans; [exact Hsops|].
    transitivity ((List.concat s.2 ++ pops ++ dops) ++ sops);
      [|by rewrite <- !app_assoc].
    f_equal. etrans; [exact Hdops|]. rewrite app_assoc. f_equal. exact Hpops. }
  exists pops, dops, sops. done.
Qed.

(** C9.  The delete operations of [destroy] come in three blocks: first the
    interface deletions that detach routed switches from the router, then
    the deletion of the router, then one segment per switch, and within such
    a segment the ports of the switch, then its DHCP options, then the
    switch itself. *)
Theorem destroy_order topology (nb : NB) :
  ∃ (detach router_del : list op) (segments : list (list op)),
    List.concat (OvnBuilder.destroy topology (nb, [])).2 =
      detach ++ router_del ++ List.concat segments ∧
    Forall (λ o, ∃ switch router,
              switch ∈ TopologyView.switches topology ∧
              TopologyView.router topology = Some router ∧
              SwitchView.routed switch = true ∧
              (o = lrp_del (OvnBuilder.router_port_name switch router) ∨
               o = lsp_del (OvnBuilder.switch_port_name switch router))) detach ∧
    (router_del = [] ∨
     ∃ router, TopologyView.router topology = Some router ∧
               router_del = [lr_del (RouterView.full_name router)]) ∧
    Forall2 (λ switch segment,
               ∃ port_dels dhcp_del switch_del,
                 segment = port_dels ++ dhcp_del ++ switch_del ∧
                 Forall (λ o, ∃ port, port ∈ SwitchView.ports switch ∧
                                      o = lsp_del (PortView.full_name port)) port_dels ∧
                 (dhcp_del = [] ∨
                  SwitchView.dhcp_enable switch = true ∧
                  ∃ uuid, dhcp_del = [dhcp_options_del uuid]) ∧
                 (switch_del = [] ∨
                  switch_del = [ls_del (SwitchView.full_name switch)]))
            (TopologyView.switches topology) segments.
Proof.
  unfold OvnBuilder.destroy. cbv zeta.
  opose proof (foldl_ops (λ s switch, OvnBuilder.destroy_switch switch s)
              (λ switch segment,
                 ∃ port_dels dhcp_del switch_del,
                   segment = port_dels ++ dhcp_del ++ switch_del ∧
                   Forall (λ o, ∃ port, port ∈ SwitchView.ports switch ∧
                                        o = lsp_del (PortView.full_name port))
                          port_dels ∧
                   (dhcp_del = [] ∨
                    SwitchView.dhcp_enable switch = true ∧
                    ∃ uuid, dhcp_del = [dhcp_options_del uuid]) ∧
                   (switch_del = [] ∨
                    switch_del = [ls_del (SwitchView.full_name switch)]))
              (TopologyView.switches topology) _) as Hloop.
  { intros s switch _. apply destroy_switch_ops. }
  match goal with
  | |- context [foldl _ ?s2 (TopologyView.switches topology)] =>
      destruct (Hloop s2) as (opss3 & Hops3 & HQ3)
  end.
  destruct (delete_router_if_any_ops topology
              (OvnBuilder.destroy_attachments topology (nb, [])))
    as (ops2 & Hops2 & HQ2).
  destruct (destroy_attachments_ops topology (nb, [])) as (ops1 & Hops1 & HQ1).
  exists ops1, ops2, opss3. split; [|done].
  etrans; [exact Hops3|].
  transitivity ((ops1 ++ ops2) ++ List.concat opss3); [|by rewrite <- !app_assoc].
  f_equal. etrans; [exact Hops2|]. f_equal. exact Hops1.
Qed.
End reconciler.

(** ** Destroying what was never built *)

Section never_built.
Import schema ovn_builder examples.
Implicit Types (tr : list (list op)).

Lemma empty_has_no_row (n : string) :
  lr_get n examples.empty = false ∧ ls_get n examples.empty = false ∧
  lsp_get n examples.empty = false ∧ lrp_get n examples.empty = false.
Proof. repeat split; apply bool_decide_eq_false; simpl; apply not_elem_of_empty. Qed.

Lemma foldl_empty_txns {A : Type}
    (f : @OvnBuilder.state memory → A → @OvnBuilder.state memory) (l : list A) :
  (∀ x tr, ∃ k : nat, f (examples.empty, tr) x = (examples.empty, tr ++ replicate k [])) →
  ∀ tr, ∃ k : nat, foldl f (examples.empty, tr) l = (examples.empty, tr ++ replicate k []).
Proof.
  intros Hstep. induction l as [|x l IH]; intros tr; simpl.
  - exists 0%nat. simpl. by rewrite app_nil_r.
  - destruct (Hstep x tr) as [k ->]. destruct (IH (tr ++ replicate k [])) as [k' ->].
    exists (k + k')%nat. by rewrite <- app_assoc, replicate_add.
Qed.

Lemma destroy_attachments_empty (topology : TopologyView.t) tr :
  ∃ k : nat,
    OvnBuilder.destroy_attachments topology (examples.empty, tr) =
      (examples.empty, tr ++ replicate k []).
Proof.
  unfold OvnBuilder.destroy_attachments. apply foldl_empty_txns.
  intros switch tr'. destruct (SwitchView.routed switch);
    [destruct (TopologyView.router topology) as [router|]|].
  - exists 1%nat. unfold OvnBuilder._disconnect_switch_from_router. simpl.
    destruct (empty_has_no_row (OvnBuilder.router_port_name switch router))
      as (_ & _ & _ & Hrp).
    destruct (empty_has_no_row (OvnBuilder.switch_port_name switch router))
      as (_ & _ & Hsp & _).
    simpl in Hrp, Hsp. rewrite Hrp, Hsp. done.
  - exists 0%nat. simpl. by rewrite app_nil_r.
  - exists 0%nat. simpl. by rewrite app_nil_r.
Qed.

Lemma delete_router_empty (router : RouterView.t) tr :
  OvnBuilder._delete_logical_router router (examples.empty, tr) = (examples.empty, tr).
Proof.
  unfold OvnBuilder._delete_logical_router. simpl.
  destruct (empty_has_no_row (RouterView.full_name router)) as (Hlr & _).
  simpl in Hlr. by rewrite Hlr.
Qed.

Lemma destroy_switch_empty (switch : SwitchView.t) tr :
  ∃ k : nat,
    OvnBuilder.destroy_switch switch (examples.empty, tr) =
      (examples.empty, tr ++ replicate k []).
Proof.
  unfold OvnBuilder.destroy_switch. cbv zeta.
  destruct (foldl_empty_txns
              (λ s port, OvnBuilder._delete_logical_switch_port port s)
              (SwitchView.ports switch)) with tr as [k Hk].
  { intros port tr'. exists 0%nat. unfold OvnBuilder._delete_logical_switch_port.
    simpl. destruct (empty_has_no_row (PortView.full_name port)) as (_ & _ & Hsp & _).
    simpl in Hsp. rewrite Hsp. simpl. by rewrite app_nil_r. }
  exists k. rewrite Hk.
  assert ((if SwitchView.dhcp_enable switch
           then OvnBuilder._delete_dhcp_options switch
                  (examples.empty, tr ++ replicate k [])
           else (examples.empty, tr ++ replicate k [])) =
          (examples.empty, tr ++ replicate k [])) as ->.
  { by destruct (SwitchView.dhcp_enable switch). }
  unfold OvnBuilder._delete_logical_switch. simpl.
  destruct (empty_has_no_row (SwitchView.full_name switch)) as (_ & Hls & _).
  simpl in Hls. by rewrite Hls.
Qed.

(** On the in-memory database, [destroy] of any topology on a database that
    holds no row leaves it without a row and commits only empty
    transactions: no delete operation is issued. *)
Lemma destroy_never_built (topology : TopologyView.t) :
  ∃ k : nat,
    OvnBuilder.destroy topology (examples.empty, []) =
      (examples.empty, replicate k []).
Proof.
  unfold OvnBuilder.destroy. cbv zeta.
  destruct (destroy_attachments_empty topology []) as [k1 ->].
  assert (match TopologyView.router topology with
          | Some router =>
              OvnBuilder._delete_logical_router router
                (examples.empty, [] ++ replicate k1 [])
          | None => (examples.empty, [] ++ replicate k1 [])
          end = (examples.empty, replicate k1 [])) as ->.
  { destruct (TopologyView.router topology); [apply delete_router_empty|done]. }
  destruct (foldl_empty_txns (λ s switch, OvnBuilder.destroy_switch switch s)
              (TopologyView.switches topology)
              (λ switch tr, destroy_switch_empty switch tr) (replicate k1 []))
    as [k2 ->].
  exists (k1 + k2)%nat. by rewrite replicate_add.
Qed.
End never_built.

(** ** Worked examples *)

Section worked_examples.
Import schema topology ovn_builder examples.

(** C1.  The configuration of the topology unit test, whose VPC gives a
    default port count of 2 and whose switch [ls2] gives neither ports nor a
    count, is rejected: the switch is validated before the default can reach
    it. *)
Theorem test_topology_build_rejected :
  LabConfig.validate test_topology_build_config =
    Raise (Py.ValidationError ["Must specify either 'ports' or 'port_count'"]).
Proof. vm_compute. reflexivity. Qed.

(** Had validation let it through, the deriver would have used the default
    of the VPC. *)
Lemma deriver_uses_vpc_default :
  let lab :=
    {| LabConfig.vpc :=
         {| VPC.name := "vlab"; VPC.mac_prefix := "e1:cc:ff"; VPC.id := 1;
            VPC.port_count := Some 2 |};
       LabConfig.switches := [] |} in
  let ls2 :=
    {| Switch.name := "ls2"; Switch.id := 2; Switch.type := P2P;
       Switch.subnet := "192.168.2.0/31"; Switch.dhcp_enable := false;
       Switch.routed := false; Switch.port_count := None; Switch.ports := None |} in
  LogicalSwitchPort.mac <$>
    LogicalSwitch.ports
      (Topology._add_ports_to_switch (Topology.blank lab)
         (switch_shell "ls2" 2 "192.168.2.0/31" (ipaddress.mk_network 3232236032 31)
                       false false) ls2) =
  ["e1:cc:ff:01:02:01"; "e1:cc:ff:01:02:02"].
Proof. vm_compute. reflexivity. Qed.

(** Counterexample to C2: on a DHCP-enabled /30 the pool is both hosts of
    the subnet, the first host addresses included. *)
Lemma dhcp_slash30_pool :
  LogicalSwitch.dhcp_enable dhcp_slash30 = true ∧
  ipaddress.str_address <$> ipaddress.hosts (LogicalSwitch.subnet dhcp_slash30) =
    ["10.0.0.1"; "10.0.0.2"] ∧
  ipaddress.str_address <$> LogicalSwitch.usable_ips dhcp_slash30 =
    ["10.0.0.1"; "10.0.0.2"].
Proof. vm_compute. done. Qed.

Lemma usable_pool_and_port_count_witness :
  ipaddress.wf (LogicalSwitch.subnet port_limit_switch) ∧
  LogicalSwitch.ports port_limit_switch = [] ∧
  List.length
    (LogicalSwitch.ports
       (Topology._add_ports_to_switch (Topology.blank port_limit_lab)
          port_limit_switch
          (plain_validated "ls1" 1 "192.168.1.0/31" false 5))) = 2%nat.
Proof.
  assert (Hwf : ipaddress.wf (LogicalSwitch.subnet port_limit_switch)).
  { unfold ipaddress.wf. simpl. repeat split; lia || reflexivity. }
  split; [exact Hwf|]. split; [reflexivity|].
  destruct (usable_pool_and_port_count (Topology.blank port_limit_lab)
              port_limit_switch
              (plain_validated "ls1" 1 "192.168.1.0/31" false 5) 5 Hwf eq_refl eq_refl eq_refl)
    as (_ & _ & _ & _ & H5).
  apply H5; reflexivity.
Defined.

(** Counterexample to C4: a /32 has no address between its network and its
    broadcast address, yet its single address is a host, so that a routed
    switch on 10.0.0.1/32 has the gateway 10.0.0.1/32 and, once its MAC
    can be derived, its entry in the router. *)
Lemma routed_slash32_has_gateway :
  LogicalSwitch.routed slash32_switch = true ∧
  ipaddress.network_address (LogicalSwitch.subnet slash32_switch) =
    ipaddress.broadcast_address (LogicalSwitch.subnet slash32_switch) ∧
  ipaddress.str_address <$> ipaddress.hosts (LogicalSwitch.subnet slash32_switch) =
    ["10.0.0.1"] ∧
  LogicalSwitch.router_port_ip slash32_switch = Some "10.0.0.1/32" ∧
  match LogicalRouter.add_switch (LogicalRouter.__init__ "vlab") slash32_switch with
  | Ok router =>
      map_to_list (LogicalRouter.switch_ports router) =
        [("ls1", ("10.0.0.1/32", "e1:cc:ff:01:01:00"))]
  | Raise _ => False
  end ∧
  match main.derive slash32_config with
  | Ok topo =>
      (λ sw, (LogicalSwitch.router_port_ip sw,
              List.length (LogicalSwitch.ports sw)))
        <$> Py.dict_values (Topology.switches topo) =
      [(Some "10.0.0.1/32", 1%nat)]
  | Raise _ => False
  end.
Proof. vm_compute. done. Qed.

Lemma router_gateway_ip_witness :
  ipaddress.wf (LogicalSwitch.subnet slash31_switch) ∧
  ipaddress.wf (LogicalSwitch.subnet gateway_switch) ∧
  LogicalSwitch.router_port_ip slash31_switch = Some "10.0.0.0/31" ∧
  LogicalSwitch.router_port_ip gateway_switch = Some "192.168.1.1/24".
Proof.
  assert (Hwf31 : ipaddress.wf (LogicalSwitch.subnet slash31_switch)).
  { unfold ipaddress.wf. simpl. repeat split; lia || reflexivity. }
  assert (Hwf24 : ipaddress.wf (LogicalSwitch.subnet gateway_switch)).
  { unfold ipaddress.wf. simpl. repeat split; lia || reflexivity. }
  split; [exact Hwf31|]. split; [exact Hwf24|].
  destruct (router_gateway_ip slash31_switch Hwf31) as (_ & H31 & _).
  destruct (router_gateway_ip gateway_switch Hwf24) as (_ & H24 & _).
  rewrite (H31 eq_refl), (H24 eq_refl). split; reflexivity.
Defined.

(** Counterexample to C6: the 256th port of a /23 switch gets an index
    field of three hexadecimal digits. *)
Lemma port_256_mac :
  match main.derive many_ports_config with
  | Ok topo =>
      match Py.dict_get "ls1" (Topology.switches topo) with
      | Some sw =>
          (λ p, (LogicalSwitchPort.port_index p, LogicalSwitchPort.mac p,
                 Py.two_hex (Py.format_02x (LogicalSwitchPort.port_index p))))
            <$> LogicalSwitch.ports sw !! 255%nat =
          Some (256, "e1:cc:ff:01:01:100", false)
      | None => False
      end
  | Raise _ => False
  end.
Proof. vm_compute. reflexivity. Qed.

Lemma port_mac_and_index_witness :
  LogicalSwitch.ports port_limit_switch = [] ∧
  LogicalSwitch.ports
    (Topology._add_ports_to_switch (Topology.blank port_limit_lab)
       port_limit_switch (plain_validated "ls1" 1 "192.168.1.0/31" false 5))
    !! 1%nat =
    Some (Topology.auto_port (Topology.blank port_limit_lab) port_limit_switch 1) ∧
  LogicalSwitchPort.mac
    (Topology.auto_port (Topology.blank port_limit_lab) port_limit_switch 1) =
    "e1:cc:ff:01:01:02".
Proof.
  split; [reflexivity|]. split; [reflexivity|].
  destruct (port_mac_and_index (Topology.blank port_limit_lab) port_limit_switch
              (plain_validated "ls1" 1 "192.168.1.0/31" false 5) 1
              (Topology.auto_port (Topology.blank port_limit_lab) port_limit_switch 1)
              eq_refl eq_refl)
    as (_ & _ & _ & -> & _).
  reflexivity.
Defined.

(** Counterexample to C8: a VPC id of 256 and a switch id of 300 pass
    validation. *)
Lemma out_of_range_ids_accepted :
  match LabConfig.validate big_ids_config with
  | Ok cfg =>
      VPC.id (LabConfig.vpc cfg) = 256 ∧
      Switch.id <$> LabConfig.switches cfg = [300] ∧
      Py.format_02x 256 = "100" ∧ Py.format_02x 300 = "12c"
  | Raise _ => False
  end.
Proof. vm_compute. done. Qed.

Lemma validated_ids_witness :
  LabConfig.validate big_ids_config = Ok (validated big_ids_config) ∧
  Switch.id <$> LabConfig.switches (validated big_ids_config) = [300] ∧
  Py.is_ok (LabConfig.validate (with_vpc_id 7 big_ids_config)) = true.
Proof.
  assert (Hv : LabConfig.validate big_ids_config = Ok (validated big_ids_config))
    by (vm_compute; reflexivity).
  split; [exact Hv|]. split; [vm_compute; reflexivity|].
  destruct (validated_ids big_ids_config (validated big_ids_config) Hv)
    as (_ & Hvpc & _).
  exact (Hvpc 7).
Defined.

(** A routed descriptor need not give a router: the first of two
    descriptors named [ls1] is routed, yet the derived topology, which
    keeps only the second, has no router. *)
Lemma routed_descriptor_without_router :
  Switch.raw_routed <$> LabConfig.raw_switches same_name_config = [true; false] ∧
  match main.derive same_name_config with
  | Ok topo =>
      Topology.router topo = None ∧
      LogicalSwitch.id <$> Py.dict_values (Topology.switches topo) = [2]
  | Raise _ => False
  end.
Proof. vm_compute. done. Qed.

(** C7.  The specification whose only switch, [ls1] on 192.168.1.0/24, is
    routed and has DHCP is accepted by validation, yet no topology and so
    no router is derived from it: the deriver raises the [AttributeError]
    of [dhcp_server_mac], whose two attributes the constructor of the
    switch never assigns.  On the switch to which they are assigned by
    hand, as the unit tests of the topology do, the gateway address and
    MAC are resolved and the router registers [ls1] with them. *)
Theorem routed_dhcp_lab_has_no_router :
  LabConfig.validate dhcp_routed_config = Ok (validated dhcp_routed_config) ∧
  (λ c, (Switch.name c, Switch.routed c, Switch.dhcp_enable c))
    <$> LabConfig.switches (validated dhcp_routed_config) = [("ls1", true, true)] ∧
  main.derive dhcp_routed_config =
    Raise (Py.AttributeError
             "'LogicalSwitch' object has no attribute 'vpc_mac_prefix'") ∧
  LogicalSwitch.router_port_ip attributed_switch = Some "192.168.1.1/24" ∧
  LogicalSwitch.router_port_mac attributed_switch = Ok (Some "e1:cc:ff:01:01:00") ∧
  match LogicalRouter.add_switch (LogicalRouter.__init__ "vlab") attributed_switch with
  | Ok router =>
      map_to_list (LogicalRouter.switch_ports router) =
        [("ls1", ("192.168.1.1/24", "e1:cc:ff:01:01:00"))]
  | Raise _ => False
  end.
Proof. vm_compute. done. Qed.

Lemma router_presence_witness :
  Topology.__init__ routed_lab = Ok (derived routed_lab) ∧
  (Topology.router (derived routed_lab) = None ↔
     ∀ sw, sw ∈ Py.dict_values (Topology.switches (derived routed_lab)) →
           LogicalSwitch.routed sw = false).
Proof.
  assert (Hinit : Topology.__init__ routed_lab = Ok (derived routed_lab))
    by (vm_compute; reflexivity).
  split; [exact Hinit|].
  exact (proj1 (router_presence routed_lab (derived routed_lab) Hinit)).
Defined.

Lemma same_name_shadowed_witness :
  LabConfig.validate same_name_config = Ok (validated same_name_config) ∧
  LabConfig.switches (validated same_name_config) =
    [plain_validated "ls1" 1 "10.0.1.0/24" true 1;
     plain_validated "ls1" 2 "10.0.2.0/24" false 1] ∧
  ∃ topo, Topology.__init__ (validated same_name_config) = Ok topo.
Proof.
  assert (Hv : LabConfig.validate same_name_config = Ok (validated same_name_config))
    by (vm_compute; reflexivity).
  assert (Hl : LabConfig.switches (validated same_name_config) =
               [plain_validated "ls1" 1 "10.0.1.0/24" true 1;
                plain_validated "ls1" 2 "10.0.2.0/24" false 1])
    by (vm_compute; reflexivity).
  split; [exact Hv|]. split; [exact Hl|].
  destruct (same_name_shadowed same_name_config (validated same_name_config) 0 1
              (plain_validated "ls1" 1 "10.0.1.0/24" true 1)
              (plain_validated "ls1" 2 "10.0.2.0/24" false 1) Hv)
    as [Htotal _]; [by rewrite Hl..|lia|reflexivity|].
  apply Htotal. intros c Hc. rewrite Hl in Hc.
  apply elem_of_cons in Hc as [->|Hc]; [reflexivity|].
  apply list_elem_of_singleton in Hc as ->. reflexivity.
Defined.

(** Counterexample to C3: with the router-side interface present and the
    switch-side one absent, the attachment is not skipped: the switch-side
    interface is created. *)
Lemma half_attached_creates :
  lrp_get (OvnBuilder.router_port_name ls1 vlab_lr) half_attached = true ∧
  lsp_get (OvnBuilder.switch_port_name ls1 vlab_lr) half_attached = false ∧
  filter is_create
    (List.concat (OvnBuilder._connect_switch_to_router ls1 vlab_lr
                    (half_attached, [])).2.2) =
    [lsp_add "vlab-ls1" "vlab-ls1-vlab-lr" owned].
Proof. vm_compute. done. Qed.

Lemma attachment_by_existence_witness :
  SwitchView.router_port_ip ls1 = Some "192.168.1.1/24" ∧
  SwitchView.router_port_mac ls1 = Ok (Some "e1:cc:ff:01:01:00") ∧
  (OvnBuilder._connect_switch_to_router ls1 vlab_lr (examples.empty, [])).1 = Ok ().
Proof.
  split; [reflexivity|]. split; [reflexivity|].
  destruct (attachment_by_existence ls1 vlab_lr (examples.empty, [])
              "192.168.1.1/24" "e1:cc:ff:01:01:00") as [Hok _];
    [reflexivity|discriminate|reflexivity|discriminate|].
  exact Hok.
Defined.

(** C5.  On the topology of the builder's unit tests a second [build],
    run on the database that the first one left, creates the DHCP options
    again: the database then holds two option rows for the same subnet. *)
Theorem second_build_creates_dhcp_options :
  let first := OvnBuilder.build mock_topology (examples.empty, []) in
  let second := OvnBuilder.build mock_topology (first.2.1, []) in
  first.1 = Ok () ∧ second.1 = Ok () ∧
  filter is_create (List.concat second.2.2) =
    [dhcp_options_add "192.168.1.0/24"
       [("server_id", "192.168.1.1"); ("server_mac", "e1:cc:ff:01:01:00");
        ("router", "192.168.1.1"); ("dns_server", "8.8.8.8");
        ("lease_time", "3600")] owned] ∧
  dhcp_rows second.2.1 = [(1%nat, "192.168.1.0/24"); (2%nat, "192.168.1.0/24")].
Proof. vm_compute. done. Qed.

(** The rest of C5 holds: [destroy] on a database that holds nothing deletes
    nothing. *)
Lemma destroy_mock_never_built :
  filter is_delete
    (List.concat (OvnBuilder.destroy mock_topology (examples.empty, [])).2) = [].
Proof. vm_compute. reflexivity. Qed.
End worked_examples.

(** ** What validation accepts *)

Section mac_prefixes.
Import schema notions.

Lemma lower_char_colon (c : ascii) :
  Ascii.eqb (Py.lower_char c) ":" = Ascii.eqb c ":".
Proof. destruct c as [[] [] [] [] [] [] [] []]; reflexivity. Qed.

Lemma allowed_char (c : ascii) :
  existsb (Ascii.eqb c) (list_ascii_of_string "0123456789abcdef:") =
    is_hex_lower c || Ascii.eqb c ":".
Proof. destruct c as [[] [] [] [] [] [] [] []]; reflexivity. Qed.

Lemma hex_not_colon (c : ascii) : is_hex_lower c = true → Ascii.eqb c ":" = false.
Proof. destruct c as [[] [] [] [] [] [] [] []]; vm_compute; congruence. Qed.

Lemma length_app_string (a b : string) :
  String.length (a +:+ b) = (String.length a + String.length b)%nat.
Proof.
  induction a as [|c a IH]; [reflexivity|].
  change (S (String.length (a +:+ b)) = S (String.length a + String.length b)).
  by rewrite IH.
Qed.

Lemma split_go_length (sep : ascii) (s cur : string) :
  (sum_list (String.length <$> Py.split_go sep s cur) +
     List.length (Py.split_go sep s cur) =
   String.length s + String.length cur + 1)%nat.
Proof.
  revert cur. induction s as [|c s IH]; intros cur; simpl; [lia|].
  destruct (Ascii.eqb c sep); simpl.
  - specialize (IH EmptyString). unfold fmap in *. simpl in IH. lia.
  - rewrite IH, length_app_string. simpl. lia.
Qed.

Lemma lower_length (s : string) : String.length (Py.lower s) = String.length s.
Proof. induction s as [|c s IH]; simpl; congruence. Qed.

Lemma shape_length (s : string) : mac_prefix_shape s = true → String.length s = 8%nat.
Proof.
  do 9 (destruct s as [|? s]; try done).
Qed.

Lemma checks_length (v : string) :
  List.length (Py.split ":" v) = 3%nat →
  forallb (λ part, (String.length part =? 2)%nat) (Py.split ":" v) = true →
  String.length v = 8%nat.
Proof.
  intros Hl Hf. pose proof (split_go_length ":" v EmptyString) as Hs.
  fold (Py.split ":" v) in Hs. rewrite Hl in Hs.
  destruct (Py.split ":" v) as [|a [|b [|c [|]]]]; try done.
  simpl in Hf, Hs. 
  repeat (apply andb_prop in Hf as [?%Nat.eqb_eq Hf]). lia.
Qed.


Lemma string_length_8 (v : string) :
  String.length v = 8%nat →
  ∃ c1 c2 c3 c4 c5 c6 c7 c8,
    v = String c1 (String c2 (String c3 (String c4 (String c5 (String c6
          (String c7 (String c8 EmptyString))))))).
Proof.
  intros Hl. do 8 (destruct v as [|? v]; [done|]). destruct v; [|done].
  by repeat eexists.
Qed.

Lemma validate_mac_prefix_Ok (v m : string) :
  VPC.validate_mac_prefix v = Ok m ↔
  m = Py.lower v ∧
  Py.all_in "0123456789abcdef:" (Py.lower v) = true ∧
  List.length (Py.split ":" v) = 3%nat ∧
  forallb (λ part, (String.length part =? 2)%nat) (Py.split ":" v) = true.
Proof.
  unfold VPC.validate_mac_prefix.
  destruct (Py.all_in _ _); simpl; [|by split; [|intros (_ & ? & _)]].
  destruct (Nat.eqb_spec (List.length (Py.split ":" v)) 3); simpl;
    [|by split; [|intros (_ & _ & ? & _)]].
  destruct (forallb _ _); simpl; [|by split; [|intros (_ & _ & _ & ?)]].
  split; [by intros [= <-]|by intros (-> & _)].
Qed.

Lemma mac_prefix_checks_shape (v : string) :
  Py.all_in "0123456789abcdef:" (Py.lower v) = true →
  List.length (Py.split ":" v) = 3%nat →
  forallb (λ part, (String.length part =? 2)%nat) (Py.split ":" v) = true →
  mac_prefix_shape (Py.lower v) = true.
Proof.
  intros Ha Hl Hf.
  destruct (string_length_8 v (checks_length v Hl Hf))
    as (c1 & c2 & c3 & c4 & c5 & c6 & c7 & c8 & ->).
  unfold Py.split in Hl, Hf. cbn [Py.lower Py.all_in mac_prefix_shape] in *.
  rewrite !allowed_char, !lower_char_colon in Ha. rewrite !lower_char_colon.
  cbn [Py.split_go] in Hl, Hf. cbv [append] in Hl, Hf.
  destruct (Ascii.eqb c1 ":"); [done|].
  destruct (Ascii.eqb c2 ":"); [done|].
  destruct (Ascii.eqb c3 ":"); cycle 1.
  { by destruct (Ascii.eqb c4 ":"), (Ascii.eqb c5 ":"), (Ascii.eqb c6 ":"),
      (Ascii.eqb c7 ":"), (Ascii.eqb c8 ":"). }
  destruct (Ascii.eqb c4 ":"); [done|].
  destruct (Ascii.eqb c5 ":"); [done|].
  destruct (Ascii.eqb c6 ":"); cycle 1.
  { by destruct (Ascii.eqb c7 ":"), (Ascii.eqb c8 ":"). }
  destruct (Ascii.eqb c7 ":"); [done|].
  destruct (Ascii.eqb c8 ":"); [done|].
  rewrite ?orb_true_r, ?orb_false_r in Ha.
  by destruct (is_hex_lower (Py.lower_char c1)), (is_hex_lower (Py.lower_char c2)),
    (is_hex_lower (Py.lower_char c4)), (is_hex_lower (Py.lower_char c5)),
    (is_hex_lower (Py.lower_char c7)), (is_hex_lower (Py.lower_char c8)).
Qed.

Lemma mac_prefix_shape_checks (v : string) :
  mac_prefix_shape (Py.lower v) = true →
  Py.all_in "0123456789abcdef:" (Py.lower v) = true ∧
  List.length (Py.split ":" v) = 3%nat ∧
  forallb (λ part, (String.length part =? 2)%nat) (Py.split ":" v) = true.
Proof.
  intros Hs. pose proof (shape_length _ Hs) as Hl. rewrite lower_length in Hl.
  destruct (string_length_8 v Hl) as (c1 & c2 & c3 & c4 & c5 & c6 & c7 & c8 & ->).
  unfold Py.split. cbn [Py.lower Py.all_in mac_prefix_shape] in *.
  rewrite !allowed_char, !lower_char_colon. rewrite !lower_char_colon in Hs.
  repeat (apply andb_prop in Hs as [Hs ?]).
  repeat match goal with
         | H : is_hex_lower (Py.lower_char ?c) = true |- _ =>
             let Hc := fresh in
             pose proof (hex_not_colon _ H) as Hc; rewrite lower_char_colon in Hc;
             rewrite H; clear H
         end.
  cbn [Py.split_go].
  repeat match goal with H : Ascii.eqb _ _ = _ |- _ => rewrite H; clear H end.
  rewrite ?orb_true_r. cbv [append]. done.
Qed.

(** X1.  A MAC prefix is accepted exactly when, once lower-cased, it consists
    of three groups of two hexadecimal digits separated by colons; the value
    kept is the lower-cased text. *)
Theorem mac_prefix_accepted (v m : string) :
  VPC.validate_mac_prefix v = Ok m ↔
  m = Py.lower v ∧ mac_prefix_shape (Py.lower v) = true.
Proof.
  rewrite validate_mac_prefix_Ok. split.
  - intros (-> & Ha & Hl & Hf). split; [done|]. by apply mac_prefix_checks_shape.
  - intros [-> Hs]. split; [done|]. by apply mac_prefix_shape_checks.
Qed.
End mac_prefixes.

Section schema_rules.
Import schema pydantic.
Context `{ipaddress.Parser}.

(** X2.  A port is rejected exactly when its addressing is static and the
    [ip] key is present with a null or empty value; a static port whose
    [ip] key is absent is accepted, since the validator of a field does not
    run for an absent key.  An accepted port keeps its fields. *)
Theorem port_validation (r : Port.raw) :
  let rejected :=
    bool_decide (Port.raw_addressing r = STATIC) &&
    match Port.raw_ip r with
    | Missing => false
    | Null => true
    | Given s => String.eqb s EmptyString
    end in
  Port.validate r =
    if rejected
    then Raise (Py.ValidationError
                  ["IP address must be provided when addressing mode is 'static'"])
    else Ok {| Port.name := Port.raw_name r;
               Port.addressing := Port.raw_addressing r;
               Port.ip := match Port.raw_ip r with
                          | Given s => Some s
                          | _ => None
                          end |}.
Proof.
  unfold Port.validate, Port.validate_ip_if_static, Py.get.
  rewrite lookup_insert_eq. 
  destruct r as [n [] [| |s]]; simpl; try done.
  by destruct (String.eqb s EmptyString).
Qed.

Lemma validate_list_is_ok {A B : Type} (f : A → res B) (l : list A) :
  Py.is_ok (validate_list f l) = forallb (λ x, Py.is_ok (f x)) l.
Proof.
  induction l as [|x l IH]; [done|]. simpl. rewrite <- IH.
  by destruct (f x), (validate_list f l).
Qed.

(** X3.  A switch is accepted exactly when its subnet parses and it gives
    either a list of ports that are all valid, or a port count, and not
    both. *)
Theorem switch_validation (r : Switch.raw) :
  Py.is_ok (Switch.validate r) =
    bool_decide (is_Some (ipaddress.parse (Switch.raw_subnet r))) &&
    match Switch.raw_ports r, Switch.raw_port_count r with
    | Some ports, None => forallb (λ p, Py.is_ok (Port.validate p)) ports
    | None, Some _ => true
    | _, _ => false
    end.
Proof.
  unfold Switch.validate.
  set (s := Switch.validate_subnet (Switch.raw_subnet r)).
  set (p := match Switch.raw_ports r with
            | Some l => Py.bind (validate_list Port.validate l) (λ ps, Ok (Some ps))
            | None => Ok None
            end).
  pose proof (validate_ports_or_count_ok r s p) as Hroot.
  set (root := Switch.validate_ports_or_count (Switch.values_of r s p)) in *.
  assert (Py.is_ok s = bool_decide (is_Some (ipaddress.parse (Switch.raw_subnet r))))
    as Hs.
  { unfold s, Switch.validate_subnet.
    destruct (ipaddress.parse (Switch.raw_subnet r)) as [n|]; cbn [Py.is_ok].
    - by rewrite bool_decide_true.
    - rewrite bool_decide_false; [done|]. by intros [? ?]. }
  rewrite <- Hs.
  transitivity (Py.is_ok s && Py.is_ok p && Py.is_ok root);
    [by destruct s, p, root|].
  rewrite Hroot, <- andb_assoc. f_equal. unfold p. clear.
  destruct (Switch.raw_ports r) as [l|], (Switch.raw_port_count r); simpl;
    try done; rewrite <- ?validate_list_is_ok;
    by destruct (validate_list Port.validate l).
Qed.

Lemma port_validate_Ok (r : Port.raw) (p : Port.t) :
  Port.validate r = Ok p →
  Port.name p = Port.raw_name r ∧
  Port.addressing p = Port.raw_addressing r ∧
  Port.ip p = match Port.raw_ip r with Given s => Some s | _ => None end.
Proof.
  unfold Port.validate.
  destruct (Port.raw_ip r) as [| |s]; simpl.
  - by intros [= <-].
  - destruct (Port.validate_ip_if_static None _) as [v|] eqn:Hv; [|done].
    intros [= <-]. unfold Port.validate_ip_if_static in Hv.
    destruct (_ && _); [done|]. by injection Hv as <-.
  - destruct (Port.validate_ip_if_static (Some s) _) as [v|] eqn:Hv; [|done].
    intros [= <-]. unfold Port.validate_ip_if_static in Hv.
    destruct (_ && _); [done|]. by injection Hv as <-.
Qed.

Lemma switch_validate_Ok (r : Switch.raw) (c : Switch.t) :
  Switch.validate r = Ok c →
  Switch.name c = Switch.raw_name r ∧
  Switch.id c = Switch.raw_id r ∧
  Switch.type c = Switch.raw_type r ∧
  Switch.subnet c = Switch.raw_subnet r ∧
  Switch.dhcp_enable c = Switch.raw_dhcp_enable r ∧
  Switch.routed c = Switch.raw_routed r ∧
  Switch.port_count c = Switch.raw_port_count r ∧
  match Switch.raw_ports r with
  | None => Switch.ports c = None
  | Some l => validate_list Port.validate l = Ok (default [] (Switch.ports c)) ∧
              is_Some (Switch.ports c)
  end.
Proof.
  unfold Switch.validate.
  destruct (Switch.validate_subnet (Switch.raw_subnet r)) as [sv|] eqn:Hs; [|done].
  assert (sv = Switch.raw_subnet r) as ->.
  { unfold Switch.validate_subnet in Hs.
    destruct (ipaddress.parse (Switch.raw_subnet r)); [|done]. by injection Hs. }
  destruct (Switch.raw_ports r) as [l|].
  - destruct (validate_list Port.validate l) as [ps|]; [|done].
    cbn [Py.bind]. destruct (Switch.validate_ports_or_count _); [|done].
    intros [= <-]. simpl. eauto 10.
  - destruct (Switch.validate_ports_or_count _); [|done].
    by intros [= <-].
Qed.

Lemma validated_switch_ids (l : list Switch.raw) (cs : list Switch.t) :
  validate_list Switch.validate l = Ok cs →
  Switch.id <$> cs = Switch.raw_id <$> l.
Proof.
  intros Hl. apply validate_list_Ok in Hl.
  induction Hl as [|r c l cs Hrc _ IH]; [done|].
  rewrite !fmap_cons, IH. f_equal. by apply switch_validate_Ok in Hrc as (_ & ? & _).
Qed.

(** X4.  A lab is accepted exactly when the MAC prefix of its VPC is
    accepted, every switch is accepted, the switch ids are pairwise
    distinct, and the VPC gives no default port count or there is no
    switch. *)
Theorem lab_validation (raw : LabConfig.raw) :
  Py.is_ok (LabConfig.validate raw) =
    Py.is_ok (VPC.validate_mac_prefix (VPC.mac_prefix (LabConfig.raw_vpc raw))) &&
    forallb (λ r, Py.is_ok (Switch.validate r)) (LabConfig.raw_switches raw) &&
    bool_decide (NoDup (Switch.raw_id <$> LabConfig.raw_switches raw)) &&
    (bool_decide (VPC.port_count (LabConfig.raw_vpc raw) = None) ||
     bool_decide (LabConfig.raw_switches raw = [])).
Proof.
  unfold LabConfig.validate. rewrite <- validate_list_is_ok.
  destruct (validate_list Switch.validate (LabConfig.raw_switches raw))
    as [sws|] eqn:Hs; cycle 1.
  { cbn [Py.bind Py.is_ok]. rewrite andb_false_r. simpl.
    by destruct (VPC.validate (LabConfig.raw_vpc raw)). }
  pose proof (validated_switch_ids _ _ Hs) as Hids.
  pose proof (Forall2_length _ _ _ (validate_list_Ok _ _ _ Hs)) as Hlen.
  cbn [Py.bind Py.is_ok]. rewrite andb_true_r, <- Hids.
  destruct (LabConfig.validate_switch_ids sws) as [sws'|] eqn:Hv.
  - apply validate_switch_ids_Ok in Hv as [-> Hnd].
    rewrite (bool_decide_true _ Hnd), andb_true_r.
    unfold VPC.validate.
    destruct (VPC.validate_mac_prefix _) as [m|]; [|done].
    cbn [Py.to_option Py.is_ok andb]. 
    destruct (LabConfig.raw_switches raw) as [|r rs], sws as [|c cs]; try done.
    { simpl. by rewrite orb_true_r. }
    rewrite (bool_decide_false (_ = [])), orb_false_r by done.
    simpl. destruct (VPC.port_count (LabConfig.raw_vpc raw)) as [n|].
    + repeat case_bool_decide; done.
    + repeat case_bool_decide; try done. cbn [mbind res_bind Py.bind].
      assert (LabConfig.inject_loop
                {| VPC.name := VPC.name (LabConfig.raw_vpc raw); VPC.mac_prefix := m;
                   VPC.id := VPC.id (LabConfig.raw_vpc raw); VPC.port_count := None |}
                cs = Ok ()) as ->; [|done].
      clear. induction cs as [|c cs IH]; done.
  - rewrite bool_decide_false, andb_false_r.
    + simpl. by destruct (VPC.validate (LabConfig.raw_vpc raw)).
    + intros Hnd. assert (LabConfig.validate_switch_ids sws = Ok sws) as Hok
        by by apply validate_switch_ids_Ok.
      congruence.
Qed.

(** X5.  Validation keeps the content of what it accepts: the VPC with its
    MAC prefix lower-cased, the switches in their order with their fields,
    and their ports in their order, an absent or null [ip] becoming
    [None]. *)
Theorem validation_keeps_content (raw : LabConfig.raw) (cfg : LabConfig.t) :
  LabConfig.validate raw = Ok cfg →
  VPC.name (LabConfig.vpc cfg) = VPC.name (LabConfig.raw_vpc raw) ∧
  VPC.id (LabConfig.vpc cfg) = VPC.id (LabConfig.raw_vpc raw) ∧
  VPC.port_count (LabConfig.vpc cfg) = VPC.port_count (LabConfig.raw_vpc raw) ∧
  VPC.mac_prefix (LabConfig.vpc cfg) =
    Py.lower (VPC.mac_prefix (LabConfig.raw_vpc raw)) ∧
  Forall2
    (λ r c,
       Switch.name c = Switch.raw_name r ∧
       Switch.id c = Switch.raw_id r ∧
       Switch.type c = Switch.raw_type r ∧
       Switch.subnet c = Switch.raw_subnet r ∧
       Switch.dhcp_enable c = Switch.raw_dhcp_enable r ∧
       Switch.routed c = Switch.raw_routed r ∧
       Switch.port_count c = Switch.raw_port_count r ∧
       match Switch.raw_ports r with
       | None => Switch.ports c = None
       | Some l =>
           ∃ ps, Switch.ports c = Some ps ∧
                 Forall2 (λ pr p,
                            Port.name p = Port.raw_name pr ∧
                            Port.addressing p = Port.raw_addressing pr ∧
                            Port.ip p = match Port.raw_ip pr with
                                        | Given s => Some s
                                        | _ => None
                                        end) l ps
       end)
    (LabConfig.raw_switches raw) (LabConfig.switches cfg).
Proof.
  intros Hv. destruct (validate_Ok raw cfg Hv) as (Hvpc & Hsws & _ & _).
  unfold VPC.validate in Hvpc.
  destruct (VPC.validate_mac_prefix _) as [m|] eqn:Hm; [|done].
  injection Hvpc as <-. simpl.
  unfold VPC.validate_mac_prefix in Hm.
  repeat (destruct (negb _); [done|]). injection Hm as <-.
  repeat split; try done.
  apply validate_list_Ok in Hsws.
  eapply Forall2_impl; [exact Hsws|]. intros r c Hrc. simpl in Hrc.
  apply switch_validate_Ok in Hrc as (? & ? & ? & ? & ? & ? & ? & Hp).
  repeat match goal with |- _ ∧ _ => split; [done|] end.
  destruct (Switch.raw_ports r) as [l|]; [|done].
  destruct Hp as [Hl [ps Hps]]. exists ps. split; [done|].
  rewrite Hps in Hl. simpl in Hl. apply validate_list_Ok in Hl.
  eapply Forall2_impl; [exact Hl|]. intros pr p. apply port_validate_Ok.
Qed.
End schema_rules.

(** ** Reading back the format [:02x] *)

Section formats.
Import notions.

Lemma hex_value_digit (d : Z) : 0 ≤ d < 16 → hex_value (Py.hex_digit d) = d.
Proof.
  intros Hd.
  assert (d = 0 ∨ d = 1 ∨ d = 2 ∨ d = 3 ∨ d = 4 ∨ d = 5 ∨ d = 6 ∨ d = 7 ∨ d = 8 ∨
          d = 9 ∨ d = 10 ∨ d = 11 ∨ d = 12 ∨ d = 13 ∨ d = 14 ∨ d = 15) as Hc by lia.
  repeat destruct Hc as [->|Hc]; try reflexivity. by subst.
Qed.

Lemma hex_digit_allowed (d : Z) :
  existsb (Ascii.eqb (Py.hex_digit d)) (list_ascii_of_string "0123456789abcdef") = true.
Proof.
  destruct d as [|p|p]; try reflexivity.
  do 4 (destruct p as [p|p|]; try reflexivity).
Qed.

Lemma decode_hex_go (fuel : nat) (n : Z) (acc : string) :
  0 ≤ n < 16 ^ (Z.of_nat fuel + 1) →
  decode_hex (Py.hex_go fuel n acc) 0 = decode_hex acc n.
Proof.
  revert n acc. induction fuel as [|fuel IH]; intros n acc Hn.
  - simpl in *. rewrite hex_value_digit by (apply Z.mod_pos_bound; lia).
    rewrite Z.mod_small by lia. done.
  - cbn [Py.hex_go].
    assert (16 * (n / 16) + n mod 16 = n) as Hdiv
      by (pose proof (Z.div_mod n 16); lia).
    destruct (Z.eqb_spec (n / 16) 0) as [H0|H0].
    + simpl. rewrite hex_value_digit by (apply Z.mod_pos_bound; lia).
      f_equal. lia.
    + rewrite IH.
      * simpl. rewrite hex_value_digit by (apply Z.mod_pos_bound; lia).
        by rewrite Hdiv.
      * split; [apply Z.div_pos; lia|]. apply Z.div_lt_upper_bound; [lia|].
        replace (Z.of_nat (S fuel) + 1) with (Z.succ (Z.of_nat fuel + 1)) in Hn by lia.
        rewrite Z.pow_succ_r in Hn by lia. lia.
Qed.

Lemma decode_hex_hex (n : Z) : 0 ≤ n → decode_hex (Py.hex n) 0 = n.
Proof.
  intros Hn. unfold Py.hex. rewrite decode_hex_go; [done|].
  split; [done|].
  destruct (decide (n = 0)) as [->|Hne]; [done|].
  rewrite Z2Nat.id by apply Z.log2_nonneg.
  pose proof (Z.log2_spec n) as [_ Hlt]; [lia|].
  eapply Z.lt_le_trans; [exact Hlt|].
  replace (Z.succ (Z.log2 n)) with (Z.log2 n + 1) by lia.
  apply Z.pow_le_mono_l. lia.
Qed.

Lemma hex_go_head (fuel : nat) (n : Z) (acc : string) :
  ∃ d rest, Py.hex_go fuel n acc = String (Py.hex_digit d) rest.
Proof.
  revert n acc. induction fuel as [|fuel IH]; intros n acc; simpl; [eauto|].
  destruct (n / 16 =? 0); eauto.
Qed.

Lemma hex_digit_not_dash (d : Z) : Py.hex_digit d ≠ "-"%char.
Proof.
  intros Hd. pose proof (hex_digit_allowed d) as Ha. rewrite Hd in Ha. done.
Qed.

(** Reading back what the format [:02x] writes. *)
Lemma parse_format_02x (n : Z) : parse_02x (Py.format_02x n) = n.
Proof.
  unfold Py.format_02x. destruct (Z.ltb_spec n 0) as [Hneg|Hpos].
  - change ("-" +:+ Py.hex (- n)) with (String "-" (Py.hex (- n))).
    cbn [parse_02x]. rewrite decode_hex_hex by lia. lia.
  - pose proof (decode_hex_hex n Hpos) as Hdec.
    destruct (hex_go_head (Z.to_nat (Z.log2 n)) n EmptyString) as (d & rest & Hh).
    fold (Py.hex n) in Hh.
    destruct (String.length (Py.hex n) <? 2)%nat.
    + change ("0" +:+ Py.hex n) with (String "0" (Py.hex n)).
      cbn [parse_02x]. simpl. done.
    + rewrite Hh in *. unfold parse_02x.
      pose proof (hex_digit_not_dash d) as Hnd.
      destruct (Py.hex_digit d) as [[] [] [] [] [] [] [] []]; done.
Qed.

Lemma hex_go_allowed (fuel : nat) (n : Z) (acc : string) :
  Py.all_in "0123456789abcdef" acc = true →
  Py.all_in "0123456789abcdef" (Py.hex_go fuel n acc) = true.
Proof.
  revert n acc. induction fuel as [|fuel IH]; intros n acc Hacc.
  - cbn [Py.hex_go Py.all_in]. by rewrite hex_digit_allowed.
  - cbn [Py.hex_go]. destruct (n / 16 =? 0).
    + cbn [Py.all_in]. by rewrite hex_digit_allowed.
    + apply IH. cbn [Py.all_in]. by rewrite hex_digit_allowed.
Qed.

Lemma all_in_weaken (s : string) :
  Py.all_in "0123456789abcdef" s = true → Py.all_in "-0123456789abcdef" s = true.
Proof.
  induction s as [|c s IH]; [done|]. cbn [Py.all_in].
  intros [Hc Hs]%andb_prop. rewrite IH by done.
  change (list_ascii_of_string "-0123456789abcdef")
    with ("-"%char :: list_ascii_of_string "0123456789abcdef").
  cbn [existsb]. by rewrite Hc, orb_true_r.
Qed.

(** The format [:02x] writes hexadecimal digits and the sign only. *)
Lemma format_02x_allowed (n : Z) :
  Py.all_in "-0123456789abcdef" (Py.format_02x n) = true.
Proof.
  unfold Py.format_02x. destruct (n <? 0).
  - change ("-" +:+ Py.hex (- n)) with (String "-" (Py.hex (- n))).
    cbn [Py.all_in]. rewrite all_in_weaken; [done|]. by apply hex_go_allowed.
  - assert (Py.all_in "0123456789abcdef" (Py.hex n) = true) as Hh
      by by apply hex_go_allowed.
    destruct (String.length (Py.hex n) <? 2)%nat; [|by apply all_in_weaken].
    change ("0" +:+ Py.hex n) with (String "0" (Py.hex n)).
    apply all_in_weaken. cbn [Py.all_in]. by rewrite Hh.
Qed.

(** Two fields separated by a colon can be told apart. *)
Lemma colon_separated_inj (a a' b b' : string) :
  Py.all_in "-0123456789abcdef" a = true →
  Py.all_in "-0123456789abcdef" a' = true →
  a +:+ ":" +:+ b = a' +:+ ":" +:+ b' → a = a' ∧ b = b'.
Proof.
  revert a'. induction a as [|c a IH]; intros [|c' a'] Ha Ha' Heq.
  - by injection Heq.
  - exfalso. injection Heq as <- _. done.
  - exfalso. injection Heq as -> _. done.
  - injection Heq as -> Heq. cbn [Py.all_in] in Ha, Ha'.
    apply andb_prop in Ha as [_ Ha]. apply andb_prop in Ha' as [_ Ha'].
    destruct (IH a' Ha Ha' Heq) as [-> ->]. done.
Qed.
End formats.

(** ** More on the derivation *)

Section deriver.
Import schema topology ovn_builder notions.
Context `{ipaddress.Parser}.

Lemma create_switch_shape (self : Topology.t) (c : Switch.t) (sw : LogicalSwitch.t) :
  Topology.create_switch self c = Ok sw →
  ∃ net,
    ipaddress.parse (Switch.subnet c) = Some net ∧
    sw = Topology._add_ports_to_switch self (shell self c net) c.
Proof.
  unfold Topology.create_switch, LogicalSwitch.__init__.
  destruct (ipaddress.parse (Switch.subnet c)) as [net|]; [|done].
  cbn [mbind res_bind Py.bind]. fold (shell self c net).
  destruct (add_ports_shape self (shell self c net) c) as [ps Hps].
  rewrite Hps.
  cbn [LogicalSwitch.dhcp_enable shell].
  destruct (Switch.dhcp_enable c) eqn:Hd.
  - unfold Topology._setup_dhcp_options. simpl.
    destruct (ipaddress.hosts net); [|done].
    intros [= <-]. exists net. split; [done|]. rewrite Hps. simpl. by rewrite Hd.
  - intros [= <-]. exists net. split; [done|]. rewrite Hps. simpl. by rewrite Hd.
Qed.

Lemma create_switches_raise (e : Py.exn) (l : list Switch.t) (self : Topology.t)
    (c : Switch.t) :
  c ∈ l →
  Topology.create_switch self c = Raise e →
  (∀ c', c' ∈ l → Py.is_ok (Topology.create_switch self c') = true ∨
                   Topology.create_switch self c' = Raise e) →
  Topology.create_switches self l = Raise e.
Proof.
  intros Hin Hc. revert self Hc.
  induction l as [|a l IH]; intros self Hc Hall; [by apply elem_of_nil in Hin|].
  cbn [Topology.create_switches mbind res_bind Py.bind].
  destruct (Topology.create_switch self a) as [sw|e'] eqn:Ha.
  - simpl. apply elem_of_cons in Hin as [->|Hin]; [congruence|].
    apply IH; [done|by rewrite create_switch_frame|].
    intros c' Hc'. rewrite create_switch_frame. apply Hall. by right.
  - simpl. destruct (Hall a) as [Hok|He]; [left|by rewrite Ha in Hok|congruence].
Qed.

(** X6.  A valid lab with a DHCP-enabled switch whose subnet has a host is
    never derived: the deriver raises the [AttributeError] of
    [dhcp_server_mac], and the [build] and [destroy] commands raise it
    without committing anything. *)
Theorem dhcp_lab_is_not_built {NB : Type} `{Northbound NB}
    `{Py.Platform} `{Ovsdbapp}
    (raw : LabConfig.raw) (cfg : LabConfig.t) (c : Switch.t)
    (net : ipaddress.IPv4Network) (socket_dir : option string)
    (s : @OvnBuilder.state NB) :
  LabConfig.validate raw = Ok cfg →
  c ∈ LabConfig.switches cfg →
  Switch.dhcp_enable c = true →
  ipaddress.parse (Switch.subnet c) = Some net →
  ipaddress.hosts net ≠ [] →
  let e := Py.AttributeError
             "'LogicalSwitch' object has no attribute 'vpc_mac_prefix'" in
  Topology.__init__ cfg = Raise e ∧
  main.build raw socket_dir s = (Raise e, s) ∧
  main.destroy raw socket_dir s = (Raise e, s).
Proof.
  intros Hv Hin Hd Hp Hh e.
  assert (Topology.__init__ cfg = Raise e) as Hinit.
  { unfold Topology.__init__, Topology._build_topology.
    change (Topology.config (Topology.blank cfg)) with cfg.
    rewrite (create_switches_raise e (LabConfig.switches cfg) (Topology.blank cfg) c);
      [done|done|by eapply create_switch_dhcp|].
    intros c' Hc'.
    destruct (validated_subnets raw cfg c' Hv Hc') as [net' Hp'].
    destruct (Switch.dhcp_enable c') eqn:Hd'.
    - destruct (ipaddress.hosts net') as [|h hs] eqn:Hh'.
      + left. unfold Topology.create_switch, LogicalSwitch.__init__.
        rewrite Hp'. cbn [mbind res_bind Py.bind].
        fold (shell (Topology.blank cfg) c' net').
        destruct (add_ports_shape (Topology.blank cfg)
                    (shell (Topology.blank cfg) c' net') c') as [ps ->].
        simpl. rewrite Hd'. unfold Topology._setup_dhcp_options. simpl.
        by rewrite Hh'.
      + right. eapply create_switch_dhcp; [done..|]. by rewrite Hh'.
    - left. destruct (create_switch_total (Topology.blank cfg) c' Hd') as [sw ->];
        [by exists net'|done]. }
  split; [done|].
  unfold main.build, main.destroy, main.derive. rewrite Hv.
  cbn [mbind res_bind Py.bind]. by rewrite Hinit.
Qed.

Lemma dict_set_fresh {V : Type} (d : list (string * V)) (k : string) (v : V) :
  k ∉ d.*1 → Py.dict_set k v d = d ++ [(k, v)].
Proof.
  induction d as [|[k' v'] d IH]; intros Hk; [done|]. simpl in *.
  apply not_elem_of_cons in Hk as [Hne Hk].
  destruct (String.eqb_spec k' k); [done|]. by rewrite IH.
Qed.

Lemma create_switches_distinct (l : list Switch.t) (self self' : Topology.t) :
  Topology.create_switches self l = Ok self' →
  NoDup (Switch.name <$> l) →
  (∀ c, c ∈ l → Switch.name c ∉ (Topology.switches self).*1) →
  ∃ sws,
    Topology.switches self' = Topology.switches self ++ sws ∧
    Forall2 (λ c kv, kv.1 = Switch.name c ∧ Topology.create_switch self c = Ok kv.2)
            l sws.
Proof.
  revert self. induction l as [|c l IH]; intros self Hl Hnd Hfresh.
  - injection Hl as <-. exists []. by rewrite app_nil_r.
  - cbn [Topology.create_switches mbind res_bind Py.bind] in Hl.
    destruct (Topology.create_switch self c) as [sw|] eqn:Hc; [|done].
    simpl in Hl. rewrite fmap_cons in Hnd. apply NoDup_cons in Hnd as [Hc_l Hnd].
    pose proof (create_switch_Ok self c sw Hc) as (Hname & _).
    rewrite dict_set_fresh in Hl by (rewrite Hname; apply Hfresh; left).
    destruct (IH _ Hl Hnd) as (sws & Hsws & Hall).
    { intros c' Hc'. simpl. rewrite fmap_app, elem_of_app. intros [Hin|Hin].
      - by apply (Hfresh c'); [right|].
      - simpl in Hin. apply list_elem_of_singleton in Hin. apply Hc_l.
        rewrite Hname in Hin. rewrite <- Hin. by apply list_elem_of_fmap_2. }
    simpl in Hsws. exists ((LogicalSwitch.name sw, sw) :: sws). split.
    + by rewrite Hsws, <- app_assoc.
    + constructor; [done|]. eapply Forall2_impl; [exact Hall|].
      intros c' kv [? Hkv]. by rewrite create_switch_frame in Hkv.
Qed.

(** X7.  When the switch names of a lab are pairwise distinct, the derived
    topology holds one switch per descriptor, in the order of the
    specification, each built from its descriptor. *)
Theorem distinct_names_in_order (cfg : LabConfig.t) (topo : Topology.t) :
  Topology.__init__ cfg = Ok topo →
  NoDup (Switch.name <$> LabConfig.switches cfg) →
  (Topology.switches topo).*1 = Switch.name <$> LabConfig.switches cfg ∧
  Forall2 (λ c sw, Topology.create_switch (Topology.blank cfg) c = Ok sw ∧
                   LogicalSwitch.name sw = Switch.name c ∧
                   LogicalSwitch.id sw = Switch.id c)
          (LabConfig.switches cfg) (Py.dict_values (Topology.switches topo)).
Proof.
  intros Hinit Hnd. destruct (init_Ok cfg topo Hinit) as (self1 & Hcs & -> & _).
  destruct (create_switches_distinct _ _ _ Hcs Hnd) as (sws & -> & Hall).
  { intros c _. simpl. apply not_elem_of_nil. }
  simpl. unfold Py.dict_values. clear -Hall.
  induction Hall as [|c [k sw] l sws [Hk Hc] _ [IH1 IH2]]; [done|].
  rewrite !fmap_cons. cbn [fst snd] in *.
  split; [by rewrite Hk, IH1|]. constructor; [|done].
  by destruct (create_switch_Ok _ c sw Hc) as (? & ? & _).
Qed.

Lemma string_app_assoc (a b c : string) : (a +:+ b) +:+ c = a +:+ (b +:+ c).
Proof.
  induction a as [|x a IH]; [done|].
  change (String x ((a +:+ b) +:+ c) = String x (a +:+ (b +:+ c))). by rewrite IH.
Qed.

Lemma created_ports (self : Topology.t) (c : Switch.t) (sw : LogicalSwitch.t) :
  Topology.create_switch self c = Ok sw →
  LogicalSwitch.vpc_name sw = Topology.vpc_name self ∧
  ∃ net,
    ipaddress.parse (Switch.subnet c) = Some net ∧
    LogicalSwitch.ports sw =
      if Py.truthy_list (Switch.ports c)
      then imap (Topology.explicit_port self (shell self c net))
                (default [] (Switch.ports c))
      else match Py.or_int (Switch.port_count c)
                   (VPC.port_count (LabConfig.vpc (Topology.config self))) with
           | Some count =>
               Topology.auto_port self (shell self c net) <$>
                 Py.range 0 (Z.min count
                   (Z.of_nat (List.length
                      (LogicalSwitch.usable_ips (shell self c net)))))
           | None => []
           end.
Proof.
  intros Hc. destruct (create_switch_shape self c sw Hc) as (net & Hp & ->).
  split.
  { by destruct (add_ports_shape self (shell self c net) c) as [ps ->]. }
  exists net. split; [done|].
  destruct (Py.truthy_list (Switch.ports c)) eqn:Ht.
  - by rewrite ports_explicit.
  - destruct (Py.or_int _ _) as [count|] eqn:Hcount.
    + by rewrite (ports_autogenerated _ _ _ count).
    + by rewrite ports_none.
Qed.

(** X8.  Explicit ports are taken over one by one and in order, with their
    name, addressing mode and address, whatever the size of the subnet;
    the full name of a port is the full name of its switch followed by the
    name of the port. *)
Theorem explicit_ports_verbatim (self : Topology.t) (c : Switch.t)
    (sw : LogicalSwitch.t) (pc : Port.t) (pcs : list Port.t) :
  Topology.create_switch self c = Ok sw →
  Switch.ports c = Some (pc :: pcs) →
  Forall2 (λ pc p,
             LogicalSwitchPort.port_name p = Port.name pc ∧
             LogicalSwitchPort.addressing p = Port.addressing pc ∧
             LogicalSwitchPort.ip p = Port.ip pc ∧
             LogicalSwitchPort.full_name p =
               LogicalSwitch.full_name sw +:+ "-" +:+ Port.name pc)
          (pc :: pcs) (LogicalSwitch.ports sw).
Proof.
  intros Hc Hps. destruct (created_ports self c sw Hc) as (Hvpc & net & _ & ->).
  destruct (create_switch_Ok self c sw Hc) as (Hname & _).
  rewrite Hps. cbn [Py.truthy_list from_option id].
  apply Forall2_same_length_lookup_2; [by rewrite length_imap|].
  intros i pc' p Hi. rewrite list_lookup_imap, Hi. intros [= <-]. simpl.
  unfold LogicalSwitchPort.full_name, LogicalSwitch.full_name. simpl.
  rewrite Hvpc, Hname. repeat split; try done.
  by rewrite !string_app_assoc.
Qed.

(** X9.  On a descriptor without explicit ports, [_add_ports_to_switch]
    appends the autogenerated ports to those of the switch and leaves its
    DHCP flag alone.  Their number is the port count asked for (of the
    descriptor or else of the VPC), cut down to the size of the pool, and
    zero when no count is given.  The autogenerated port number i (from 0)
    is named lsp(i+1); its full name is the VPC name of the topology, the
    name of the switch and its own name, joined by dashes; it has no
    address; it is dynamic when the switch has DHCP and unknown otherwise.
    The full names of these ports are pairwise distinct. *)
Theorem autogenerated_ports_named (self : Topology.t) (sw : LogicalSwitch.t)
    (sc : Switch.t) :
  Py.truthy_list (Switch.ports sc) = false →
  let switch := Topology._add_ports_to_switch self sw sc in
  ∃ new : list LogicalSwitchPort.t,
    LogicalSwitch.ports switch = LogicalSwitch.ports sw ++ new ∧
    LogicalSwitch.dhcp_enable switch = LogicalSwitch.dhcp_enable sw ∧
    List.length new =
      match Py.or_int (Switch.port_count sc)
              (VPC.port_count (LabConfig.vpc (Topology.config self))) with
      | Some port_count =>
          Z.to_nat (Z.min port_count
                      (Z.of_nat (List.length (LogicalSwitch.usable_ips sw))))
      | None => 0%nat
      end ∧
    (∀ (i : nat) p, new !! i = Some p →
       LogicalSwitchPort.port_name p = "lsp" +:+ Py.str_int (Z.of_nat i + 1) ∧
       LogicalSwitchPort.full_name p =
         Topology.vpc_name self +:+ "-" +:+ LogicalSwitch.name sw +:+
         "-lsp" +:+ Py.str_int (Z.of_nat i + 1) ∧
       LogicalSwitchPort.ip p = None ∧
       LogicalSwitchPort.addressing p =
         if LogicalSwitch.dhcp_enable sw then DYNAMIC else UNKNOWN) ∧
    NoDup (LogicalSwitchPort.full_name <$> new).
Proof.
  intros Ht switch.
  assert (LogicalSwitch.dhcp_enable switch = LogicalSwitch.dhcp_enable sw) as Hd.
  { subst switch. by destruct (add_ports_shape self sw sc) as [ps ->]. }
  destruct (Py.or_int (Switch.port_count sc)
              (VPC.port_count (LabConfig.vpc (Topology.config self))))
    as [count|] eqn:Hcount.
  2: { exists []. subst switch. rewrite (ports_none self sw sc Ht Hcount).
       rewrite app_nil_r. repeat split; try done. constructor. }
  set (new := Topology.auto_port self sw <$>
                Py.range 0 (Z.min count
                  (Z.of_nat (List.length (LogicalSwitch.usable_ips sw))))).
  assert (∀ (i : nat) p, new !! i = Some p →
            p = Topology.auto_port self sw (Z.of_nat i)) as Hlookup.
  { intros i p. subst new. rewrite list_lookup_fmap, lookup_range.
    case_bool_decide; [|done]. simpl. by intros [= <-]. }
  assert (∀ (i : nat) p, new !! i = Some p →
            LogicalSwitchPort.full_name p =
              Topology.vpc_name self +:+ "-" +:+ LogicalSwitch.name sw +:+
              "-lsp" +:+ Py.str_int (Z.of_nat i + 1)) as Hfull.
  { intros i p Hi. rewrite (Hlookup i p Hi).
    unfold LogicalSwitchPort.full_name. simpl. by rewrite ?string_app_assoc. }
  exists new. split; [|split; [done|split; [|split]]].
  - subst switch new. by apply ports_autogenerated.
  - subst new. rewrite length_fmap, length_range. f_equal. lia.
  - intros i p Hi. split; [|split; [by apply Hfull|]].
    + by rewrite (Hlookup i p Hi).
    + by rewrite (Hlookup i p Hi).
  - apply NoDup_alt. intros i j n.
    rewrite !list_lookup_fmap.
    destruct (new !! i) as [p|] eqn:Hi; [|done].
    destruct (new !! j) as [q|] eqn:Hj; [|done].
    simpl. intros [= <-] [= Heq].
    rewrite (Hfull i p Hi), (Hfull j q Hj) in Heq.
    do 4 apply String.app_inj in Heq.
    apply (inj pretty) in Heq. lia.
Qed.

Lemma created_port_mac (self : Topology.t) (c : Switch.t) (sw : LogicalSwitch.t)
    (i : nat) (p : LogicalSwitchPort.t) :
  Topology.create_switch self c = Ok sw →
  LogicalSwitch.ports sw !! i = Some p →
  LogicalSwitchPort.mac p =
    Topology.mac_prefix self +:+ ":" +:+ Py.format_02x (Topology.vpc_id self) +:+
    ":" +:+ Py.format_02x (Switch.id c) +:+ ":" +:+ Py.format_02x (Z.of_nat i + 1).
Proof.
  intros Hc. destruct (created_ports self c sw Hc) as (_ & net & _ & ->).
  destruct (Py.truthy_list (Switch.ports c)).
  - rewrite list_lookup_imap. destruct (_ !! i) as [pc|]; [|done].
    by intros [= <-].
  - destruct (Py.or_int _ _); [|done].
    rewrite list_lookup_fmap, lookup_range. case_bool_decide; [|done].
    simpl. by intros [= <-].
Qed.

(** X10.  In the topology derived from a valid lab no two ports share a MAC
    address: ports with the same MAC are the same port of the same
    switch. *)
Theorem macs_are_unique (raw : LabConfig.raw) (cfg : LabConfig.t)
    (topo : Topology.t) (sw1 sw2 : LogicalSwitch.t) (i1 i2 : nat)
    (p1 p2 : LogicalSwitchPort.t) :
  LabConfig.validate raw = Ok cfg →
  Topology.__init__ cfg = Ok topo →
  sw1 ∈ Py.dict_values (Topology.switches topo) →
  sw2 ∈ Py.dict_values (Topology.switches topo) →
  LogicalSwitch.ports sw1 !! i1 = Some p1 →
  LogicalSwitch.ports sw2 !! i2 = Some p2 →
  LogicalSwitchPort.mac p1 = LogicalSwitchPort.mac p2 →
  sw1 = sw2 ∧ i1 = i2.
Proof.
  intros Hv Hinit [n1 Hsw1]%elem_of_dict_values [n2 Hsw2]%elem_of_dict_values
    Hp1 Hp2 Hmac.
  destruct (validate_Ok raw cfg Hv) as (_ & _ & Hnd & _).
  destruct (init_Ok cfg topo Hinit) as (self1 & Hcs & Hsws & _).
  rewrite Hsws in Hsw1, Hsw2.
  destruct (derived_entries cfg self1 Hcs) as (_ & Hfrom & _).
  destruct (Hfrom n1 sw1 Hsw1) as (k1 & c1 & Hk1 & _ & _ & Hc1).
  destruct (Hfrom n2 sw2 Hsw2) as (k2 & c2 & Hk2 & _ & _ & Hc2).
  rewrite (created_port_mac _ c1 sw1 i1 p1 Hc1 Hp1),
    (created_port_mac _ c2 sw2 i2 p2 Hc2 Hp2) in Hmac.
  do 4 apply String.app_inj in Hmac.
  apply colon_separated_inj in Hmac as [Hid Hidx]; [|apply format_02x_allowed..].
  apply (f_equal parse_02x) in Hid, Hidx. rewrite !parse_format_02x in Hid, Hidx.
  split; [|lia].
  assert (k1 = k2) as ->.
  { eapply NoDup_lookup; [exact Hnd| |]; rewrite list_lookup_fmap.
    - by rewrite Hk1.
    - rewrite Hk2. simpl. by rewrite Hid. }
  congruence.
Qed.
End deriver.

(** ** The operations of [build] *)

Section build_trace.
Import schema ovn_builder.
Context {NB : Type} `{Northbound NB}.
Implicit Types (s : @OvnBuilder.state NB) (switch : SwitchView.t)
  (router : RouterView.t) (port : PortView.t) (topology : TopologyView.t).

Lemma create_router_ops router s :
  ∃ ops, List.concat (OvnBuilder._create_logical_router router s).2 =
           List.concat s.2 ++ ops ∧
         (ops = [] ∨
          ops = [lr_add (RouterView.full_name router) owned
                   [("always_learn_from_arp_request", "false");
                    ("dynamic_neigh_routers", "true")]]).
Proof.
  unfold OvnBuilder._create_logical_router.
  destruct (lr_get _ s.1).
  - exists []. rewrite app_nil_r. eauto.
  - eexists. rewrite commit_txn_ops. eauto.
Qed.

Lemma create_switch_ops switch s :
  ∃ ops, List.concat (OvnBuilder._create_logical_switch switch s).2 =
           List.concat s.2 ++ ops ∧
         (ops = [] ∨
          ops = [ls_add (SwitchView.full_name switch)
                   [("ovn-lab-builder", "true");
                    ("switch-type", SwitchType_value (SwitchView.type switch))]
                   [("subnet", SwitchView.subnet_str switch)]]).
Proof.
  unfold OvnBuilder._create_logical_switch.
  destruct (ls_get _ s.1).
  - exists []. rewrite app_nil_r. eauto.
  - eexists. rewrite commit_txn_ops. eauto.
Qed.

Lemma create_dhcp_ops switch s :
  ∃ ops,
    List.concat (if SwitchView.dhcp_enable switch
                    && Py.truthy_list (SwitchView.dhcp_options switch)
                 then OvnBuilder._create_dhcp_options switch s else s).2 =
      List.concat s.2 ++ ops ∧
    (ops = [] ∨
     SwitchView.dhcp_enable switch = true ∧
     ∃ options exclude,
       SwitchView.dhcp_options switch = Some options ∧
       ops = [dhcp_options_add (ipaddress.str_network (SwitchView.subnet switch))
                options owned;
              ls_set_dhcpv4_options (SwitchView.full_name switch)] ++ exclude ∧
       (exclude = [] ∨
        ∃ ips, exclude = [ls_set_other_config (SwitchView.full_name switch)
                            [("exclude_ips", ips)]])).
Proof.
  destruct (SwitchView.dhcp_enable switch); cbn [andb];
    [|exists []; rewrite app_nil_r; eauto].
  unfold OvnBuilder._create_dhcp_options.
  destruct (SwitchView.dhcp_options switch) as [[|o options]|]; cbn [Py.truthy_list];
    [exists []; rewrite app_nil_r; eauto| |exists []; rewrite app_nil_r; eauto].
  eexists. rewrite commit_txn_ops. split; [done|]. right. split; [done|].
  eexists _, _. split; [done|]. split; [done|].
  destruct (_ && _); eauto.
Qed.

Lemma create_port_ops switch port s :
  ∃ ops, List.concat (OvnBuilder._create_logical_switch_port switch port s).2 =
           List.concat s.2 ++ ops ∧
         (ops = [] ∨
          ∃ addresses,
            ops = [lsp_add (SwitchView.full_name switch) (PortView.full_name port) owned;
                   lsp_set_addresses (PortView.full_name port) addresses;
                   lsp_set_port_security (PortView.full_name port)
                     (PortView.port_security port)]).
Proof.
  unfold OvnBuilder._create_logical_switch_port.
  destruct (lsp_get _ s.1).
  - exists []. rewrite app_nil_r. eauto.
  - eexists. rewrite commit_txn_ops. eauto.
Qed.

Lemma create_ports_ops switch (ports : list PortView.t) s :
  ∃ opss,
    List.concat
      (foldl (λ s port, OvnBuilder._create_logical_switch_port switch port s)
             s ports).2 = List.concat s.2 ++ List.concat opss ∧
    Forall2 (λ port ops,
               ops = [] ∨
               ∃ addresses,
                 ops = [lsp_add (SwitchView.full_name switch)
                          (PortView.full_name port) owned;
                        lsp_set_addresses (PortView.full_name port) addresses;
                        lsp_set_port_security (PortView.full_name port)
                          (PortView.port_security port)])
            ports opss.
Proof.
  apply (foldl_ops (λ s port, OvnBuilder._create_logical_switch_port switch port s)).
  intros s' port _. apply create_port_ops.
Qed.

Lemma connect_ops switch router s :
  ∃ ops,
    List.concat (OvnBuilder._connect_switch_to_router switch router s).2.2 =
      List.concat s.2 ++ ops ∧
    (ops = [] ∨
     ∃ ip mac router_side switch_side,
       SwitchView.router_port_ip switch = Some ip ∧
       SwitchView.router_port_mac switch = Ok (Some mac) ∧
       ops = router_side ++ switch_side ∧
       (router_side = [] ∨
        router_side = [lrp_add (RouterView.full_name router)
                         (OvnBuilder.router_port_name switch router) mac [ip] owned]) ∧
       (switch_side = [] ∨
        switch_side =
          [lsp_add (SwitchView.full_name switch)
             (OvnBuilder.switch_port_name switch router) owned;
           lsp_set_type (OvnBuilder.switch_port_name switch router) "router";
           lsp_set_options (OvnBuilder.switch_port_name switch router)
             [("router-port", OvnBuilder.router_port_name switch router)];
           lsp_set_addresses (OvnBuilder.switch_port_name switch router) ["router"]])).
Proof.
  unfold OvnBuilder._connect_switch_to_router.
  destruct (SwitchView.router_port_mac switch) as [router_mac|];
    [|exists []; rewrite app_nil_r; eauto].
  destruct (negb (Py.truthy_str (SwitchView.router_port_ip switch)) ||
            negb (Py.truthy_str router_mac)) eqn:Hgiven;
    [exists []; rewrite app_nil_r; eauto|].
  apply orb_false_elim in Hgiven as [Hip Hmac].
  destruct (SwitchView.router_port_ip switch) as [ip|]; [|done].
  destruct router_mac as [mac|]; [|done].
  destruct (lrp_get _ s.1), (lsp_get _ s.1); cbn [andb negb fst snd];
    try (exists []; rewrite app_nil_r; eauto; fail);
    (eexists; rewrite commit_txn_ops; split; [done|]; right;
     eexists ip, mac, _, _; split; [done|]; split; [done|]; split; [done|]; eauto).
Qed.

Lemma build_switch_ops topology switch s :
  ∃ segment,
    List.concat (OvnBuilder.build_switch topology switch s).2.2 =
      List.concat s.2 ++ segment ∧
    ∃ switch_add dhcp_add port_adds attach,
                 segment = switch_add ++ dhcp_add ++ port_adds ++ attach ∧
                 (switch_add = [] ∨
                  switch_add =
                    [ls_add (SwitchView.full_name switch)
                       [("ovn-lab-builder", "true");
                        ("switch-type", SwitchType_value (SwitchView.type switch))]
                       [("subnet", SwitchView.subnet_str switch)]]) ∧
                 (dhcp_add = [] ∨
                  SwitchView.dhcp_enable switch = true ∧
                  ∃ options exclude,
                    SwitchView.dhcp_options switch = Some options ∧
                    dhcp_add =
                      [dhcp_options_add
                         (ipaddress.str_network (SwitchView.subnet switch))
                         options owned;
                       ls_set_dhcpv4_options (SwitchView.full_name switch)] ++
                      exclude ∧
                    (exclude = [] ∨
                     ∃ ips, exclude =
                              [ls_set_other_config (SwitchView.full_name switch)
                                 [("exclude_ips", ips)]])) ∧
                 Forall (λ o, ∃ port addresses,
                           port ∈ SwitchView.ports switch ∧
                           (o = lsp_add (SwitchView.full_name switch)
                                  (PortView.full_name port) owned ∨
                            o = lsp_set_addresses (PortView.full_name port) addresses ∨
                            o = lsp_set_port_security (PortView.full_name port)
                                  (PortView.port_security port))) port_adds ∧
                 (attach = [] ∨
                  ∃ router ip mac router_side switch_side,
                    SwitchView.routed switch = true ∧
                    TopologyView.router topology = Some router ∧
                    SwitchView.router_port_ip switch = Some ip ∧
                    SwitchView.router_port_mac switch = Ok (Some mac) ∧
                    attach = router_side ++ switch_side ∧
                    (router_side = [] ∨
                     router_side =
                       [lrp_add (RouterView.full_name router)
                          (OvnBuilder.router_port_name switch router) mac [ip] owned]) ∧
                    (switch_side = [] ∨
                     switch_side =
                       [lsp_add (SwitchView.full_name switch)
                          (OvnBuilder.switch_port_name switch router) owned;
                        lsp_set_type (OvnBuilder.switch_port_name switch router)
                          "router";
                        lsp_set_options (OvnBuilder.switch_port_name switch router)
                          [("router-port",
                            OvnBuilder.router_port_name switch router)];
                        lsp_set_addresses
                          (OvnBuilder.switch_port_name switch router) ["router"]])).
Proof.
  unfold OvnBuilder.build_switch. cbv zeta.
  destruct (create_switch_ops switch s) as (o1 & H1 & Q1).
  destruct (create_dhcp_ops switch (OvnBuilder._create_logical_switch switch s))
    as (o2 & H2 & Q2).
  destruct (create_ports_ops switch (SwitchView.ports switch)
              (if SwitchView.dhcp_enable switch
                  && Py.truthy_list (SwitchView.dhcp_options switch)
               then OvnBuilder._create_dhcp_options switch
                      (OvnBuilder._create_logical_switch switch s)
               else OvnBuilder._create_logical_switch switch s))
    as (o3 & H3 & Q3).
  set (s3 := foldl (λ s port, OvnBuilder._create_logical_switch_port switch port s)
                   _ (SwitchView.ports switch)) in *.
  assert (Forall (λ o, ∃ port addresses,
                    port ∈ SwitchView.ports switch ∧
                    (o = lsp_add (SwitchView.full_name switch)
                           (PortView.full_name port) owned ∨
                     o = lsp_set_addresses (PortView.full_name port) addresses ∨
                     o = lsp_set_port_security (PortView.full_name port)
                           (PortView.port_security port))) (List.concat o3)) as Q3'.
  { clear -Q3. induction Q3 as [|port ops ports opss Hhd _ IH]; [constructor|].
    simpl. apply Forall_app. split.
    - destruct Hhd as [->|[addresses ->]]; [constructor|].
      repeat constructor; exists port, addresses; (split; [left|]); eauto.
    - eapply Forall_impl; [exact IH|]. intros o (p & a & Hp & Ho).
      exists p, a. split; [by right|done]. }
  assert (List.concat s3.2 = List.concat s.2 ++ o1 ++ o2 ++ List.concat o3) as H123.
  { etrans; [exact H3|].
    transitivity ((List.concat s.2 ++ o1 ++ o2) ++ List.concat o3);
      [|by rewrite <- !app_assoc].
    f_equal. etrans; [exact H2|]. rewrite app_assoc. f_equal. exact H1. }
  destruct (SwitchView.routed switch) eqn:Hrouted;
    [destruct (TopologyView.router topology) as [router|] eqn:Hrouter|].
  - destruct (connect_ops switch router s3) as (o4 & H4 & Q4).
    exists (o1 ++ o2 ++ List.concat o3 ++ o4). split.
    { rewrite H4, H123. by rewrite <- !app_assoc. }
    exists o1, o2, (List.concat o3), o4. repeat (split; [done|]).
    destruct Q4 as [->|(ip & mac & rs & ss & ? & ? & ? & ? & ?)]; [by left|].
    right. exists router, ip, mac, rs, ss. done.
  - exists (o1 ++ o2 ++ List.concat o3 ++ []). split.
    { cbn [snd]. rewrite H123. by rewrite app_nil_r. }
    exists o1, o2, (List.concat o3), []. repeat (split; [done|]). by left.
  - exists (o1 ++ o2 ++ List.concat o3 ++ []). split.
    { cbn [snd]. rewrite H123. by rewrite app_nil_r. }
    exists o1, o2, (List.concat o3), []. repeat (split; [done|]). by left.
Qed.

(** The loop of [build] stops at the first switch whose attachment raises:
    the switches visited are a prefix of the list. *)
Lemma build_switches_ops (Q : SwitchView.t → list op → Prop) topology
    (l : list SwitchView.t) :
  (∀ s x, x ∈ l →
     ∃ ops, List.concat (OvnBuilder.build_switch topology x s).2.2 =
              List.concat s.2 ++ ops ∧ Q x ops) →
  ∀ s, ∃ opss,
    List.concat (OvnBuilder.build_switches topology l s).2.2 =
      List.concat s.2 ++ List.concat opss ∧
    Forall2 Q (take (List.length opss) l) opss ∧
    ((OvnBuilder.build_switches topology l s).1 = Ok () →
     List.length opss = List.length l).
Proof.
  induction l as [|x l IH]; intros Hstep s.
  - exists []. simpl. rewrite app_nil_r. done.
  - destruct (Hstep s x) as (ops & Hops & HQ); [left|].
    cbn [OvnBuilder.build_switches].
    destruct (OvnBuilder.build_switch topology x s) as [[[]|e] s1].
    + destruct (IH (λ s' y Hy, Hstep s' y (list_elem_of_further _ _ _ Hy)) s1)
        as (opss & Hopss & HQs & Hlen).
      exists (ops :: opss). cbn [snd] in Hops. rewrite Hopss, Hops.
      simpl. rewrite <- app_assoc.
      split; [done|]. split; [by constructor|]. intros Hok. by rewrite Hlen.
    + exists [ops]. simpl in *. rewrite app_nil_r, take_0.
      split; [done|]. split; [by repeat constructor|done].
Qed.

(** X11.  The operations of [build] come in this order: at most the
    creation of the router, then one segment per switch visited, in the
    order of the topology, and within a segment the creation of the switch,
    then its DHCP options, then its ports, then its attachment to the
    router.  The switches visited are all of them when [build] returns, and
    a prefix of the list when it raises. *)
Theorem build_order topology s :
  ∃ (router_add : list op) (segments : list (list op)),
    List.concat (OvnBuilder.build topology s).2.2 =
      List.concat s.2 ++ router_add ++ List.concat segments ∧
    (router_add = [] ∨
     ∃ router, TopologyView.router topology = Some router ∧
               router_add =
                 [lr_add (RouterView.full_name router) owned
                    [("always_learn_from_arp_request", "false");
                     ("dynamic_neigh_routers", "true")]]) ∧
    ((OvnBuilder.build topology s).1 = Ok () →
     List.length segments = List.length (TopologyView.switches topology)) ∧
    Forall2 (λ switch segment,
               ∃ switch_add dhcp_add port_adds attach,
                 segment = switch_add ++ dhcp_add ++ port_adds ++ attach ∧
                 (switch_add = [] ∨
                  switch_add =
                    [ls_add (SwitchView.full_name switch)
                       [("ovn-lab-builder", "true");
                        ("switch-type", SwitchType_value (SwitchView.type switch))]
                       [("subnet", SwitchView.subnet_str switch)]]) ∧
                 (dhcp_add = [] ∨
                  SwitchView.dhcp_enable switch = true ∧
                  ∃ options exclude,
                    SwitchView.dhcp_options switch = Some options ∧
                    dhcp_add =
                      [dhcp_options_add
                         (ipaddress.str_network (SwitchView.subnet switch))
                         options owned;
                       ls_set_dhcpv4_options (SwitchView.full_name switch)] ++
                      exclude ∧
                    (exclude = [] ∨
                     ∃ ips, exclude =
                              [ls_set_other_config (SwitchView.full_name switch)
                                 [("exclude_ips", ips)]])) ∧
                 Forall (λ o, ∃ port addresses,
                           port ∈ SwitchView.ports switch ∧
                           (o = lsp_add (SwitchView.full_name switch)
                                  (PortView.full_name port) owned ∨
                            o = lsp_set_addresses (PortView.full_name port) addresses ∨
                            o = lsp_set_port_security (PortView.full_name port)
                                  (PortView.port_security port))) port_adds ∧
                 (attach = [] ∨
                  ∃ router ip mac router_side switch_side,
                    SwitchView.routed switch = true ∧
                    TopologyView.router topology = Some router ∧
                    SwitchView.router_port_ip switch = Some ip ∧
                    SwitchView.router_port_mac switch = Ok (Some mac) ∧
                    attach = router_side ++ switch_side ∧
                    (router_side = [] ∨
                     router_side =
                       [lrp_add (RouterView.full_name router)
                          (OvnBuilder.router_port_name switch router) mac [ip] owned]) ∧
                    (switch_side = [] ∨
                     switch_side =
                       [lsp_add (SwitchView.full_name switch)
                          (OvnBuilder.switch_port_name switch router) owned;
                        lsp_set_type (OvnBuilder.switch_port_name switch router)
                          "router";
                        lsp_set_options (OvnBuilder.switch_port_name switch router)
                          [("router-port",
                            OvnBuilder.router_port_name switch router)];
                        lsp_set_addresses
                          (OvnBuilder.switch_port_name switch router) ["router"]])))
            (take (List.length segments) (TopologyView.switches topology)) segments.
Proof.
  unfold OvnBuilder.build. cbv zeta.
  set (s0 := match TopologyView.router topology with
             | Some router => OvnBuilder._create_logical_router router s
             | None => s
             end).
  assert (∃ ops, List.concat s0.2 = List.concat s.2 ++ ops ∧
                 (ops = [] ∨
                  ∃ router, TopologyView.router topology = Some router ∧
                            ops = [lr_add (RouterView.full_name router) owned
                                     [("always_learn_from_arp_request", "false");
                                      ("dynamic_neigh_routers", "true")]]))
    as (o0 & H0 & Q0).
  { unfold s0. destruct (TopologyView.router topology) as [router|].
    - destruct (create_router_ops router s) as (ops & Hops & [->| ->]);
        eexists; split; eauto.
    - exists []. rewrite app_nil_r. eauto. }
  opose proof (build_switches_ops _ topology (TopologyView.switches topology)
                 (λ s' x _, build_switch_ops topology x s') s0)
    as (opss & Hops & HQ & Hlen).
  exists o0, opss. split; [|done].
  rewrite Hops, H0. by rewrite <- app_assoc.
Qed.

End build_trace.

Section creates_and_deletes.
Import schema ovn_builder.
Context {NB : Type} `{Northbound NB}.
Implicit Types (s : @OvnBuilder.state NB) (switch : SwitchView.t)
  (router : RouterView.t) (port : PortView.t) (topology : TopologyView.t).

Lemma build_never_deletes topology s :
  ∃ ops,
    List.concat (OvnBuilder.build topology s).2.2 = List.concat s.2 ++ ops ∧
    Forall (λ o, is_delete o = false) ops.
Proof.
  unfold OvnBuilder.build. cbv zeta.
  set (s0 := match TopologyView.router topology with
             | Some router => OvnBuilder._create_logical_router router s
             | None => s
             end).
  assert (∃ ops, List.concat s0.2 = List.concat s.2 ++ ops ∧
                 Forall (λ o, is_delete o = false) ops) as (o0 & H0 & Q0).
  { unfold s0. destruct (TopologyView.router topology) as [router|].
    - destruct (create_router_ops router s) as (ops & Hops & [->| ->]);
        eexists; split; eauto; by repeat constructor.
    - exists []. rewrite app_nil_r. eauto. }
  opose proof (build_switches_ops (λ _ ops, Forall (λ o, is_delete o = false) ops)
                 topology (TopologyView.switches topology) _ s0)
    as (opss & Hops & HQ & _).
  { intros s' switch _.
    destruct (build_switch_ops topology switch s')
      as (segment & Hseg & o1 & o2 & o3 & o4 & -> & Q1 & Q2 & Q3 & Q4).
    eexists. split; [exact Hseg|].
    repeat (apply Forall_app; split).
    - destruct Q1 as [->| ->]; by repeat constructor.
    - destruct Q2 as [->|(_ & options & exclude & _ & -> & [->|[ips ->]])];
        by repeat constructor.
    - eapply Forall_impl; [exact Q3|].
      by intros o (port & addresses & _ & [->|[->| ->]]).
    - destruct Q4 as [->|(router & ip & mac & rs & ss & _ & _ & _ & _ & -> & Q5 & Q6)];
        [constructor|].
      apply Forall_app. split.
      + destruct Q5 as [->| ->]; by repeat constructor.
      + destruct Q6 as [->| ->]; by repeat constructor. }
  exists (o0 ++ List.concat opss). split.
  { rewrite Hops, H0. by rewrite <- app_assoc. }
  apply Forall_app. split; [done|].
  clear -HQ. induction HQ; [constructor|]. simpl. by apply Forall_app.
Qed.

Lemma destroy_only_deletes topology s :
  ∃ ops,
    List.concat (OvnBuilder.destroy topology s).2 = List.concat s.2 ++ ops ∧
    Forall (λ o, is_delete o = true) ops.
Proof.
  unfold OvnBuilder.destroy. cbv zeta.
  opose proof (foldl_ops (λ s switch, OvnBuilder.destroy_switch switch s)
                 (λ _ ops, Forall (λ o, is_delete o = true) ops)
                 (TopologyView.switches topology) _) as Hloop.
  { intros s' switch _.
    destruct (destroy_switch_ops switch s')
      as (segment & Hseg & o1 & o2 & o3 & -> & Q1 & Q2 & Q3).
    exists (o1 ++ o2 ++ o3). split; [done|].
    repeat (apply Forall_app; split).
    - eapply Forall_impl; [exact Q1|]. by intros o (port & _ & ->).
    - destruct Q2 as [->|(_ & uuid & ->)]; by repeat constructor.
    - destruct Q3 as [->| ->]; by repeat constructor. }
  match goal with
  | |- context [foldl _ ?s2 (TopologyView.switches topology)] =>
      destruct (Hloop s2) as (opss3 & Hops3 & HQ3)
  end.
  destruct (delete_router_if_any_ops topology
              (OvnBuilder.destroy_attachments topology s)) as (ops2 & Hops2 & HQ2).
  destruct (destroy_attachments_ops topology s) as (ops1 & Hops1 & HQ1).
  exists (ops1 ++ ops2 ++ List.concat opss3). split.
  { etrans; [exact Hops3|].
    transitivity ((List.concat s.2 ++ ops1 ++ ops2) ++ List.concat opss3);
      [|by rewrite <- !app_assoc].
    f_equal. etrans; [exact Hops2|]. rewrite app_assoc. f_equal. exact Hops1. }
  repeat (apply Forall_app; split).
  - eapply Forall_impl; [exact HQ1|].
    by intros o (switch & router & _ & _ & _ & [->| ->]).
  - destruct HQ2 as [->|(router & _ & ->)]; by repeat constructor.
  - clear -HQ3. induction HQ3; [constructor|]. simpl. by apply Forall_app.
Qed.

(** X12.  [build] issues no delete operation, and [destroy] issues nothing
    but delete operations. *)
Theorem build_and_destroy_operations topology s :
  (∃ ops,
     List.concat (OvnBuilder.build topology s).2.2 = List.concat s.2 ++ ops ∧
     Forall (λ o, is_delete o = false) ops) ∧
  (∃ ops,
     List.concat (OvnBuilder.destroy topology s).2 = List.concat s.2 ++ ops ∧
     Forall (λ o, is_delete o = true) ops).
Proof. split; [apply build_never_deletes|apply destroy_only_deletes]. Qed.
End creates_and_deletes.

Section unattached.
Import schema topology ovn_builder.
Context {NB : Type} `{Northbound NB} `{ipaddress.Parser}.

(** X13.  Building a derived topology never creates a router port, nor a
    switch port of type router: no switch of a derived topology has a
    router MAC, so no routed switch is ever attached to the router. *)
Theorem derived_switches_never_attached (cfg : LabConfig.t) (topo : Topology.t)
    (s : @OvnBuilder.state NB) :
  Topology.__init__ cfg = Ok topo →
  ∃ ops,
    List.concat (OvnBuilder.build (main.view_topology topo) s).2.2 =
      List.concat s.2 ++ ops ∧
    Forall (λ o, match o with
                 | lrp_add _ _ _ _ _ | lsp_set_type _ _ | lsp_set_options _ _ => False
                 | _ => True
                 end) ops.
Proof.
  intros Hinit.
  unfold OvnBuilder.build. cbv zeta.
  set (topology := main.view_topology topo).
  set (s0 := match TopologyView.router topology with
             | Some router => OvnBuilder._create_logical_router router s
             | None => s
             end).
  assert (∃ ops, List.concat s0.2 = List.concat s.2 ++ ops ∧
                 Forall (λ o, match o with
                              | lrp_add _ _ _ _ _ | lsp_set_type _ _
                              | lsp_set_options _ _ => False
                              | _ => True
                              end) ops) as (o0 & Hs0 & Q0).
  { unfold s0. destruct (TopologyView.router topology) as [router|].
    - destruct (create_router_ops router s) as (ops & Hops & [->| ->]);
        eexists; split; eauto; by repeat constructor.
    - exists []. rewrite app_nil_r. eauto. }
  opose proof (build_switches_ops
                 (λ _ ops, Forall (λ o, match o with
                                        | lrp_add _ _ _ _ _ | lsp_set_type _ _
                                        | lsp_set_options _ _ => False
                                        | _ => True
                                        end) ops)
                 topology (TopologyView.switches topology) _ s0)
    as (opss & Hops & HQ & _).
  { intros s' switch Hin.
    destruct (build_switch_ops topology switch s')
      as (segment & Hseg & o1 & o2 & o3 & o4 & -> & Q1 & Q2 & Q3 & Q4).
    eexists. split; [exact Hseg|].
    repeat (apply Forall_app; split).
    - destruct Q1 as [->| ->]; by repeat constructor.
    - destruct Q2 as [->|(_ & options & exclude & _ & -> & [->|[ips ->]])];
        by repeat constructor.
    - eapply Forall_impl; [exact Q3|].
      by intros o (port & addresses & _ & [->|[->| ->]]).
    - destruct Q4 as [->|(router & ip & mac & rs & ss & _ & _ & _ & Hmac & _)];
        [constructor|]. exfalso.
      simpl in Hin. apply list_elem_of_fmap in Hin as (sw & -> & Hsw).
      apply elem_of_dict_values in Hsw as [n Hsw].
      destruct (init_Ok cfg topo Hinit) as (self1 & Hcs & Hsws & _).
      rewrite Hsws in Hsw.
      destruct (derived_entries cfg self1 Hcs) as (_ & Hfrom & _).
      destruct (Hfrom n sw Hsw) as (k & c & _ & _ & _ & Hc).
      by eapply created_switch_has_no_mac. }
  exists (o0 ++ List.concat opss). split.
  { rewrite Hops, Hs0. by rewrite <- app_assoc. }
  apply Forall_app. split; [done|].
  clear -HQ. induction HQ; [constructor|]. simpl. by apply Forall_app.
Qed.
End unattached.

Section dhcp_free.
Import schema topology ovn_builder.
Context {NB : Type} `{Northbound NB} `{ipaddress.Parser}
        `{Py.Platform} `{Ovsdbapp}.


(** The builder is made from the two socket paths of the directory given,
    or of the default directory of the platform. *)
Lemma builder_strings (socket_dir : option string) :
  let dir :=
    if Py.truthy_str socket_dir then default EmptyString socket_dir
    else if String.eqb Py.sys_platform "darwin"
         then "/opt/local/var/run/ovn" else "/var/run/ovn" in
  main.builder socket_dir =
    OvnBuilder.__init__ ("unix:" +:+ dir +:+ "/ovnnb_db.sock")
                        ("unix:" +:+ dir +:+ "/ovnsb_db.sock").
Proof.
  unfold main.builder, utils.get_connection_strings.
  destruct socket_dir as [d|]; [|done].
  cbn [utils.northbound utils.southbound default from_option id].
  by destruct (Py.truthy_str (Some d)).
Qed.

End dhcp_free.

Section empty_lab.
Import schema topology ovn_builder pydantic.
Context {NB : Type} `{Northbound NB} `{ipaddress.Parser}
        `{Py.Platform} `{Ovsdbapp}.

(** X22.  A lab without switches whose MAC prefix is accepted is valid,
    whatever default port count its VPC gives; the outcome of [build] and
    of [destroy] is then the outcome of making the builder, and neither
    commits a transaction. *)
Theorem lab_without_switches (raw : LabConfig.raw)
    (socket_dir : option string) (s : @OvnBuilder.state NB) :
  LabConfig.raw_switches raw = [] →
  Py.is_ok (VPC.validate_mac_prefix (VPC.mac_prefix (LabConfig.raw_vpc raw))) = true →
  Py.is_ok (LabConfig.validate raw) = true ∧
  main.build raw socket_dir s = (main.builder socket_dir, s) ∧
  main.destroy raw socket_dir s = (main.builder socket_dir, s).
Proof.
  intros Hnil Hmac.
  destruct (VPC.validate_mac_prefix (VPC.mac_prefix (LabConfig.raw_vpc raw)))
    as [m|] eqn:Hm; [|done].
  assert (LabConfig.validate raw =
          Ok {| LabConfig.vpc :=
                  {| VPC.name := VPC.name (LabConfig.raw_vpc raw);
                     VPC.mac_prefix := m;
                     VPC.id := VPC.id (LabConfig.raw_vpc raw);
                     VPC.port_count := VPC.port_count (LabConfig.raw_vpc raw) |};
                LabConfig.switches := [] |}) as Hv.
  { apply validate_intro.
    - unfold VPC.validate. by rewrite Hm.
    - by rewrite Hnil.
    - constructor.
    - done. }
  split; [by rewrite Hv|].
  unfold main.build, main.destroy, main.derive. rewrite Hv.
  cbn [mbind res_bind Py.bind].
  change (Topology.__init__ _) with (Ok (Topology.blank
    {| LabConfig.vpc :=
         {| VPC.name := VPC.name (LabConfig.raw_vpc raw);
            VPC.mac_prefix := m;
            VPC.id := VPC.id (LabConfig.raw_vpc raw);
            VPC.port_count := VPC.port_count (LabConfig.raw_vpc raw) |};
       LabConfig.switches := [] |})).
  cbv beta iota.
  by destruct (main.builder socket_dir) as [[]|e].
Qed.
End empty_lab.

(** ** DHCP options *)

Section dhcp_exclusion.
Import schema topology ovn_builder ipaddress.
Context {NB : Type} `{Northbound NB}.

Lemma length_hosts_le_30 (n : IPv4Network) :
  wf n → prefixlen n ≤ 30 →
  Z.of_nat (List.length (hosts n)) = 2 ^ (32 - prefixlen n) - 2.
Proof.
  intros Hwf Hp. destruct (hosts_le_30 n Hwf Hp) as [-> Hlt].
  rewrite length_range, (broadcast_address_wf n Hwf).
  pose proof (pow2_hostbits n Hwf Hp). lia.
Qed.

(** X16.  For a DHCP-enabled switch with options on a well-formed subnet,
    the hosts that [usable_ips] leaves out are exactly the addresses that
    the builder tells the control plane to exclude: the first four hosts
    when the prefix length is at most 29, none otherwise. *)
Theorem reserved_hosts_are_excluded (sw : LogicalSwitch.t)
    (s : @OvnBuilder.state NB) (o : string * string)
    (options : list (string * string)) :
  wf (LogicalSwitch.subnet sw) →
  LogicalSwitch.dhcp_enable sw = true →
  LogicalSwitch.dhcp_options sw = Some (o :: options) →
  let all := hosts (LogicalSwitch.subnet sw) in
  let reserved :=
    take (List.length all - List.length (LogicalSwitch.usable_ips sw)) all in
  reserved ++ LogicalSwitch.usable_ips sw = all ∧
  OvnBuilder._create_dhcp_options (main.view_switch sw) s =
    OvnBuilder.commit_txn
      ([dhcp_options_add (str_network (LogicalSwitch.subnet sw)) (o :: options) owned;
        ls_set_dhcpv4_options (LogicalSwitch.full_name sw)] ++
       match reserved with
       | [] => []
       | _ => [ls_set_other_config (LogicalSwitch.full_name sw)
                 [("exclude_ips", String.concat "," (str_address <$> reserved))]]
       end) s.
Proof.
  intros Hwf Hd Ho all reserved. unfold OvnBuilder._create_dhcp_options.
  cbn [main.view_switch SwitchView.dhcp_options SwitchView.subnet
       SwitchView.full_name]. rewrite Ho. fold all.
  assert (prefixlen (LogicalSwitch.subnet sw) ≤ 29 ∨
          30 ≤ prefixlen (LogicalSwitch.subnet sw) ≤ 32) as [Hp|Hp]
    by (destruct Hwf as [? _]; lia).
  - pose proof (length_hosts_le_30 _ Hwf ltac:(lia)) as Hlen.
    pose proof (pow2_hostbits_29 _ Hwf Hp) as Hpow. fold all in Hlen.
    assert (LogicalSwitch.usable_ips sw = drop 4 all) as Hu.
    { unfold LogicalSwitch.usable_ips. fold all.
      rewrite (proj2 (Z.eqb_neq _ 31)) by lia. rewrite Hd. cbn [andb].
      by rewrite (proj2 (Nat.ltb_lt 4 (List.length all))) by lia. }
    assert (reserved = take 4 all) as ->.
    { unfold reserved. rewrite Hu, length_drop. f_equal. lia. }
    rewrite Hu, take_drop. split; [done|].
    rewrite (proj2 (Z.ltb_lt _ 31)) by lia.
    rewrite (proj2 (Nat.leb_le 4 (List.length all))) by lia. cbn [andb].
    destruct all as [|a [|b [|c [|d rest]]]]; simpl in Hlen; try lia. done.
  - assert (LogicalSwitch.usable_ips sw = all) as Hu.
    { unfold LogicalSwitch.usable_ips. fold all.
      destruct (Z.eqb_spec (prefixlen (LogicalSwitch.subnet sw)) 31) as [H31|H31].
      - unfold all, hosts. by rewrite (proj2 (Z.eqb_eq _ 31)).
      - destruct (decide (prefixlen (LogicalSwitch.subnet sw) = 30)) as [H30|H30].
        + pose proof (length_hosts_le_30 _ Hwf ltac:(lia)) as Hlen.
          fold all in Hlen. rewrite H30 in Hlen. simpl in Hlen.
          rewrite (proj2 (Nat.ltb_ge 4 (List.length all))) by lia.
          by rewrite andb_false_r.
        + assert (all = [network_address (LogicalSwitch.subnet sw)]) as ->
            by (apply hosts_32; lia).
          simpl. by rewrite andb_false_r. }
    assert (reserved = []) as ->.
    { unfold reserved. rewrite Hu, Nat.sub_diag. apply take_0. }
    split; [by rewrite Hu|].
    assert ((prefixlen (LogicalSwitch.subnet sw) <? 31) &&
            (4 <=? List.length all)%nat = false) as ->; [|done].
    destruct (decide (prefixlen (LogicalSwitch.subnet sw) = 30)) as [H30|H30].
    + pose proof (length_hosts_le_30 _ Hwf ltac:(lia)) as Hlen.
      fold all in Hlen. rewrite H30 in Hlen. simpl in Hlen.
      rewrite (proj2 (Nat.leb_gt 4 (List.length all))) by lia.
      by rewrite andb_false_r.
    + by rewrite (proj2 (Z.ltb_ge _ 31)) by lia.
Qed.

(** X17.  Deleting the DHCP options of a switch deletes the first row of the
    listing whose CIDR is the subnet of the switch, whoever owns it, and
    nothing when there is no such row. *)
Theorem delete_dhcp_first_match (switch : SwitchView.t) (s : @OvnBuilder.state NB) :
  let cidr := str_network (SwitchView.subnet switch) in
  let rows := dhcp_options_list s.1 in
  ((cidr ∉ rows.*2) ∧ OvnBuilder._delete_dhcp_options switch s = s) ∨
  (∃ pre uuid post,
     rows = pre ++ (uuid, cidr) :: post ∧ (cidr ∉ pre.*2) ∧
     OvnBuilder._delete_dhcp_options switch s =
       OvnBuilder.commit_txn [dhcp_options_del uuid] s).
Proof.
  intros cidr rows. unfold OvnBuilder._delete_dhcp_options. fold cidr rows.
  generalize rows. clear rows. intros rows.
  induction rows as [|[u c] rows IH]; simpl.
  - left. split; [apply not_elem_of_nil|done].
  - destruct (String.eqb_spec c cidr) as [->|Hne].
    + right. exists [], u, rows. split; [done|]. split; [apply not_elem_of_nil|done].
    + destruct IH as [[Hnot Heq]|(pre & uuid & post & -> & Hpre & Heq)].
      * left. split; [by apply not_elem_of_cons|done].
      * right. exists ((u, c) :: pre), uuid, post. split; [done|].
        split; [by apply not_elem_of_cons|done].
Qed.
End dhcp_exclusion.

Section dhcp_gateway.
Import schema topology ipaddress.

(** X20.  When the DHCP options of a switch can be set, the server and the
    router that they announce are the first host of the subnet, which is
    the address of the router port, and the server MAC is the MAC of the
    router port. *)
Theorem dhcp_router_is_gateway (self : Topology.t) (sw sw' : LogicalSwitch.t) :
  Topology._setup_dhcp_options self sw = Ok sw' →
  LogicalSwitch.dhcp_enable sw = true →
  hosts (LogicalSwitch.subnet sw) ≠ [] →
  ∃ gateway mac,
    head (hosts (LogicalSwitch.subnet sw)) = Some gateway ∧
    LogicalSwitch.dhcp_server_mac sw = Ok mac ∧
    LogicalSwitch.dhcp_options sw' =
      Some [("server_id", str_address gateway); ("server_mac", mac);
            ("router", str_address gateway); ("dns_server", "8.8.8.8");
            ("lease_time", "3600")] ∧
    LogicalSwitch.ports sw' = LogicalSwitch.ports sw ∧
    (LogicalSwitch.routed sw = true →
       LogicalSwitch.router_port_ip sw' =
         Some (str_address gateway +:+ "/" +:+
               Py.str_int (prefixlen (LogicalSwitch.subnet sw))) ∧
       LogicalSwitch.router_port_mac sw' = Ok (Some mac)).
Proof.
  unfold Topology._setup_dhcp_options. intros Hset Hd Hh. rewrite Hd in Hset.
  cbn [negb] in Hset.
  destruct (hosts (LogicalSwitch.subnet sw)) as [|gateway rest] eqn:Hhosts; [done|].
  destruct (LogicalSwitch.dhcp_server_mac sw) as [mac|] eqn:Hmac; [|done].
  injection Hset as <-. exists gateway, mac.
  repeat match goal with |- _ ∧ _ => split; [done|] end.
  intros Hr. split.
  - unfold LogicalSwitch.router_port_ip. simpl. by rewrite Hr, Hhosts.
  - unfold LogicalSwitch.router_port_mac. simpl. rewrite Hr, Hd. simpl.
    unfold LogicalSwitch.dhcp_server_mac in *. simpl.
    destruct (LogicalSwitch.vpc_mac_prefix sw); [|done].
    destruct (LogicalSwitch.vpc_id sw); [|done]. by injection Hmac as <-.
Qed.
End dhcp_gateway.

(** ** Building twice *)

Section idempotence.
Import schema ovn_builder contracts.
Context {NB : Type} `{Lawful NB}.
Implicit Types (s : @OvnBuilder.state NB) (switch : SwitchView.t)
  (router : RouterView.t) (port : PortView.t) (topology : TopologyView.t).

Lemma grows_refl (nb : NB) : grows nb nb.
Proof. intros n. done. Qed.

Lemma grows_trans (nb1 nb2 nb3 : NB) : grows nb1 nb2 → grows nb2 nb3 → grows nb1 nb3.
Proof.
  intros H12 H23 n. destruct (H12 n) as (? & ? & ? & ?), (H23 n) as (? & ? & ? & ?).
  repeat split; auto.
Qed.

Lemma grows_commit (txn : list op) s :
  Forall (λ o, is_delete o = false) txn → grows s.1 (OvnBuilder.commit_txn txn s).1.
Proof.
  intros Htxn n. simpl. repeat split; intros Hn.
  - by apply lr_get_kept.
  - by apply ls_get_kept.
  - by apply lsp_get_kept.
  - by apply lrp_get_kept.
Qed.

Lemma settled_grows topology switch (nb nb' : NB) :
  grows nb nb' → settled topology switch nb → settled topology switch nb'.
Proof.
  intros Hg (Hls & Hports & Hattach). split; [by apply Hg|]. split.
  - intros port Hport. by apply Hg, Hports.
  - intros router Hr Hrt mac Hmac Hip Hm.
    destruct (Hattach router Hr Hrt mac Hmac Hip Hm). split; by apply Hg.
Qed.

Lemma create_router_grows router s :
  grows s.1 (OvnBuilder._create_logical_router router s).1 ∧
  lr_get (RouterView.full_name router)
         (OvnBuilder._create_logical_router router s).1 = true.
Proof.
  unfold OvnBuilder._create_logical_router.
  destruct (lr_get _ s.1) eqn:Hget; [split; [apply grows_refl|done]|].
  split; [apply grows_commit; by repeat constructor|].
  simpl. eapply lr_get_added; [by repeat constructor|left].
Qed.

Lemma create_switch_grows switch s :
  grows s.1 (OvnBuilder._create_logical_switch switch s).1 ∧
  ls_get (SwitchView.full_name switch)
         (OvnBuilder._create_logical_switch switch s).1 = true.
Proof.
  unfold OvnBuilder._create_logical_switch.
  destruct (ls_get _ s.1) eqn:Hget; [split; [apply grows_refl|done]|].
  split; [apply grows_commit; by repeat constructor|].
  simpl. eapply ls_get_added; [by repeat constructor|left].
Qed.

Lemma create_port_grows switch port s :
  grows s.1 (OvnBuilder._create_logical_switch_port switch port s).1 ∧
  lsp_get (PortView.full_name port)
          (OvnBuilder._create_logical_switch_port switch port s).1 = true.
Proof.
  unfold OvnBuilder._create_logical_switch_port.
  destruct (lsp_get _ s.1) eqn:Hget; [split; [apply grows_refl|done]|].
  split; [apply grows_commit; by repeat constructor|].
  simpl. eapply lsp_get_added; [by repeat constructor|left].
Qed.

Lemma create_ports_grows switch (ports : list PortView.t) s :
  let s' := foldl (λ s port, OvnBuilder._create_logical_switch_port switch port s)
                  s ports in
  grows s.1 s'.1 ∧ ∀ port, port ∈ ports → lsp_get (PortView.full_name port) s'.1 = true.
Proof.
  revert s. induction ports as [|port ports IH]; intros s; simpl.
  - split; [apply grows_refl|]. intros port Hport. by apply elem_of_nil in Hport.
  - destruct (create_port_grows switch port s) as [Hg Hport].
    destruct (IH (OvnBuilder._create_logical_switch_port switch port s)) as [Hg' Hall].
    split; [by eapply grows_trans|].
    intros port' [->|Hin]%elem_of_cons; [by apply Hg'|by apply Hall].
Qed.

Lemma create_ports_settled switch (ports : list PortView.t) s :
  (∀ port, port ∈ ports → lsp_get (PortView.full_name port) s.1 = true) →
  foldl (λ s port, OvnBuilder._create_logical_switch_port switch port s) s ports = s.
Proof.
  induction ports as [|port ports IH]; intros Hall; [done|]. simpl.
  unfold OvnBuilder._create_logical_switch_port at 2.
  rewrite Hall by left. apply IH. intros port' Hin. apply Hall. by right.
Qed.

Lemma connect_grows switch router s :
  let out := OvnBuilder._connect_switch_to_router switch router s in
  grows s.1 out.2.1 ∧
  ∀ mac, SwitchView.router_port_mac switch = Ok mac →
         Py.truthy_str (SwitchView.router_port_ip switch) = true →
         Py.truthy_str mac = true →
         lrp_get (OvnBuilder.router_port_name switch router) out.2.1 = true ∧
         lsp_get (OvnBuilder.switch_port_name switch router) out.2.1 = true.
Proof.
  unfold OvnBuilder._connect_switch_to_router.
  destruct (SwitchView.router_port_mac switch) as [router_mac|];
    [|split; [apply grows_refl|done]].
  destruct (Py.truthy_str (SwitchView.router_port_ip switch)) eqn:Hip;
    [|split; [apply grows_refl|done]].
  destruct (Py.truthy_str router_mac) eqn:Hmac; cbn [negb orb];
    [|split; [apply grows_refl|]; by intros mac [= <-]; rewrite Hmac].
  destruct (lrp_get _ s.1) eqn:Hrp, (lsp_get _ s.1) eqn:Hsp; cbn [andb negb fst snd].
  - split; [apply grows_refl|]. by intros mac _ _ _.
  - split; [apply grows_commit; by repeat constructor|]. intros mac _ _ _. split.
    + by apply lrp_get_kept; [repeat constructor|].
    + eapply lsp_get_added; [by repeat constructor|left].
  - split; [apply grows_commit; by repeat constructor|]. intros mac _ _ _. split.
    + eapply lrp_get_added; [by repeat constructor|left].
    + by apply lsp_get_kept; [repeat constructor|].
  - split; [apply grows_commit; by repeat constructor|]. intros mac _ _ _. split.
    + eapply lrp_get_added; [by repeat constructor|left].
    + eapply lsp_get_added; [by repeat constructor|right; left].
Qed.

Lemma connect_settled switch router s s' :
  (∀ mac, SwitchView.router_port_mac switch = Ok mac →
          Py.truthy_str (SwitchView.router_port_ip switch) = true →
          Py.truthy_str mac = true →
          lrp_get (OvnBuilder.router_port_name switch router) s'.1 = true ∧
          lsp_get (OvnBuilder.switch_port_name switch router) s'.1 = true) →
  OvnBuilder._connect_switch_to_router switch router s' =
    ((OvnBuilder._connect_switch_to_router switch router s).1, s').
Proof.
  intros Hattach. unfold OvnBuilder._connect_switch_to_router.
  destruct (SwitchView.router_port_mac switch) as [router_mac|]; [|done].
  destruct (Py.truthy_str (SwitchView.router_port_ip switch)) eqn:Hip; [|done].
  destruct (Py.truthy_str router_mac) eqn:Hmac; cbn [negb orb]; [|done].
  destruct (Hattach router_mac) as [-> ->]; [done..|].
  cbn [andb]. by destruct (lrp_get _ s.1 && lsp_get _ s.1).
Qed.

Lemma create_dhcp_grows switch s :
  grows s.1 (OvnBuilder._create_dhcp_options switch s).1.
Proof.
  unfold OvnBuilder._create_dhcp_options.
  destruct (SwitchView.dhcp_options switch) as [[|o options]|];
    [apply grows_refl| |apply grows_refl].
  apply grows_commit. destruct (_ && _); by repeat constructor.
Qed.

Lemma build_switch_settles topology switch s :
  let out := OvnBuilder.build_switch topology switch s in
  grows s.1 out.2.1 ∧ settled topology switch out.2.1.
Proof.
  unfold OvnBuilder.build_switch. cbv zeta.
  destruct (create_switch_grows switch s) as [Hg1 Hls].
  set (s1 := OvnBuilder._create_logical_switch switch s) in *.
  set (s2 := if SwitchView.dhcp_enable switch
                && Py.truthy_list (SwitchView.dhcp_options switch)
             then OvnBuilder._create_dhcp_options switch s1 else s1).
  assert (grows s1.1 s2.1) as Hg12.
  { unfold s2. destruct (_ && _); [apply create_dhcp_grows|apply grows_refl]. }
  destruct (create_ports_grows switch (SwitchView.ports switch) s2) as [Hg2 Hports].
  set (s3 := foldl _ s2 _) in *.
  assert (grows s.1 s3.1) as Hg
    by (eapply grows_trans; [exact Hg1|]; by eapply grows_trans).
  assert (ls_get (SwitchView.full_name switch) s3.1 = true) as Hls3
    by by apply Hg2, Hg12.
  destruct (SwitchView.routed switch) eqn:Hrouted;
    [destruct (TopologyView.router topology) as [router|] eqn:Hrouter|].
  - destruct (connect_grows switch router s3) as [Hg3 Hattach].
    split; [by eapply grows_trans|].
    split; [by apply Hg3|]. split.
    + intros port Hport. by apply Hg3, Hports.
    + intros router' _ Hr'. rewrite Hrouter in Hr'. injection Hr' as <-.
      exact Hattach.
  - split; [done|]. split; [done|]. split; [done|].
    intros router' _ Hr'. by rewrite Hrouter in Hr'.
  - split; [done|]. split; [done|]. split; [done|].
    intros router' Hr'. by rewrite Hrouted in Hr'.
Qed.

Lemma build_switch_settled topology switch s s' :
  SwitchView.dhcp_enable switch && Py.truthy_list (SwitchView.dhcp_options switch)
    = false →
  settled topology switch s'.1 →
  OvnBuilder.build_switch topology switch s' =
    ((OvnBuilder.build_switch topology switch s).1, s').
Proof.
  intros Hdhcp (Hls & Hports & Hattach).
  unfold OvnBuilder.build_switch. cbv zeta. rewrite Hdhcp.
  assert (OvnBuilder._create_logical_switch switch s' = s') as ->.
  { unfold OvnBuilder._create_logical_switch. by rewrite Hls. }
  rewrite (create_ports_settled switch _ s' Hports).
  destruct (SwitchView.routed switch) eqn:Hrouted; cbn [fst];
    [destruct (TopologyView.router topology) as [router|] eqn:Hrouter|].
  2, 3: done.
  rewrite (connect_settled switch router
             (foldl (λ s port, OvnBuilder._create_logical_switch_port switch port s)
                    (OvnBuilder._create_logical_switch switch s)
                    (SwitchView.ports switch)) s'); [done|].
  by apply Hattach.
Qed.

Lemma build_switches_settles topology (l : list SwitchView.t) s :
  (∀ switch, switch ∈ l →
     SwitchView.dhcp_enable switch && Py.truthy_list (SwitchView.dhcp_options switch)
       = false) →
  let out := OvnBuilder.build_switches topology l s in
  grows s.1 out.2.1 ∧
  ∀ s', grows out.2.1 s'.1 → OvnBuilder.build_switches topology l s' = (out.1, s').
Proof.
  revert s. induction l as [|switch l IH]; intros s Hdhcp; cbn [OvnBuilder.build_switches].
  - split; [apply grows_refl|done].
  - destruct (build_switch_settles topology switch s) as [Hg Hset].
    pose proof (λ s' Hs', build_switch_settled topology switch s s'
                            (Hdhcp switch (list_elem_of_here _ _)) Hs') as Hagain.
    destruct (OvnBuilder.build_switch topology switch s) as [[[]|e] s1];
      cbn [fst snd] in *.
    + destruct (IH s1) as [Hg' Hrest];
        [intros sw Hsw; apply Hdhcp; by right|].
      split; [by eapply grows_trans|].
      intros s' Hs'. rewrite Hagain.
      * by apply Hrest.
      * eapply settled_grows; [|exact Hset]. by eapply grows_trans.
    + split; [done|]. intros s' Hs'. rewrite Hagain; [done|].
      by eapply settled_grows.
Qed.

(** X14.  On a control plane that keeps the contract, and for a topology
    none of whose switches gets DHCP options, a second [build] commits
    nothing and ends as the first did. *)
Theorem build_twice topology s :
  (∀ switch, switch ∈ TopologyView.switches topology →
     SwitchView.dhcp_enable switch && Py.truthy_list (SwitchView.dhcp_options switch)
       = false) →
  let first := OvnBuilder.build topology s in
  OvnBuilder.build topology first.2 = (first.1, first.2).
Proof.
  intros Hdhcp. unfold OvnBuilder.build. cbv zeta.
  set (s0 := match TopologyView.router topology with
             | Some router => OvnBuilder._create_logical_router router s
             | None => s
             end).
  destruct (build_switches_settles topology (TopologyView.switches topology) s0 Hdhcp)
    as [Hg Hagain].
  set (out := OvnBuilder.build_switches topology (TopologyView.switches topology) s0)
    in *.
  assert (match TopologyView.router topology with
          | Some router => OvnBuilder._create_logical_router router out.2
          | None => out.2
          end = out.2) as ->.
  { destruct (TopologyView.router topology) as [router|]; [|done].
    unfold OvnBuilder._create_logical_router.
    destruct (create_router_grows router s) as [_ Hlr].
    fold s0 in Hlr. apply Hg in Hlr. by rewrite Hlr. }
  apply Hagain, grows_refl.
Qed.

Lemma build_switches_done topology (l : list SwitchView.t) s :
  let out := OvnBuilder.build_switches topology l s in
  grows s.1 out.2.1 ∧
  (out.1 = Ok () → ∀ switch, switch ∈ l → settled topology switch out.2.1).
Proof.
  revert s. induction l as [|switch l IH]; intros s; cbn [OvnBuilder.build_switches].
  - split; [apply grows_refl|]. intros _ switch Hin. by apply elem_of_nil in Hin.
  - destruct (build_switch_settles topology switch s) as [Hg Hset].
    destruct (OvnBuilder.build_switch topology switch s) as [[[]|e] s1];
      cbn [fst snd] in *; [|done].
    destruct (IH s1) as [Hg' Hrest]. split; [by eapply grows_trans|].
    intros Hok sw [->|Hin]%elem_of_cons; [|by apply Hrest].
    by eapply settled_grows.
Qed.

(** X18.  On a control plane that keeps the contract, when [build] returns
    the router, every switch, every port and, for every routed switch with
    a gateway address and MAC, both interfaces of its attachment exist. *)
Theorem build_creates_everything topology s :
  (OvnBuilder.build topology s).1 = Ok () →
  let nb := (OvnBuilder.build topology s).2.1 in
  (∀ router, TopologyView.router topology = Some router →
     lr_get (RouterView.full_name router) nb = true) ∧
  (∀ switch, switch ∈ TopologyView.switches topology →
     ls_get (SwitchView.full_name switch) nb = true ∧
     (∀ port, port ∈ SwitchView.ports switch →
        lsp_get (PortView.full_name port) nb = true) ∧
     (∀ router ip mac,
        SwitchView.routed switch = true →
        TopologyView.router topology = Some router →
        SwitchView.router_port_ip switch = Some ip → ip ≠ EmptyString →
        SwitchView.router_port_mac switch = Ok (Some mac) → mac ≠ EmptyString →
        lrp_get (OvnBuilder.router_port_name switch router) nb = true ∧
        lsp_get (OvnBuilder.switch_port_name switch router) nb = true)).
Proof.
  unfold OvnBuilder.build. cbv zeta.
  set (s0 := match TopologyView.router topology with
             | Some router => OvnBuilder._create_logical_router router s
             | None => s
             end).
  destruct (build_switches_done topology (TopologyView.switches topology) s0)
    as [Hg Hall].
  intros Hok. split.
  - intros router Hr. apply Hg. unfold s0. rewrite Hr.
    apply create_router_grows.
  - intros switch Hin. destruct (Hall Hok switch Hin) as (Hls & Hports & Hattach).
    split; [done|]. split; [done|].
    intros router ip mac Hrouted Hr Hip Hip_ne Hmac Hmac_ne.
    apply (Hattach router Hrouted Hr (Some mac) Hmac).
    + rewrite Hip. simpl. by destruct (String.eqb_spec ip EmptyString).
    + simpl. by destruct (String.eqb_spec mac EmptyString).
Qed.
End idempotence.

(** ** Colliding names *)

Section name_collisions.
Import schema topology ovn_builder contracts.
Context {NB : Type} `{Lawful NB}.

(** X21.  Full names are joined with hyphens, so they collide: port y-z of
    switch x and port z of switch x-y of the same VPC have the same full
    name, and on a control plane that keeps the contract the builder,
    having created the first, skips the second. *)
Theorem colliding_port_is_skipped (switch1 switch2 : SwitchView.t)
    (p q : LogicalSwitchPort.t) (x y z : string) (s : @OvnBuilder.state NB) :
  LogicalSwitchPort.vpc_name p = LogicalSwitchPort.vpc_name q →
  LogicalSwitchPort.switch_name p = x →
  LogicalSwitchPort.port_name p = y +:+ "-" +:+ z →
  LogicalSwitchPort.switch_name q = x +:+ "-" +:+ y →
  LogicalSwitchPort.port_name q = z →
  LogicalSwitchPort.full_name p = LogicalSwitchPort.full_name q ∧
  let s1 := OvnBuilder._create_logical_switch_port switch1 (main.view_port p) s in
  OvnBuilder._create_logical_switch_port switch2 (main.view_port q) s1 = s1.
Proof.
  intros Hvpc Hsp Hpp Hsq Hpq.
  assert (LogicalSwitchPort.full_name p = LogicalSwitchPort.full_name q) as Hfull.
  { unfold LogicalSwitchPort.full_name. rewrite Hvpc, Hsp, Hpp, Hsq, Hpq.
    by rewrite !string_app_assoc. }
  split; [done|]. intros s1.
  destruct (create_port_grows switch1 (main.view_port p) s) as [_ Hexists].
  fold s1 in Hexists. unfold OvnBuilder._create_logical_switch_port.
  cbn [main.view_port PortView.full_name] in *. by rewrite <- Hfull, Hexists.
Qed.
End name_collisions.

(** ** The in-memory database *)

Section memory_laws.
Import schema ovn_builder contracts examples.

Lemma apply_kept (o : op) (m : memory) :
  is_delete o = false →
  routers m ⊆ routers (apply o m) ∧ lswitches m ⊆ lswitches (apply o m) ∧
  switch_ports m ⊆ switch_ports (apply o m) ∧
  router_ports m ⊆ router_ports (apply o m).
Proof.
  destruct o; intros Ho; try done; simpl; repeat split;
    try done; apply union_subseteq_r.
Qed.

Lemma commit_kept (txn : list op) (m : memory) :
  Forall (λ o, is_delete o = false) txn →
  routers m ⊆ routers (commit txn m) ∧ lswitches m ⊆ lswitches (commit txn m) ∧
  switch_ports m ⊆ switch_ports (commit txn m) ∧
  router_ports m ⊆ router_ports (commit txn m).
Proof.
  intros Htxn. revert m. induction Htxn as [|o txn Ho _ IH]; intros m; [done|].
  destruct (apply_kept o m Ho) as (? & ? & ? & ?).
  destruct (IH (apply o m)) as (? & ? & ? & ?).
  simpl in *. repeat split; by etrans.
Qed.

Lemma commit_added (txn : list op) (m : memory) (o : op) :
  Forall (λ o, is_delete o = false) txn → o ∈ txn →
  match o with
  | lr_add n _ _ => n ∈ routers (commit txn m)
  | ls_add n _ _ => n ∈ lswitches (commit txn m)
  | lsp_add _ n _ => n ∈ switch_ports (commit txn m)
  | lrp_add _ n _ _ _ => n ∈ router_ports (commit txn m)
  | _ => True
  end.
Proof.
  intros Htxn Hin. revert m.
  induction Htxn as [|o' txn Ho' Htxn IH]; intros m; [by apply elem_of_nil in Hin|].
  apply elem_of_cons in Hin as [->|Hin]; [|by apply IH].
  destruct (commit_kept txn (apply o' m) Htxn) as (Hr & Hs & Hp & Hrp).
  destruct o'; try done; simpl in *.
  - apply Hr. simpl. apply elem_of_union_l. by apply elem_of_singleton.
  - apply Hs. simpl. apply elem_of_union_l. by apply elem_of_singleton.
  - apply Hp. simpl. apply elem_of_union_l. by apply elem_of_singleton.
  - apply Hrp. simpl. apply elem_of_union_l. by apply elem_of_singleton.
Qed.

(** The in-memory database keeps the contract. *)
Lemma memory_lawful : Lawful memory.
Proof.
  split.
  - intros txn m n Htxn Hn. apply bool_decide_eq_true in Hn.
    apply bool_decide_eq_true. by apply (commit_kept txn m Htxn).
  - intros txn m n Htxn Hn. apply bool_decide_eq_true in Hn.
    apply bool_decide_eq_true. by apply (commit_kept txn m Htxn).
  - intros txn m n Htxn Hn. apply bool_decide_eq_true in Hn.
    apply bool_decide_eq_true. by apply (commit_kept txn m Htxn).
  - intros txn m n Htxn Hn. apply bool_decide_eq_true in Hn.
    apply bool_decide_eq_true. by apply (commit_kept txn m Htxn).
  - intros txn m n e o Htxn Hin. apply bool_decide_eq_true.
    apply (commit_added txn m _ Htxn Hin).
  - intros txn m n e o Htxn Hin. apply bool_decide_eq_true.
    apply (commit_added txn m _ Htxn Hin).
  - intros txn m sw n e Htxn Hin. apply bool_decide_eq_true.
    apply (commit_added txn m _ Htxn Hin).
  - intros txn m r n mac nets e Htxn Hin. apply bool_decide_eq_true.
    apply (commit_added txn m _ Htxn Hin).
Qed.
End memory_laws.

Section round_trip.
Import schema ovn_builder examples rows.
Implicit Types (s : @OvnBuilder.state memory) (switch : SwitchView.t)
  (router : RouterView.t) (port : PortView.t) (topology : TopologyView.t)
  (m : memory).

Lemma create_router_named topology router s :
  TopologyView.router topology = Some router →
  named topology s.1 → named topology (OvnBuilder._create_logical_router router s).1.
Proof.
  intros Hr Hn. unfold OvnBuilder._create_logical_router.
  destruct (lr_get _ s.1); [done|].
  destruct Hn as (H1 & H2 & H3 & H4). split; [|done].
  intros n [->%elem_of_singleton|Hin]%elem_of_union; [eauto|by apply H1].
Qed.

Lemma create_switch_named topology switch s :
  switch ∈ TopologyView.switches topology →
  named topology s.1 → named topology (OvnBuilder._create_logical_switch switch s).1.
Proof.
  intros Hsw Hn. unfold OvnBuilder._create_logical_switch.
  destruct (ls_get _ s.1); [done|].
  destruct Hn as (H1 & H2 & H3 & H4). split; [done|]. split; [|done].
  intros n [->%elem_of_singleton|Hin]%elem_of_union; [eauto|by apply H2].
Qed.

Lemma create_dhcp_named topology switch s :
  named topology s.1 → named topology (OvnBuilder._create_dhcp_options switch s).1.
Proof.
  intros Hn. unfold OvnBuilder._create_dhcp_options.
  destruct (SwitchView.dhcp_options switch) as [[|o options]|]; [done| |done].
  simpl. by destruct (_ && _).
Qed.

Lemma create_port_named topology switch port s :
  switch ∈ TopologyView.switches topology → port ∈ SwitchView.ports switch →
  named topology s.1 →
  named topology (OvnBuilder._create_logical_switch_port switch port s).1.
Proof.
  intros Hsw Hp Hn. unfold OvnBuilder._create_logical_switch_port.
  destruct (lsp_get _ s.1); [done|].
  destruct Hn as (H1 & H2 & H3 & H4). split; [done|]. split; [done|]. split; [|done].
  intros n [->%elem_of_singleton|Hin]%elem_of_union; [|by apply H3].
  exists switch. split; [done|]. left. eauto.
Qed.

Lemma create_ports_named topology switch (ports : list PortView.t) s :
  switch ∈ TopologyView.switches topology →
  (∀ port, port ∈ ports → port ∈ SwitchView.ports switch) →
  named topology s.1 →
  named topology
    (foldl (λ s port, OvnBuilder._create_logical_switch_port switch port s) s ports).1.
Proof.
  intros Hsw. revert s. induction ports as [|port ports IH]; intros s Hsub Hn; [done|].
  simpl. apply IH; [intros p Hp; apply Hsub; by right|].
  apply create_port_named; [done|apply Hsub; left|done].
Qed.

Lemma connect_named topology switch router s :
  switch ∈ TopologyView.switches topology →
  SwitchView.routed switch = true →
  TopologyView.router topology = Some router →
  named topology s.1 →
  named topology (OvnBuilder._connect_switch_to_router switch router s).2.1.
Proof.
  intros Hsw Hrouted Hr Hn. unfold OvnBuilder._connect_switch_to_router.
  destruct (SwitchView.router_port_mac switch) as [router_mac|]; [|done].
  destruct (negb _ || negb _); [done|].
  destruct Hn as (H1 & H2 & H3 & H4).
  destruct (lrp_get _ s.1), (lsp_get _ s.1); cbn [andb negb fst snd]; [done|..];
    (split; [done|]; split; [done|]; split).
  - intros n [->%elem_of_singleton|Hin]%elem_of_union; [|by apply H3].
    exists switch. split; [done|]. right. eauto.
  - done.
  - done.
  - intros n [->%elem_of_singleton|Hin]%elem_of_union; [|by apply H4]. eauto 10.
  - intros n [->%elem_of_singleton|Hin]%elem_of_union; [|by apply H3].
    exists switch. split; [done|]. right. eauto.
  - intros n [->%elem_of_singleton|Hin]%elem_of_union; [|by apply H4]. eauto 10.
Qed.

Lemma build_switch_named topology switch s :
  switch ∈ TopologyView.switches topology →
  named topology s.1 → named topology (OvnBuilder.build_switch topology switch s).2.1.
Proof.
  intros Hsw Hn. unfold OvnBuilder.build_switch. cbv zeta.
  set (s1 := OvnBuilder._create_logical_switch switch s).
  assert (named topology s1.1) as Hn1 by by apply create_switch_named.
  set (s2 := if _ && _ then _ else _).
  assert (named topology s2.1) as Hn2.
  { unfold s2. destruct (_ && _); [by apply create_dhcp_named|done]. }
  set (s3 := foldl _ _ _).
  assert (named topology s3.1) as Hn3 by by apply create_ports_named.
  destruct (SwitchView.routed switch) eqn:Hrouted;
    [destruct (TopologyView.router topology) as [router|] eqn:Hrouter|]; [|done..].
  by apply connect_named.
Qed.

Lemma build_switches_named topology (l : list SwitchView.t) s :
  (∀ switch, switch ∈ l → switch ∈ TopologyView.switches topology) →
  named topology s.1 → named topology (OvnBuilder.build_switches topology l s).2.1.
Proof.
  revert s. induction l as [|switch l IH]; intros s Hsub Hn; [done|].
  cbn [OvnBuilder.build_switches].
  pose proof (build_switch_named topology switch s (Hsub _ (list_elem_of_here _ _)) Hn)
    as Hn1.
  destruct (OvnBuilder.build_switch topology switch s) as [[[]|e] s1]; [|done].
  apply IH; [intros sw Hsw; apply Hsub; by right|done].
Qed.

Lemma build_named topology s :
  named topology s.1 → named topology (OvnBuilder.build topology s).2.1.
Proof.
  intros Hn. unfold OvnBuilder.build. cbv zeta.
  apply build_switches_named; [done|].
  destruct (TopologyView.router topology) as [router|] eqn:Hr; [|done].
  by apply create_router_named.
Qed.

Lemma shrinks_refl m : shrinks m m.
Proof. intros n. done. Qed.

Lemma shrinks_trans m1 m2 m3 : shrinks m1 m2 → shrinks m2 m3 → shrinks m1 m3.
Proof.
  intros H12 H23 n. destruct (H12 n) as (? & ? & ? & ?), (H23 n) as (? & ? & ? & ?).
  repeat split; auto.
Qed.

Lemma delete_router_shrinks router s :
  let m' := (OvnBuilder._delete_logical_router router s).1 in
  shrinks s.1 m' ∧ (RouterView.full_name router ∉ routers m').
Proof.
  unfold OvnBuilder._delete_logical_router. simpl.
  case_bool_decide as Hin; simpl; [|split; [apply shrinks_refl|done]].
  split.
  - intros n. repeat split; try done. by intros [? _]%elem_of_difference.
  - intros [_ Hne]%elem_of_difference. by apply Hne, elem_of_singleton.
Qed.

Lemma delete_switch_shrinks switch s :
  let m' := (OvnBuilder._delete_logical_switch switch s).1 in
  shrinks s.1 m' ∧ (SwitchView.full_name switch ∉ lswitches m').
Proof.
  unfold OvnBuilder._delete_logical_switch. simpl.
  case_bool_decide as Hin; simpl; [|split; [apply shrinks_refl|done]].
  split.
  - intros n. repeat split; try done. by intros [? _]%elem_of_difference.
  - intros [_ Hne]%elem_of_difference. by apply Hne, elem_of_singleton.
Qed.

Lemma delete_port_shrinks port s :
  let m' := (OvnBuilder._delete_logical_switch_port port s).1 in
  shrinks s.1 m' ∧ (PortView.full_name port ∉ switch_ports m').
Proof.
  unfold OvnBuilder._delete_logical_switch_port. simpl.
  case_bool_decide as Hin; simpl; [|split; [apply shrinks_refl|done]].
  split.
  - intros n. repeat split; try done. by intros [? _]%elem_of_difference.
  - intros [_ Hne]%elem_of_difference. by apply Hne, elem_of_singleton.
Qed.

Lemma delete_dhcp_shrinks switch s :
  shrinks s.1 (OvnBuilder._delete_dhcp_options switch s).1.
Proof.
  unfold OvnBuilder._delete_dhcp_options.
  destruct (OvnBuilder.find_cidr _ _) as [uuid|]; [|apply shrinks_refl].
  intros x. done.
Qed.

Lemma disconnect_shrinks switch router s :
  let m' := (OvnBuilder._disconnect_switch_from_router switch router s).1 in
  shrinks s.1 m' ∧
  (OvnBuilder.router_port_name switch router ∉ router_ports m') ∧
  (OvnBuilder.switch_port_name switch router ∉ switch_ports m').
Proof.
  unfold OvnBuilder._disconnect_switch_from_router. simpl.
  case_bool_decide as Hrp; case_bool_decide as Hsp; simpl; (split; [|split]);
    try done;
    try (intros x; repeat split; try done; by intros [? _]%elem_of_difference);
    try (intros [_ Hne]%elem_of_difference; by apply Hne, elem_of_singleton).
Qed.

Lemma destroy_attachments_shrinks topology s :
  let m' := (OvnBuilder.destroy_attachments topology s).1 in
  shrinks s.1 m' ∧
  ∀ switch router,
    switch ∈ TopologyView.switches topology →
    SwitchView.routed switch = true →
    TopologyView.router topology = Some router →
    (OvnBuilder.router_port_name switch router ∉ router_ports m') ∧
    (OvnBuilder.switch_port_name switch router ∉ switch_ports m').
Proof.
  unfold OvnBuilder.destroy_attachments.
  generalize (TopologyView.switches topology). intros l. revert s.
  induction l as [|sw l IH]; intros s; simpl.
  - split; [apply shrinks_refl|]. intros switch router Hin. by apply elem_of_nil in Hin.
  - set (s1 := match SwitchView.routed sw, TopologyView.router topology with
               | true, Some router => OvnBuilder._disconnect_switch_from_router sw router s
               | _, _ => s
               end).
    destruct (IH s1) as [Hsh Hrest].
    assert (shrinks s.1 s1.1 ∧
            ∀ router, SwitchView.routed sw = true →
                      TopologyView.router topology = Some router →
                      (OvnBuilder.router_port_name sw router ∉ router_ports s1.1) ∧
                      (OvnBuilder.switch_port_name sw router ∉ switch_ports s1.1))
      as [Hsh1 Hhead].
    { unfold s1. destruct (SwitchView.routed sw);
        [destruct (TopologyView.router topology) as [r|]|].
      - destruct (disconnect_shrinks sw r s) as (? & ? & ?).
        split; [done|]. by intros router _ [= <-].
      - split; [apply shrinks_refl|done].
      - split; [apply shrinks_refl|done]. }
    split; [by eapply shrinks_trans|].
    intros switch router [->|Hin]%elem_of_cons Hrouted Hrouter; [|by apply Hrest].
    destruct (Hhead router Hrouted Hrouter) as [Hrp Hsp].
    split.
    + intros Hin. by apply Hrp, Hsh.
    + intros Hin. by apply Hsp, Hsh.
Qed.

Lemma delete_ports_shrinks (ports : list PortView.t) s :
  let m' := (foldl (λ s port, OvnBuilder._delete_logical_switch_port port s) s ports).1 in
  shrinks s.1 m' ∧ ∀ port, port ∈ ports → (PortView.full_name port ∉ switch_ports m').
Proof.
  revert s. induction ports as [|p ports IH]; intros s; simpl.
  - split; [apply shrinks_refl|]. intros port Hin. by apply elem_of_nil in Hin.
  - destruct (delete_port_shrinks p s) as [Hsh1 Hp].
    destruct (IH (OvnBuilder._delete_logical_switch_port p s)) as [Hsh Hrest].
    split; [by eapply shrinks_trans|].
    intros port [->|Hin]%elem_of_cons; [|by apply Hrest].
    intros Hin. by apply Hp, Hsh.
Qed.

Lemma destroy_switch_shrinks switch s :
  let m' := (OvnBuilder.destroy_switch switch s).1 in
  shrinks s.1 m' ∧
  (SwitchView.full_name switch ∉ lswitches m') ∧
  ∀ port, port ∈ SwitchView.ports switch → (PortView.full_name port ∉ switch_ports m').
Proof.
  unfold OvnBuilder.destroy_switch. cbv zeta.
  destruct (delete_ports_shrinks (SwitchView.ports switch) s) as [Hsh1 Hports].
  set (s1 := foldl _ s (SwitchView.ports switch)) in *.
  set (s2 := if SwitchView.dhcp_enable switch
             then OvnBuilder._delete_dhcp_options switch s1 else s1).
  assert (shrinks s1.1 s2.1) as Hsh2.
  { unfold s2. destruct (SwitchView.dhcp_enable switch);
      [apply delete_dhcp_shrinks|apply shrinks_refl]. }
  destruct (delete_switch_shrinks switch s2) as [Hsh3 Hsw].
  split; [eapply shrinks_trans; [|exact Hsh3]; by eapply shrinks_trans|].
  split; [done|].
  intros port Hport Hin. by apply (Hports port Hport), Hsh2, Hsh3.
Qed.

Lemma destroy_switches_shrinks (l : list SwitchView.t) s :
  let m' := (foldl (λ s switch, OvnBuilder.destroy_switch switch s) s l).1 in
  shrinks s.1 m' ∧
  ∀ switch, switch ∈ l →
    (SwitchView.full_name switch ∉ lswitches m') ∧
    ∀ port, port ∈ SwitchView.ports switch → (PortView.full_name port ∉ switch_ports m').
Proof.
  revert s. induction l as [|sw l IH]; intros s; simpl.
  - split; [apply shrinks_refl|]. intros switch Hin. by apply elem_of_nil in Hin.
  - destruct (destroy_switch_shrinks sw s) as (Hsh1 & Hsw & Hports).
    destruct (IH (OvnBuilder.destroy_switch sw s)) as [Hsh Hrest].
    split; [by eapply shrinks_trans|].
    intros switch [->|Hin]%elem_of_cons; [|by apply Hrest].
    split; [intros Hin; by apply Hsw, Hsh|].
    intros port Hport Hin. by apply (Hports port Hport), Hsh.
Qed.

(** What [destroy] leaves: rows that were there before and that carry no
    name of the topology. *)
Lemma destroy_clears topology s :
  let m' := (OvnBuilder.destroy topology s).1 in
  shrinks s.1 m' ∧
  (∀ router, TopologyView.router topology = Some router →
     (RouterView.full_name router ∉ routers m')) ∧
  (∀ switch, switch ∈ TopologyView.switches topology →
     (SwitchView.full_name switch ∉ lswitches m') ∧
     (∀ port, port ∈ SwitchView.ports switch →
        (PortView.full_name port ∉ switch_ports m')) ∧
     (∀ router, SwitchView.routed switch = true →
        TopologyView.router topology = Some router →
        (OvnBuilder.router_port_name switch router ∉ router_ports m') ∧
        (OvnBuilder.switch_port_name switch router ∉ switch_ports m'))).
Proof.
  unfold OvnBuilder.destroy. cbv zeta.
  destruct (destroy_attachments_shrinks topology s) as [Hsh1 Hattach].
  set (s1 := OvnBuilder.destroy_attachments topology s) in *.
  set (s2 := match TopologyView.router topology with
             | Some router => OvnBuilder._delete_logical_router router s1
             | None => s1
             end).
  assert (shrinks s1.1 s2.1 ∧
          ∀ router, TopologyView.router topology = Some router →
                    (RouterView.full_name router ∉ routers s2.1)) as [Hsh2 Hrouter].
  { unfold s2. destruct (TopologyView.router topology) as [r|].
    - destruct (delete_router_shrinks r s1) as [? ?]. split; [done|].
      by intros router [= <-].
    - split; [apply shrinks_refl|done]. }
  destruct (destroy_switches_shrinks (TopologyView.switches topology) s2)
    as [Hsh3 Hswitches].
  split; [eapply shrinks_trans; [|exact Hsh3]; by eapply shrinks_trans|].
  split.
  - intros router Hr Hin. by apply (Hrouter router Hr), Hsh3.
  - intros switch Hsw. destruct (Hswitches switch Hsw) as [Hls Hports].
    split; [done|]. split; [done|].
    intros router Hrouted Hr. destruct (Hattach switch router Hsw Hrouted Hr) as [Hrp Hsp].
    split.
    + intros Hin. by apply Hrp, Hsh2, Hsh3.
    + intros Hin. by apply Hsp, Hsh2, Hsh3.
Qed.

Lemma destroy_undoes_tables topology :
  let built := (OvnBuilder.build topology (examples.empty, [])).2 in
  let left := (OvnBuilder.destroy topology built).1 in
  routers left = ∅ ∧ lswitches left = ∅ ∧ switch_ports left = ∅ ∧ router_ports left = ∅.
Proof.
  intros built left.
  assert (named topology built.1) as (N1 & N2 & N3 & N4).
  { apply build_named. repeat split; intros n Hn; by apply not_elem_of_empty in Hn. }
  destruct (destroy_clears topology built) as (Hsh & Hr & Hsw). fold left in Hsh, Hr, Hsw.
  repeat split; apply elem_of_equiv_empty_L; intros n Hn.
  - destruct (N1 n) as (router & Hrouter & ->); [by apply Hsh|]. by apply (Hr router).
  - destruct (N2 n) as (switch & Hin & ->); [by apply Hsh|].
    by destruct (Hsw switch Hin) as (? & _).
  - destruct (N3 n) as (switch & Hin & [(port & Hport & ->)|(router & Hrd & Hrt & ->)]);
      [by apply Hsh|..]; destruct (Hsw switch Hin) as (_ & Hports & Hattach).
    + by apply (Hports port).
    + by destruct (Hattach router Hrd Hrt).
  - destruct (N4 n) as (switch & router & Hin & Hrd & Hrt & ->); [by apply Hsh|].
    destruct (Hsw switch Hin) as (_ & _ & Hattach).
    by destruct (Hattach router Hrd Hrt).
Qed.
End round_trip.

Section dhcp_rows.
Import schema ovn_builder examples rows.
Implicit Types (s : @OvnBuilder.state memory) (switch : SwitchView.t)
  (router : RouterView.t) (port : PortView.t) (topology : TopologyView.t)
  (m : memory).

Lemma create_router_rows router s :
  dhcp_rows (OvnBuilder._create_logical_router router s).1 = dhcp_rows s.1 ∧
  next_uuid (OvnBuilder._create_logical_router router s).1 = next_uuid s.1.
Proof. unfold OvnBuilder._create_logical_router. by destruct (lr_get _ s.1). Qed.

Lemma create_switch_rows switch s :
  dhcp_rows (OvnBuilder._create_logical_switch switch s).1 = dhcp_rows s.1 ∧
  next_uuid (OvnBuilder._create_logical_switch switch s).1 = next_uuid s.1.
Proof. unfold OvnBuilder._create_logical_switch. by destruct (ls_get _ s.1). Qed.

Lemma create_ports_rows switch (ports : list PortView.t) s :
  let s' := foldl (λ s port, OvnBuilder._create_logical_switch_port switch port s)
                  s ports in
  dhcp_rows s'.1 = dhcp_rows s.1 ∧ next_uuid s'.1 = next_uuid s.1.
Proof.
  revert s. induction ports as [|port ports IH]; intros s; [done|]. simpl.
  destruct (IH (OvnBuilder._create_logical_switch_port switch port s)) as [-> ->].
  unfold OvnBuilder._create_logical_switch_port. by destruct (lsp_get _ s.1).
Qed.

Lemma connect_rows switch router s :
  dhcp_rows (OvnBuilder._connect_switch_to_router switch router s).2.1 = dhcp_rows s.1 ∧
  next_uuid (OvnBuilder._connect_switch_to_router switch router s).2.1 = next_uuid s.1.
Proof.
  unfold OvnBuilder._connect_switch_to_router.
  destruct (SwitchView.router_port_mac switch) as [router_mac|]; [|done].
  destruct (negb _ || negb _); [done|].
  by destruct (lrp_get _ s.1), (lsp_get _ s.1).
Qed.

Lemma create_dhcp_rows switch s :
  wants_dhcp_options switch = true →
  let m' := (OvnBuilder._create_dhcp_options switch s).1 in
  dhcp_rows m' =
    dhcp_rows s.1 ++ [(next_uuid s.1, ipaddress.str_network (SwitchView.subnet switch))] ∧
  next_uuid m' = S (next_uuid s.1).
Proof.
  unfold wants_dhcp_options, OvnBuilder._create_dhcp_options.
  intros [_ Ho]%andb_prop.
  destruct (SwitchView.dhcp_options switch) as [[|o options]|]; try done.
  simpl. by destruct (_ && _).
Qed.

Lemma fresh_snoc m m' (c : string) :
  fresh m → dhcp_rows m' = dhcp_rows m ++ [(next_uuid m, c)] →
  next_uuid m' = S (next_uuid m) → fresh m'.
Proof.
  intros [Hnd Hlt] Hrows Hnext. split.
  - rewrite Hrows, fmap_app. apply NoDup_app. split; [done|]. split.
    + intros u Hu. simpl. intros ->%list_elem_of_singleton.
      apply list_elem_of_fmap in Hu as (row & Hu & Hrow).
      specialize (Hlt row Hrow). lia.
    + simpl. apply NoDup_singleton.
  - intros row. rewrite Hrows, Hnext, elem_of_app.
    intros [Hrow| ->%list_elem_of_singleton]; [|simpl; lia].
    specialize (Hlt row Hrow). lia.
Qed.

Lemma fresh_same m m' :
  fresh m → dhcp_rows m' = dhcp_rows m → next_uuid m' = next_uuid m → fresh m'.
Proof. intros [Hnd Hlt] Hrows Hnext. split; by rewrite Hrows, ?Hnext. Qed.

Lemma build_switch_rows topology switch s :
  fresh s.1 →
  let m' := (OvnBuilder.build_switch topology switch s).2.1 in
  fresh m' ∧
  (dhcp_rows m').*2 =
    (dhcp_rows s.1).*2 ++
    (if wants_dhcp_options switch
     then [ipaddress.str_network (SwitchView.subnet switch)] else []).
Proof.
  intros Hfresh. unfold OvnBuilder.build_switch. cbv zeta.
  fold (wants_dhcp_options switch).
  destruct (create_switch_rows switch s) as [Hr1 Hn1].
  set (s1 := OvnBuilder._create_logical_switch switch s) in *.
  set (s2 := if wants_dhcp_options switch
             then OvnBuilder._create_dhcp_options switch s1 else s1).
  assert (fresh s2.1 ∧
          (dhcp_rows s2.1).*2 =
            (dhcp_rows s.1).*2 ++
            (if wants_dhcp_options switch
             then [ipaddress.str_network (SwitchView.subnet switch)] else []))
    as [Hf2 Hr2].
  { unfold s2. destruct (wants_dhcp_options switch) eqn:Hw.
    - destruct (create_dhcp_rows switch s1 Hw) as [Hr Hn].
      split.
      + eapply (fresh_snoc s1.1); [by eapply fresh_same|done..].
      + by rewrite Hr, fmap_app, Hr1.
    - split; [by eapply fresh_same|]. by rewrite app_nil_r, Hr1. }
  destruct (create_ports_rows switch (SwitchView.ports switch) s2) as [Hr3 Hn3].
  set (s3 := foldl _ s2 _) in *.
  assert (fresh s3.1) as Hf3 by by eapply fresh_same.
  destruct (SwitchView.routed switch);
    [destruct (TopologyView.router topology) as [router|]|]; simpl;
    [|by rewrite Hr3..].
  destruct (connect_rows switch router s3) as [Hr4 Hn4].
  split; [by eapply fresh_same|]. by rewrite Hr4, Hr3.
Qed.

Lemma build_switches_rows topology (l : list SwitchView.t) s :
  fresh s.1 →
  let m' := (OvnBuilder.build_switches topology l s).2.1 in
  fresh m' ∧
  ∃ created,
    (dhcp_rows m').*2 = (dhcp_rows s.1).*2 ++ created ∧
    created `sublist_of`
      ((λ switch, ipaddress.str_network (SwitchView.subnet switch)) <$>
         filter (λ switch, wants_dhcp_options switch = true) l).
Proof.
  revert s. induction l as [|switch l IH]; intros s Hfresh.
  - split; [done|]. exists []. by rewrite app_nil_r.
  - cbn [OvnBuilder.build_switches].
    destruct (build_switch_rows topology switch s Hfresh) as [Hf1 Hr1].
    destruct (OvnBuilder.build_switch topology switch s) as [[[]|e] s1];
      cbn [fst snd] in *.
    + destruct (IH s1 Hf1) as (Hf & created & Hr & Hsub). split; [done|].
      eexists. split; [by rewrite Hr, Hr1, <- app_assoc|].
      rewrite filter_cons. destruct (wants_dhcp_options switch) eqn:Hw.
      * rewrite decide_True by done. simpl. by apply sublist_skip.
      * rewrite decide_False by done. done.
    + split; [done|]. eexists. split; [exact Hr1|].
      rewrite filter_cons. destruct (wants_dhcp_options switch) eqn:Hw.
      * rewrite decide_True by done. simpl. apply sublist_skip, sublist_nil_l.
      * apply sublist_nil_l.
Qed.

(** The scan finds the first row of the CIDR. *)
Lemma find_cidr_first (cidr : string) (rows : list (nat * string)) :
  match OvnBuilder.find_cidr cidr rows with
  | Some uuid => ∃ pre post, rows = pre ++ (uuid, cidr) :: post ∧ cidr ∉ pre.*2
  | None => cidr ∉ rows.*2
  end.
Proof.
  induction rows as [|[u c] rows IH]; simpl; [apply not_elem_of_nil|].
  destruct (String.eqb_spec c cidr) as [->|Hne].
  - exists [], rows. split; [done|]. apply not_elem_of_nil.
  - destruct (OvnBuilder.find_cidr cidr rows) as [uuid|].
    + destruct IH as (pre & post & -> & Hpre). exists ((u, c) :: pre), post.
      split; [done|]. simpl. apply not_elem_of_cons. done.
    + apply not_elem_of_cons. done.
Qed.

Lemma filter_all {A : Type} (P : A → Prop) `{∀ x, Decision (P x)} (l : list A) :
  (∀ x, x ∈ l → P x) → filter P l = l.
Proof.
  induction l as [|x l IH]; intros Hall; [done|].
  rewrite filter_cons_True by (apply Hall; left).
  rewrite IH; [done|]. intros y Hy. apply Hall. by right.
Qed.

Lemma filter_uuid (pre post : list (nat * string)) (uuid : nat) (cidr : string) :
  NoDup (pre ++ (uuid, cidr) :: post).*1 →
  filter (λ row, row.1 ≠ uuid) (pre ++ (uuid, cidr) :: post) = pre ++ post.
Proof.
  rewrite fmap_app, fmap_cons. simpl. intros Hnd.
  apply NoDup_app in Hnd as (_ & Hpre & Hpost).
  apply NoDup_cons in Hpost as [Hpost _].
  rewrite filter_app, filter_cons, decide_False by (by intros []). f_equal.
  - apply filter_all. intros row Hrow Heq.
    apply (Hpre row.1); [by apply list_elem_of_fmap_2|rewrite Heq; left].
  - apply filter_all. intros row Hrow Heq.
    apply Hpost. rewrite <- Heq. by apply list_elem_of_fmap_2.
Qed.

Lemma delete_dhcp_rows switch s (rest : list string) :
  NoDup (dhcp_rows s.1).*1 →
  (dhcp_rows s.1).*2 `sublist_of`
    ipaddress.str_network (SwitchView.subnet switch) :: rest →
  let m' := (OvnBuilder._delete_dhcp_options switch s).1 in
  NoDup (dhcp_rows m').*1 ∧ (dhcp_rows m').*2 `sublist_of` rest ∧
  (dhcp_rows m').*2 `sublist_of` (dhcp_rows s.1).*2.
Proof.
  intros Hnd Hsub. unfold OvnBuilder._delete_dhcp_options.
  pose proof (find_cidr_first (ipaddress.str_network (SwitchView.subnet switch))
                (dhcp_rows s.1)) as Hfind.
  change (dhcp_options_list s.1) with (dhcp_rows s.1).
  destruct (OvnBuilder.find_cidr _ (dhcp_rows s.1)) as [uuid|].
  - destruct Hfind as (pre & post & Hrows & Hpre). simpl.
    rewrite Hrows in *. rewrite filter_uuid by done.
    assert ((pre ++ post).*2 `sublist_of` (pre ++ (uuid, ipaddress.str_network
               (SwitchView.subnet switch)) :: post).*2) as Hless.
    { rewrite !fmap_app, fmap_cons. apply sublist_app; [done|]. by apply sublist_cons. }
    split; [|split; [|done]].
    + rewrite fmap_app in *. rewrite fmap_cons in Hnd.
      apply NoDup_app in Hnd as (Hnd1 & Hdisj & Hnd2).
      apply NoDup_cons in Hnd2 as [_ Hnd2].
      apply NoDup_app. split; [done|]. split; [|done].
      intros u Hu Hu'. apply (Hdisj u Hu). by right.
    + apply sublist_cons_r in Hsub as [Hsub|(l' & Heq & Hsub)].
      * by etrans.
      * rewrite fmap_app, fmap_cons in Heq. destruct pre as [|[u c] pre].
        -- simpl in Heq. injection Heq as <-. done.
        -- simpl in Heq. injection Heq as -> _. exfalso. apply Hpre. left.
  - split; [done|]. split; [|done].
    apply sublist_cons_r in Hsub as [Hsub|(l' & Heq & Hsub)]; [done|].
    exfalso. apply Hfind. rewrite Heq. left.
Qed.

Lemma delete_ports_rows (ports : list PortView.t) s :
  dhcp_rows (foldl (λ s port, OvnBuilder._delete_logical_switch_port port s) s ports).1
    = dhcp_rows s.1.
Proof.
  revert s. induction ports as [|port ports IH]; intros s; [done|]. simpl.
  rewrite IH. unfold OvnBuilder._delete_logical_switch_port.
  by destruct (lsp_get _ s.1).
Qed.

Lemma destroy_switch_rows switch s (rest : list string) :
  NoDup (dhcp_rows s.1).*1 →
  (dhcp_rows s.1).*2 `sublist_of`
    (if wants_dhcp_options switch
     then ipaddress.str_network (SwitchView.subnet switch) :: rest else rest) →
  let m' := (OvnBuilder.destroy_switch switch s).1 in
  NoDup (dhcp_rows m').*1 ∧ (dhcp_rows m').*2 `sublist_of` rest.
Proof.
  intros Hnd Hsub. unfold OvnBuilder.destroy_switch. cbv zeta.
  pose proof (delete_ports_rows (SwitchView.ports switch) s) as Hr1.
  set (s1 := foldl _ s (SwitchView.ports switch)) in *.
  rewrite <- Hr1 in Hnd, Hsub.
  set (s2 := if SwitchView.dhcp_enable switch
             then OvnBuilder._delete_dhcp_options switch s1 else s1).
  assert (NoDup (dhcp_rows s2.1).*1 ∧ (dhcp_rows s2.1).*2 `sublist_of` rest)
    as [Hnd2 Hsub2].
  { unfold s2, wants_dhcp_options in *.
    destruct (SwitchView.dhcp_enable switch); [|done].
    destruct (Py.truthy_list (SwitchView.dhcp_options switch)); cbn [andb] in Hsub.
    - by destruct (delete_dhcp_rows switch s1 rest Hnd Hsub) as (? & ? & _).
    - destruct (delete_dhcp_rows switch s1 rest Hnd) as (? & _ & ?);
        [by apply sublist_cons|]. split; [done|]. by etrans. }
  unfold OvnBuilder._delete_logical_switch. by destruct (ls_get _ s2.1).
Qed.

Lemma destroy_switches_rows (l : list SwitchView.t) s :
  NoDup (dhcp_rows s.1).*1 →
  (dhcp_rows s.1).*2 `sublist_of`
    ((λ switch, ipaddress.str_network (SwitchView.subnet switch)) <$>
       filter (λ switch, wants_dhcp_options switch = true) l) →
  dhcp_rows (foldl (λ s switch, OvnBuilder.destroy_switch switch s) s l).1 = [].
Proof.
  revert s. induction l as [|switch l IH]; intros s Hnd Hsub.
  - simpl in *. apply sublist_nil_r in Hsub. by destruct (dhcp_rows s.1).
  - simpl. rewrite filter_cons in Hsub.
    destruct (destroy_switch_rows switch s
                ((λ switch, ipaddress.str_network (SwitchView.subnet switch)) <$>
                   filter (λ switch, wants_dhcp_options switch = true) l) Hnd)
      as [Hnd1 Hsub1].
    { destruct (wants_dhcp_options switch) eqn:Hw.
      - by rewrite decide_True in Hsub by done.
      - by rewrite decide_False in Hsub by done. }
    by apply IH.
Qed.

Lemma destroy_attachments_rows topology s :
  dhcp_rows (OvnBuilder.destroy_attachments topology s).1 = dhcp_rows s.1.
Proof.
  unfold OvnBuilder.destroy_attachments.
  generalize (TopologyView.switches topology). intros l. revert s.
  induction l as [|sw l IH]; intros s; [done|]. simpl. rewrite IH.
  destruct (SwitchView.routed sw); [|done].
  destruct (TopologyView.router topology) as [router|]; [|done].
  unfold OvnBuilder._disconnect_switch_from_router. simpl.
  by do 2 case_bool_decide.
Qed.

Lemma destroy_undoes_dhcp topology :
  let built := (OvnBuilder.build topology (examples.empty, [])).2 in
  dhcp_rows (OvnBuilder.destroy topology built).1 = [].
Proof.
  intros built. unfold OvnBuilder.destroy. cbv zeta.
  assert (NoDup (dhcp_rows built.1).*1 ∧
          (dhcp_rows built.1).*2 `sublist_of`
            ((λ switch, ipaddress.str_network (SwitchView.subnet switch)) <$>
               filter (λ switch, wants_dhcp_options switch = true)
                      (TopologyView.switches topology))) as [Hnd Hsub].
  { unfold built, OvnBuilder.build. cbv zeta.
    set (s0 := match TopologyView.router topology with
               | Some router => OvnBuilder._create_logical_router router (examples.empty, [])
               | None => (examples.empty, [])
               end).
    assert (dhcp_rows s0.1 = [] ∧ next_uuid s0.1 = 1%nat) as [Hr0 Hn0].
    { unfold s0. destruct (TopologyView.router topology) as [router|]; [|done].
      apply create_router_rows. }
    destruct (build_switches_rows topology (TopologyView.switches topology) s0)
      as ([Hnd _] & created & Hrows & Hsub).
    { split; rewrite Hr0; [constructor|]. intros row Hrow. by apply elem_of_nil in Hrow. }
    split; [done|]. by rewrite Hrows, Hr0. }
  set (s2 := match TopologyView.router topology with
             | Some router =>
                 OvnBuilder._delete_logical_router router
                   (OvnBuilder.destroy_attachments topology built)
             | None => OvnBuilder.destroy_attachments topology built
             end).
  assert (dhcp_rows s2.1 = dhcp_rows built.1) as Hsame.
  { unfold s2. destruct (TopologyView.router topology) as [router|];
      [|apply destroy_attachments_rows].
    unfold OvnBuilder._delete_logical_router.
    destruct (negb _); [apply destroy_attachments_rows|].
    simpl. apply destroy_attachments_rows. }
  apply destroy_switches_rows; by rewrite Hsame.
Qed.

(** X15.  On the in-memory database, [destroy] run after [build] on an empty
    database leaves it empty: no router, switch, switch port or router port
    row, and no DHCP options row. *)
Theorem destroy_undoes_build topology :
  let built := (OvnBuilder.build topology (examples.empty, [])).2 in
  let left := (OvnBuilder.destroy topology built).1 in
  routers left = ∅ ∧ lswitches left = ∅ ∧ switch_ports left = ∅ ∧
  router_ports left = ∅ ∧ dhcp_rows left = [].
Proof.
  intros built left.
  destruct (destroy_undoes_tables topology) as (? & ? & ? & ?).
  repeat split; try done. apply destroy_undoes_dhcp.
Qed.
End dhcp_rows.

(** ** More worked examples *)

Section more_examples.
Import schema topology ovn_builder contracts examples.

Lemma validation_keeps_content_witness :
  LabConfig.validate explicit_ports_config = Ok (validated explicit_ports_config) ∧
  VPC.mac_prefix (LabConfig.vpc (validated explicit_ports_config)) = "e1:cc:ff".
Proof.
  assert (Hv : LabConfig.validate explicit_ports_config =
               Ok (validated explicit_ports_config)) by (vm_compute; reflexivity).
  split; [exact Hv|].
  destruct (validation_keeps_content explicit_ports_config
              (validated explicit_ports_config) Hv) as (_ & _ & _ & -> & _).
  reflexivity.
Defined.

Lemma dhcp_lab_is_not_built_witness :
  LabConfig.validate dhcp_routed_config = Ok (validated dhcp_routed_config) ∧
  main.build dhcp_routed_config None (examples.empty, []) =
    (Raise (Py.AttributeError
              "'LogicalSwitch' object has no attribute 'vpc_mac_prefix'"),
     (examples.empty, [])).
Proof.
  assert (Hv : LabConfig.validate dhcp_routed_config =
               Ok (validated dhcp_routed_config)) by (vm_compute; reflexivity).
  split; [exact Hv|].
  destruct (dhcp_lab_is_not_built dhcp_routed_config (validated dhcp_routed_config)
              {| Switch.name := "ls1"; Switch.id := 1; Switch.type := NORMAL;
                 Switch.subnet := "192.168.1.0/24"; Switch.dhcp_enable := true;
                 Switch.routed := true; Switch.port_count := Some 1;
                 Switch.ports := None |}
              (ipaddress.mk_network 3232235776 24) None (examples.empty, []) Hv)
    as (_ & Hbuild & _).
  - vm_compute. left.
  - reflexivity.
  - vm_compute. reflexivity.
  - vm_compute. discriminate.
  - exact Hbuild.
Defined.

Lemma distinct_names_in_order_witness :
  Topology.__init__ (validated two_switch_config) =
    Ok (derived (validated two_switch_config)) ∧
  (Topology.switches (derived (validated two_switch_config))).*1 = ["ls1"; "ls2"].
Proof.
  assert (Hinit : Topology.__init__ (validated two_switch_config) =
                  Ok (derived (validated two_switch_config)))
    by (vm_compute; reflexivity).
  split; [exact Hinit|].
  destruct (distinct_names_in_order (validated two_switch_config)
              (derived (validated two_switch_config)) Hinit) as [-> _].
  - vm_compute. apply NoDup_cons. split; [|apply NoDup_singleton].
    intros Hin. apply list_elem_of_singleton in Hin. discriminate.
  - vm_compute. reflexivity.
Defined.

Lemma explicit_ports_verbatim_witness :
  Topology.create_switch (Topology.blank (validated explicit_ports_config))
    explicit_ports_switch =
    Ok (created (Topology.blank (validated explicit_ports_config))
          explicit_ports_switch) ∧
  List.length
    (LogicalSwitch.ports
       (created (Topology.blank (validated explicit_ports_config))
          explicit_ports_switch)) = 2%nat.
Proof.
  assert (Hc : Topology.create_switch
                 (Topology.blank (validated explicit_ports_config))
                 explicit_ports_switch =
               Ok (created (Topology.blank (validated explicit_ports_config))
                     explicit_ports_switch)) by (vm_compute; reflexivity).
  split; [exact Hc|].
  pose proof (explicit_ports_verbatim _ _ _
                {| Port.name := "vm1"; Port.addressing := STATIC;
                   Port.ip := Some "10.0.0.10" |}
                [ {| Port.name := "vm2"; Port.addressing := DYNAMIC;
                     Port.ip := None |} ] Hc eq_refl) as Hall.
  symmetry. exact (Forall2_length _ _ _ Hall).
Defined.

Lemma autogenerated_ports_named_witness :
  let switch := Topology._add_ports_to_switch
                  (Topology.blank (validated dhcp_routed_config))
                  dhcp_shell dhcp_descriptor in
  LogicalSwitch.dhcp_enable dhcp_shell = true ∧
  (λ p, (LogicalSwitchPort.full_name p, LogicalSwitchPort.addressing p,
         LogicalSwitchPort.ip p)) <$> LogicalSwitch.ports switch =
    [("vlab-ls1-lsp1", DYNAMIC, None); ("vlab-ls1-lsp2", DYNAMIC, None)].
Proof.
  intros switch. split; [reflexivity|].
  destruct (autogenerated_ports_named
              (Topology.blank (validated dhcp_routed_config))
              dhcp_shell dhcp_descriptor eq_refl)
    as (new & Hports & _ & Hlen & Hnamed & _).
  fold switch in Hports. rewrite Hports.
  destruct new as [|p [|q [|r new]]]; try discriminate Hlen.
  change ([(LogicalSwitchPort.full_name p, LogicalSwitchPort.addressing p,
            LogicalSwitchPort.ip p);
           (LogicalSwitchPort.full_name q, LogicalSwitchPort.addressing q,
            LogicalSwitchPort.ip q)] =
          [("vlab-ls1-lsp1", DYNAMIC, None); ("vlab-ls1-lsp2", DYNAMIC, None)]).
  destruct (Hnamed 0%nat p eq_refl) as (_ & -> & -> & ->).
  destruct (Hnamed 1%nat q eq_refl) as (_ & -> & -> & ->).
  reflexivity.
Defined.

Lemma macs_are_unique_witness :
  let lab := validated two_switch_config in
  let ls1 := created (Topology.blank lab)
               (plain_validated "ls1" 1 "192.168.1.0/24" true 2) in
  LabConfig.validate two_switch_config = Ok lab ∧
  Topology.__init__ lab = Ok (derived lab) ∧
  LogicalSwitch.ports ls1 !! 0%nat = Some (Topology.auto_port (Topology.blank lab) ls1 0) ∧
  LogicalSwitch.ports ls1 !! 1%nat = Some (Topology.auto_port (Topology.blank lab) ls1 1) ∧
  LogicalSwitchPort.mac (Topology.auto_port (Topology.blank lab) ls1 0) ≠
    LogicalSwitchPort.mac (Topology.auto_port (Topology.blank lab) ls1 1).
Proof.
  intros lab ls1.
  assert (Hv : LabConfig.validate two_switch_config = Ok lab)
    by (vm_compute; reflexivity).
  assert (Hinit : Topology.__init__ lab = Ok (derived lab))
    by (vm_compute; reflexivity).
  assert (Hin : ls1 ∈ Py.dict_values (Topology.switches (derived lab)))
    by (vm_compute; left).
  assert (Hp0 : LogicalSwitch.ports ls1 !! 0%nat =
                Some (Topology.auto_port (Topology.blank lab) ls1 0))
    by (vm_compute; reflexivity).
  assert (Hp1 : LogicalSwitch.ports ls1 !! 1%nat =
                Some (Topology.auto_port (Topology.blank lab) ls1 1))
    by (vm_compute; reflexivity).
  repeat (split; [assumption|]).
  intros Hmac.
  destruct (macs_are_unique two_switch_config lab (derived lab) ls1 ls1 0 1
              _ _ Hv Hinit Hin Hin Hp0 Hp1 Hmac) as [_ Hi].
  discriminate Hi.
Defined.

Lemma derived_switches_never_attached_witness :
  Topology.__init__ routed_lab = Ok (derived routed_lab) ∧
  ∃ ops,
    List.concat (OvnBuilder.build (main.view_topology (derived routed_lab))
                   (examples.empty, [])).2.2 = ops ∧
    Forall (λ o, match o with
                 | lrp_add _ _ _ _ _ | lsp_set_type _ _ | lsp_set_options _ _ => False
                 | _ => True
                 end) ops.
Proof.
  assert (Hinit : Topology.__init__ routed_lab = Ok (derived routed_lab))
    by (vm_compute; reflexivity).
  split; [exact Hinit|].
  exact (derived_switches_never_attached routed_lab (derived routed_lab)
           (examples.empty, []) Hinit).
Defined.

Lemma build_twice_witness :
  let topology := main.view_topology (derived routed_lab) in
  let first := OvnBuilder.build topology (examples.empty, []) in
  (∀ switch, switch ∈ TopologyView.switches topology →
     SwitchView.dhcp_enable switch && Py.truthy_list (SwitchView.dhcp_options switch)
       = false) ∧
  OvnBuilder.build topology first.2 = (first.1, first.2).
Proof.
  intros topology first.
  assert (Hdhcp : ∀ switch, switch ∈ TopologyView.switches topology →
                    SwitchView.dhcp_enable switch
                      && Py.truthy_list (SwitchView.dhcp_options switch) = false).
  { intros switch Hin. vm_compute in Hin.
    apply list_elem_of_singleton in Hin. subst switch. reflexivity. }
  split; [exact Hdhcp|].
  exact (@build_twice memory memory_backend memory_lawful topology
           (examples.empty, []) Hdhcp).
Defined.

Lemma build_creates_everything_witness :
  (OvnBuilder.build mock_topology (examples.empty, [])).1 = Ok () ∧
  lsp_get "vlab-ls1-lsp1"
    (OvnBuilder.build mock_topology (examples.empty, [])).2.1 = true.
Proof.
  assert (Hok : (OvnBuilder.build mock_topology (examples.empty, [])).1 = Ok ())
    by (vm_compute; reflexivity).
  split; [exact Hok|].
  destruct (@build_creates_everything memory memory_backend memory_lawful
              mock_topology (examples.empty, []) Hok) as [_ Hall].
  destruct (Hall ls1) as (_ & Hports & _); [left|].
  apply (Hports port1). left.
Defined.

Lemma reserved_hosts_are_excluded_witness :
  ipaddress.wf (LogicalSwitch.subnet dhcp_switch) ∧
  LogicalSwitch.dhcp_enable dhcp_switch = true ∧
  take 4 (ipaddress.hosts (LogicalSwitch.subnet dhcp_switch)) ++
    LogicalSwitch.usable_ips dhcp_switch =
    ipaddress.hosts (LogicalSwitch.subnet dhcp_switch).
Proof.
  assert (Hwf : ipaddress.wf (LogicalSwitch.subnet dhcp_switch)).
  { unfold ipaddress.wf. simpl. repeat split; lia || reflexivity. }
  split; [exact Hwf|]. split; [reflexivity|].
  destruct (@reserved_hosts_are_excluded memory memory_backend dhcp_switch
              (examples.empty, []) ("server_id", "192.168.1.1")
              [("server_mac", "e1:cc:ff:01:01:00"); ("router", "192.168.1.1");
               ("dns_server", "8.8.8.8"); ("lease_time", "3600")]
              Hwf eq_refl eq_refl) as [Hsplit _].
  exact Hsplit.
Defined.


Lemma dhcp_router_is_gateway_witness :
  Topology._setup_dhcp_options (Topology.blank routed_lab) attributed_switch =
    Ok dhcp_switch ∧
  LogicalSwitch.router_port_ip dhcp_switch = Some "192.168.1.1/24" ∧
  LogicalSwitch.router_port_mac dhcp_switch = Ok (Some "e1:cc:ff:01:01:00").
Proof.
  assert (Hset : Topology._setup_dhcp_options (Topology.blank routed_lab)
                   attributed_switch = Ok dhcp_switch) by (vm_compute; reflexivity).
  split; [exact Hset|].
  destruct (dhcp_router_is_gateway (Topology.blank routed_lab) attributed_switch
              dhcp_switch Hset eq_refl)
    as (gateway & mac & Hhead & Hmac & _ & _ & Hrouted).
  - vm_compute. discriminate.
  - destruct (Hrouted eq_refl) as [-> ->].
    vm_compute in Hhead, Hmac. injection Hhead as <-. injection Hmac as <-.
    vm_compute. done.
Defined.

Lemma colliding_port_is_skipped_witness :
  let p := LogicalSwitchPort.mk "vlab" "db" "a-1" 1 1 1 "e1:cc:ff" UNKNOWN None None in
  let q := LogicalSwitchPort.mk "vlab" "db-a" "1" 1 2 1 "e1:cc:ff" UNKNOWN None None in
  LogicalSwitchPort.full_name p = "vlab-db-a-1" ∧
  LogicalSwitchPort.full_name q = "vlab-db-a-1" ∧
  List.length
    (OvnBuilder._create_logical_switch_port ls1 (main.view_port q)
       (OvnBuilder._create_logical_switch_port ls1 (main.view_port p)
          (examples.empty, []))).2 = 1%nat.
Proof.
  intros p q. split; [reflexivity|]. split; [reflexivity|].
  destruct (@colliding_port_is_skipped memory memory_backend memory_lawful
              ls1 ls1 p q "db" "a" "1" (examples.empty, [])
              eq_refl eq_refl eq_refl eq_refl eq_refl) as [_ ->].
  reflexivity.
Defined.

Lemma lab_without_switches_witness :
  let raw := {| LabConfig.raw_vpc :=
                  {| VPC.name := "vlab"; VPC.mac_prefix := "e1:cc:ff"; VPC.id := 1;
                     VPC.port_count := Some 2 |};
                LabConfig.raw_switches := [] |} in
  Py.is_ok (VPC.validate_mac_prefix (VPC.mac_prefix (LabConfig.raw_vpc raw))) = true ∧
  main.builder (Some "/tmp/ovn") =
    OvnBuilder.__init__ "unix:/tmp/ovn/ovnnb_db.sock" "unix:/tmp/ovn/ovnsb_db.sock" ∧
  main.build raw (Some "/tmp/ovn") (examples.empty, []) =
    (Ok (), (examples.empty, [])).
Proof.
  intros raw. split; [reflexivity|]. split; [reflexivity|].
  exact (proj1 (proj2 (@lab_without_switches memory memory_backend cidr_parser
                         linux patched raw (Some "/tmp/ovn")
                         (examples.empty, []) eq_refl eq_refl))).
Defined.
End more_examples.
